(** * Product catalogue routes: a shallow embedding and its properties

    The development follows [routes/productRoutes.js] (the four handlers
    mounted on [/products]) and [models/Product.js] (the Mongoose schema).

    - [JS]          ECMAScript numbers (IEEE 754 binary64) and the built-ins
                    the handlers call: [parseFloat], [toFixed],
                    [Number::toString], [Math.floor], [trim], [split],
                    [slice], [join].
    - [Validator]   the [express-validator] chains of [validateProduct].
    - [Mongoose]    the [Product] model: schema, strict construction and
                    assignment, casting, validation before a save.
    - [Routes]      the handlers, written in a state-and-exception monad
                    over the collection, the S3 bucket and a call trace.
    - [PricingSpec] the pricing formulas as the specification words them.
    - [Examples], [Scenarios]  concrete requests, environments and stores.
    - [Coverage]    vocabulary for the further properties.

    The properties come last, grouped by operation; the further properties
    follow them.

    JavaScript strings are modelled by [string]; one [ascii] stands for one
    code unit below 256. Request bodies hold primitive values only
    (strings as in a multipart form, and the JSON primitives). *)

From Stdlib Require Import ZArith String Ascii List Bool Lia.
From Stdlib Require Import Sorting.Sorted Sorting.Permutation.
From Stdlib Require Import Floats.SpecFloat.
From Stdlib Require QArith Qround.
From stdpp Require Import base gmap strings list pretty.

Open Scope string_scope.
Open Scope list_scope.
Open Scope Z_scope.

(* ===================================================================== *)
(** ** ECMAScript values and built-ins *)
(* ===================================================================== *)

Module JS.

(** *** Numbers: IEEE 754 binary64 *)

Definition number : Type := spec_float.

Definition prec : Z := 53.
Definition emax : Z := 1024.

Definition NaN : number := S754_nan.
Definition pos_zero : number := S754_zero false.

Definition num_add : number -> number -> number := SFadd prec emax.
Definition num_mul : number -> number -> number := SFmul prec emax.

(** [x >= y]; false as soon as one side is NaN. *)
Definition num_geb (x y : number) : bool := SFleb y x.

Definition is_nan (x : number) : bool :=
  match x with S754_nan => true | _ => false end.

#[global] Instance number_eq_dec : EqDecision number.
Proof. solve_decision. Defined.

(** The Number value for an integer. *)
Definition num_of_Z (z : Z) : number := binary_normalize prec emax z 0 false.

(** The Number value for [(-1)^s * p / q], rounded to nearest, ties to even. *)
Definition num_of_frac (s : bool) (p q : positive) : number :=
  SFdiv prec emax (S754_finite s p 0) (S754_finite false q 0).

(** The Number value for the decimal [(-1)^s * m * 10^e]. *)
Definition num_of_dec (s : bool) (m : N) (e : Z) : number :=
  match m with
  | N0 => S754_zero s
  | Npos p =>
      if 0 <=? e then binary_round prec emax s (p * Z.to_pos (10 ^ e)) 0
      else num_of_frac s p (Z.to_pos (10 ^ (- e)))
  end.

(** The literals of the handlers. *)
Definition num_0 : number := num_of_Z 0.
Definition num_5 : number := num_of_Z 5.
Definition num_0_05 : number := num_of_dec false 5 (-2).
Definition num_1e12 : number := num_of_Z 1000000000000.

(** The mathematical value of a finite non-zero number is [m * 2^e]; it is
    handled below as the fraction [mag_num / mag_den]. *)
Definition mag_num (m : positive) (e : Z) : Z :=
  if 0 <=? e then Zpos m * 2 ^ e else Zpos m.
Definition mag_den (e : Z) : Z :=
  if 0 <=? e then 1 else 2 ^ (- e).

(** [Math.floor]. *)
Definition Math_floor (x : number) : number :=
  match x with
  | S754_finite s m e =>
      if 0 <=? e then x
      else
        let q := Zpos m / 2 ^ (- e) in
        let exact := Zpos m mod 2 ^ (- e) =? 0 in
        if s then num_of_Z (- (if exact then q else q + 1))
        else num_of_Z q
  | _ => x
  end.

(** *** Decimal digits *)

Definition digits_of_N (n : N) : string := pretty n.

Fixpoint zeros (k : nat) : string :=
  match k with O => "" | S k' => String "0" (zeros k') end.

(** The substring from code unit [n] on, as [s.slice(n)] for an [n] within
    the string. *)
Fixpoint drop_str (n : nat) (s : string) : string :=
  match n, s with
  | O, _ => s
  | S n', String _ s' => drop_str n' s'
  | S _, EmptyString => EmptyString
  end.

Fixpoint take_str (n : nat) (s : string) : string :=
  match n, s with
  | S n', String c s' => String c (take_str n' s')
  | _, _ => EmptyString
  end.

(** *** [Number.prototype.toFixed(2)] *)

(** Step "let n be an integer for which n / 10^2 - x is as close to zero as
    possible; if there are two such n, pick the larger": for the positive
    magnitude [m * 2^e] this is the floor of [100 * m * 2^e + 1/2]. *)
Definition toFixed2_n (m : positive) (e : Z) : Z :=
  (2 * 100 * mag_num m e + mag_den e) / (2 * mag_den e).

(** The digits of [n] with a point before the last two, padded with zeros
    so that three digits at least are printed. *)
Definition fixed2_digits (n : Z) : string :=
  let m := if n =? 0 then "0" else digits_of_N (Z.to_N n) in
  let k := String.length m in
  let m := if (k <=? 2)%nat then zeros (3 - k) +:+ m else m in
  let k := String.length m in
  take_str (k - 2) m +:+ "." +:+ drop_str (k - 2) m.

(** True when the magnitude [m * 2^e] is at least [10^21]. *)
Definition ge_1e21 (m : positive) (e : Z) : bool :=
  10 ^ 21 * mag_den e <=? mag_num m e.

(** *** [Number::toString] *)

(** [lt_pow10 p q g]: the fraction [p / q] is below [10^g]. *)
Definition lt_pow10 (p q g : Z) : bool :=
  if 0 <=? g then p <? q * 10 ^ g else p * 10 ^ (- g) <? q.

Definition ndigits10 (z : Z) : Z :=
  Z.of_nat (String.length (digits_of_N (Z.to_N z))).

(** The [n] with [10^(n-1) <= p / q < 10^n]. *)
Definition dec_exponent (p q : Z) : Z :=
  let g := ndigits10 p - ndigits10 q in
  if lt_pow10 p q g then g else g + 1.

(** "Let n, k and s be integers such that k >= 1, 10^(k-1) <= s < 10^k,
    s * 10^(n-k) is x, and k is as small as possible": the search goes
    through k = 1, 2, ... and, for each k, tries the two k-digit decimals
    that enclose [p / q]; the nearer one wins when both read back as [x],
    the even one on a tie. Seventeen digits always read back. *)
Fixpoint shortest_digits (fuel : nat) (k : Z) (x : number) (p q n : Z)
  : Z * Z * Z :=
  match fuel with
  | O => (0, k, n)
  | S fuel' =>
      let a := if 0 <=? n - k then p else p * 10 ^ (k - n) in
      let b := if 0 <=? n - k then q * 10 ^ (n - k) else q in
      let lo := a / b in
      let hi := lo + 1 in
      let ok_lo := bool_decide (num_of_dec false (Z.to_N lo) (n - k) = x) in
      let ok_hi := bool_decide (num_of_dec false (Z.to_N hi) (n - k) = x) in
      let r_lo := (lo, k, n) in
      let r_hi := if hi =? 10 ^ k then (10 ^ (k - 1), k, n + 1) else (hi, k, n) in
      match ok_lo, ok_hi with
      | true, true =>
          match 2 * a ?= (2 * lo + 1) * b with
          | Lt => r_lo
          | Gt => r_hi
          | Eq => if Z.even lo then r_lo else r_hi
          end
      | true, false => r_lo
      | false, true => r_hi
      | false, false => shortest_digits fuel' (k + 1) x p q n
      end
  end.

Definition format_number (s k n : Z) : string :=
  let d := digits_of_N (Z.to_N s) in
  if (k <=? n) && (n <=? 21) then d +:+ zeros (Z.to_nat (n - k))
  else if (0 <? n) && (n <=? 21) then
    take_str (Z.to_nat n) d +:+ "." +:+ drop_str (Z.to_nat n) d
  else if (-6 <? n) && (n <=? 0) then "0." +:+ zeros (Z.to_nat (- n)) +:+ d
  else
    let e := n - 1 in
    let es := (if e <? 0 then "-" else "+") +:+ digits_of_N (Z.abs_N e) in
    if k =? 1 then d +:+ "e" +:+ es
    else take_str 1 d +:+ "." +:+ drop_str 1 d +:+ "e" +:+ es.

Definition Number_toString (x : number) : string :=
  match x with
  | S754_nan => "NaN"
  | S754_zero _ => "0"
  | S754_infinity s => if s then "-Infinity" else "Infinity"
  | S754_finite s m e =>
      let p := mag_num m e in
      let q := mag_den e in
      let '(d, k, n) :=
        shortest_digits 17 1 (S754_finite false m e) p q (dec_exponent p q) in
      (if s then "-" else "") +:+ format_number d k n
  end.

(** [x.toFixed(2)]: non-finite numbers and magnitudes from [10^21] on are
    printed by [Number::toString]. *)
Definition toFixed2 (x : number) : string :=
  match x with
  | S754_nan | S754_infinity _ => Number_toString x
  | S754_zero _ => fixed2_digits 0
  | S754_finite s m e =>
      (if s then "-" else "") +:+
      (if ge_1e21 m e then Number_toString (S754_finite false m e)
       else fixed2_digits (toFixed2_n m e))
  end.

(** *** Reading numbers: [parseFloat] and [StringToNumber] *)

Definition code (c : ascii) : N := N_of_ascii c.

Definition is_digit (c : ascii) : bool :=
  ((48 <=? code c) && (code c <=? 57))%N.

Definition digit_val (c : ascii) : N := (code c - 48)%N.

(** White space and line terminators among the code units below 256:
    TAB, LF, VT, FF, CR, SP and NBSP. *)
Definition is_space (c : ascii) : bool :=
  (((9 <=? code c) && (code c <=? 13)) || (code c =? 32) || (code c =? 160))%N.

Fixpoint trim_start (s : string) : string :=
  match s with
  | String c s' => if is_space c then trim_start s' else s
  | EmptyString => EmptyString
  end.

Fixpoint trim_end (s : string) : string :=
  match s with
  | String c s' =>
      match trim_end s' with
      | EmptyString => if is_space c then EmptyString else String c EmptyString
      | t => String c t
      end
  | EmptyString => EmptyString
  end.

(** [String.prototype.trim]. *)
Definition trim (s : string) : string := trim_end (trim_start s).

(** [s.startsWith(p)]; on a match, what follows [p]. *)
Fixpoint strip_prefix (p s : string) : option string :=
  match p, s with
  | EmptyString, _ => Some s
  | String a p', String b s' =>
      if Ascii.eqb a b then strip_prefix p' s' else None
  | String _ _, EmptyString => None
  end.

Definition startsWith (s p : string) : bool :=
  match strip_prefix p s with Some _ => true | None => false end.

(** A run of decimal digits: its value on top of [acc], how many digits
    were read, and the rest of the string. *)
Fixpoint read_digits (acc : N) (cnt : nat) (s : string) : N * nat * string :=
  match s with
  | String c s' =>
      if is_digit c then read_digits (10 * acc + digit_val c)%N (S cnt) s'
      else (acc, cnt, s)
  | EmptyString => (acc, cnt, s)
  end.

(** An optional ExponentPart; [(0, s)] when [s] does not start with one. *)
Definition read_exponent (s : string) : Z * string :=
  match s with
  | String c s1 =>
      if Ascii.eqb c "e" || Ascii.eqb c "E" then
        let '(neg, s2) :=
          match s1 with
          | String "+" t => (false, t)
          | String "-" t => (true, t)
          | _ => (false, s1)
          end in
        let '(v, cnt, s3) := read_digits 0 0 s2 in
        match cnt with
        | O => (0, s)
        | S _ => (if neg then - Z.of_N v else Z.of_N v, s3)
        end
      else (0, s)
  | EmptyString => (0, s)
  end.

(** The longest prefix that is a StrUnsignedDecimalLiteral other than
    [Infinity], as mantissa and decimal exponent, with the rest. *)
Definition read_unsigned_decimal (s : string) : option (N * Z * string) :=
  let '(i, ci, s1) := read_digits 0 0 s in
  match s1 with
  | String "." s2 =>
      let '(f, cf, s3) := read_digits i 0 s2 in
      match ci, cf with
      | O, O => None
      | _, _ =>
          let '(e, s4) := read_exponent s3 in
          Some (f, e - Z.of_nat cf, s4)
      end
  | _ =>
      match ci with
      | O => None
      | S _ => let '(e, s2) := read_exponent s1 in Some (i, e, s2)
      end
  end.

(** The longest prefix that is a StrDecimalLiteral: its Number value and
    the rest. *)
Definition read_decimal_literal (s : string) : option (number * string) :=
  let '(neg, s1) :=
    match s with
    | String "+" t => (false, t)
    | String "-" t => (true, t)
    | _ => (false, s)
    end in
  match strip_prefix "Infinity" s1 with
  | Some rest => Some (S754_infinity neg, rest)
  | None =>
      match read_unsigned_decimal s1 with
      | Some (m, e, rest) => Some (num_of_dec neg m e, rest)
      | None => None
      end
  end.

(** [parseFloat] on a string. *)
Definition parseFloat_string (s : string) : number :=
  match read_decimal_literal (trim_start s) with
  | Some (v, _) => v
  | None => NaN
  end.

Definition digit_in_radix (r : N) (c : ascii) : option N :=
  let v :=
    if is_digit c then Some (digit_val c)
    else if ((97 <=? code c) && (code c <=? 102))%N then Some (code c - 87)%N
    else if ((65 <=? code c) && (code c <=? 70))%N then Some (code c - 55)%N
    else None in
  match v with
  | Some d => if (d <? r)%N then Some d else None
  | None => None
  end.

Fixpoint read_radix (r : N) (acc : N) (s : string) : option N :=
  match s with
  | EmptyString => Some acc
  | String c s' =>
      match digit_in_radix r c with
      | Some d => read_radix r (r * acc + d)%N s'
      | None => None
      end
  end.

(** NonDecimalIntegerLiteral: [0x], [0o] or [0b] and one digit at least. *)
Definition read_non_decimal (s : string) : option N :=
  match s with
  | String "0" (String c (String d rest)) =>
      let r :=
        if Ascii.eqb c "x" || Ascii.eqb c "X" then Some 16%N
        else if Ascii.eqb c "o" || Ascii.eqb c "O" then Some 8%N
        else if Ascii.eqb c "b" || Ascii.eqb c "B" then Some 2%N
        else None in
      match r with
      | Some r => read_radix r 0 (String d rest)
      | None => None
      end
  | _ => None
  end.

(** [StringToNumber], the conversion behind [Number(s)]. *)
Definition StringToNumber (s : string) : number :=
  match trim s with
  | EmptyString => pos_zero
  | t =>
      match read_non_decimal t with
      | Some n => num_of_Z (Z.of_N n)
      | None =>
          match read_decimal_literal t with
          | Some (v, EmptyString) => v
          | _ => NaN
          end
      end
  end.

(** *** Values *)

(** The values a request body field or a document path holds: the
    primitives. A field of a multipart form is a [VStr]; a JSON body can
    also hold numbers, booleans and null. Repeated form fields (arrays) and
    nested objects have no constructor here: nothing below speaks of a
    request that carries them, and the properties that would read
    differently on them say which fields they take to be text. *)
Inductive value : Type :=
  | VUndefined
  | VNull
  | VBool (b : bool)
  | VNum (x : number)
  | VStr (s : string).

#[global] Instance value_eq_dec : EqDecision value.
Proof. solve_decision. Defined.

(** [ToString]. *)
Definition ToString (v : value) : string :=
  match v with
  | VUndefined => "undefined"
  | VNull => "null"
  | VBool true => "true"
  | VBool false => "false"
  | VNum x => Number_toString x
  | VStr s => s
  end.

(** [parseFloat(v)]: the argument is converted to a string first. *)
Definition parseFloat (v : value) : number := parseFloat_string (ToString v).

(** [v === 'lit']. *)
Definition strict_eq_str (v : value) (lit : string) : bool :=
  match v with
  | VStr s => String.eqb s lit
  | _ => false
  end.

(** [ToBoolean], as in [if (v)]. *)
Definition truthy (v : value) : bool :=
  match v with
  | VUndefined | VNull => false
  | VBool b => b
  | VNum x =>
      match x with S754_zero _ | S754_nan => false | _ => true end
  | VStr s => negb (String.eqb s "")
  end.

(** An object literal or a parsed body: a property that is missing reads
    as [undefined]. *)
Definition get (o : gmap string value) (k : string) : value :=
  default VUndefined (o !! k).

(** *** [split], [slice(-2)], [join] *)

(** [s.split(sep)] for a one-character separator. *)
Fixpoint split (sep : ascii) (s : string) : list string :=
  match s with
  | EmptyString => [EmptyString]
  | String c s' =>
      if Ascii.eqb c sep then EmptyString :: split sep s'
      else
        match split sep s' with
        | [] => [String c EmptyString]
        | w :: ws => String c w :: ws
        end
  end.

(** [l.slice(-2)]: the last two elements, or all of a shorter list. *)
Definition slice_last2 {A : Type} (l : list A) : list A :=
  skipn (length l - 2) l.

(** [l.join(sep)]. *)
Fixpoint join (sep : string) (l : list string) : string :=
  match l with
  | [] => EmptyString
  | [w] => w
  | w :: ws => w +:+ sep +:+ join sep ws
  end.

End JS.

(* ===================================================================== *)
(** ** express-validator: the chains of [validateProduct] *)
(* ===================================================================== *)

Module Validator.
Import JS.

(** The string a standard validator or sanitizer receives for a field. *)
Definition toString (v : value) : string :=
  match v with
  | VUndefined | VNull => ""
  | VBool b => ToString (VBool b)
  | VNum x => if is_nan x then "" else Number_toString x
  | VStr s => s
  end.

(** [str.replace(',', '.')]: the first comma only. *)
Fixpoint replace_comma (s : string) : string :=
  match s with
  | EmptyString => EmptyString
  | String c s' =>
      if Ascii.eqb c "," then String "." s' else String c (replace_comma s')
  end.

(** The regular expression of [isFloat]: an optional sign, optional
    digits, an optional point followed by any number of digits, an optional
    exponent ([e] or [E], optional sign, one digit at least), then the end
    of the string. *)
Definition float_regex (s : string) : bool :=
  let s1 :=
    match s with
    | String "+" t | String "-" t => t
    | _ => s
    end in
  let '(_, _, s2) := read_digits 0 0 s1 in
  let s3 :=
    match s2 with
    | String "." t => let '(_, _, r) := read_digits 0 0 t in r
    | _ => s2
    end in
  let '(_, s4) := read_exponent s3 in
  String.eqb s4 "".

(** [isFloat(str, { min })]. *)
Definition isFloat_min (min : number) (str : string) : bool :=
  if existsb (String.eqb str) [""; "."; ","; "-"; "+"] then false
  else
    let value := parseFloat_string (replace_comma str) in
    float_regex str && num_geb value min.

(** [isIn(str, options)] for an array of strings. *)
Definition isIn (str : string) (options : list string) : bool :=
  existsb (String.eqb str) options.

(** [isEmpty(str)]. *)
Definition isEmpty (str : string) : bool := String.eqb str "".

(** One entry of [errors.array()]. *)
Record ValidationError : Type := {
  param : string;
  msg : string;
  location : string
}.

#[global] Instance ValidationError_eq_dec : EqDecision ValidationError.
Proof. solve_decision. Defined.

Definition body_error (field message : string) : ValidationError :=
  {| param := field; msg := message; location := "body" |}.

Definition product_types : list string :=
  ["Veg"; "Non-Veg"; "Beverage"; "Starter"; "Dessert"; "Breads"].

Definition primary_units : list string := ["piece"; "kg"; "gram"; ""].

(** [body('itemName').trim()]: the sanitized string replaces the field. *)
Definition sanitize (body : gmap string value) : gmap string value :=
  <["itemName" := VStr (trim (toString (get body "itemName")))]> body.

Definition check_itemName (body : gmap string value) : list ValidationError :=
  if isEmpty (trim (toString (get body "itemName")))
  then [body_error "itemName" "Item name is required"] else [].

Definition check_sellPrice (body : gmap string value) : list ValidationError :=
  if isFloat_min num_0 (toString (get body "sellPrice")) then []
  else [body_error "sellPrice" "Sell price must be a positive number"].

Definition check_type (body : gmap string value) : list ValidationError :=
  if isIn (toString (get body "type")) product_types then []
  else [body_error "type" "Invalid product type"].

(** [.optional()] skips the chain when the field is [undefined]. *)
Definition check_primaryUnit (body : gmap string value) : list ValidationError :=
  match get body "primaryUnit" with
  | VUndefined => []
  | v =>
      if isIn (toString v) primary_units then []
      else [body_error "primaryUnit" "Invalid value"]
  end.

(** Running the four chains: the errors that [validationResult(req)]
    collects, in chain order. *)
Definition validateProduct (body : gmap string value) : list ValidationError :=
  check_itemName body ++ check_sellPrice body ++ check_type body
    ++ check_primaryUnit body.

End Validator.

(* ===================================================================== *)
(** ** Mongoose: the [Product] model *)
(* ===================================================================== *)

Module Mongoose.
Import JS.

Inductive SchemaType : Type := SString | SNumber | SBoolean.

(** The options of a schema path that [models/Product.js] uses. *)
Record SchemaPath : Type := {
  path : string;
  instance : SchemaType;
  required : bool;
  trim_opt : bool;
  enum : option (list string);
  default_opt : option value
}.

(** [new mongoose.Schema({ ... }, { timestamps: true })]. *)
Definition ProductSchema : list SchemaPath := [
  {| path := "itemName"; instance := SString; required := true;
     trim_opt := true; enum := None; default_opt := None |};
  {| path := "sellPrice"; instance := SNumber; required := true;
     trim_opt := false; enum := None; default_opt := None |};
  {| path := "primaryUnit"; instance := SString; required := false;
     trim_opt := false; enum := None; default_opt := None |};
  {| path := "customUnit"; instance := SString; required := false;
     trim_opt := false; enum := None; default_opt := None |};
  {| path := "type"; instance := SString; required := false;
     trim_opt := false;
     enum := Some ["Veg"; "Non-Veg"; "Beverage"; "Starter"; "Dessert"; "Breads"];
     default_opt := Some (VStr "Veg") |};
  {| path := "gstEnabled"; instance := SBoolean; required := false;
     trim_opt := false; enum := None; default_opt := Some (VBool false) |};
  {| path := "totalPrice"; instance := SNumber; required := false;
     trim_opt := false; enum := None; default_opt := None |};
  {| path := "imageUrl"; instance := SString; required := false;
     trim_opt := false; enum := None; default_opt := Some (VStr "") |}
].

Definition schema_path (name : string) : option SchemaPath :=
  List.find (fun p => String.eqb (path p) name) ProductSchema.

(** A record of the [products] collection. [fields] holds the paths the
    schema declares; [_id] and [createdAt] are maintained by Mongoose.
    ([updatedAt] and [__v] are left out: no handler reads them.) *)
Record Doc : Type := {
  _id : string;
  fields : gmap string value;
  createdAt : Z
}.

#[global] Instance Doc_eq_dec : EqDecision Doc.
Proof. solve_decision. Defined.

(** A document in memory: [d_createdAt] is [None] until the first save,
    [d_invalid] lists the paths whose last assignment could not be cast. *)
Record Document : Type := {
  d_id : string;
  d_fields : gmap string value;
  d_createdAt : option Z;
  d_invalid : list string
}.

(** *** Casting; [None] stands for a CastError *)

Definition castString (v : value) : option value :=
  match v with
  | VUndefined | VNull | VStr _ => Some v
  | VBool _ | VNum _ => Some (VStr (ToString v))
  end.

Definition castNumber (v : value) : option value :=
  match v with
  | VUndefined | VNull => Some v
  | VStr EmptyString => Some VNull
  | VStr s =>
      let x := StringToNumber s in
      if is_nan x then None else Some (VNum x)
  | VBool b => Some (VNum (num_of_Z (if b then 1 else 0)))
  | VNum x => if is_nan x then None else Some (VNum x)
  end.

Definition castBoolean (v : value) : option value :=
  match v with
  | VUndefined | VNull | VBool _ => Some v
  | VStr s =>
      if existsb (String.eqb s) ["true"; "1"; "yes"] then Some (VBool true)
      else if existsb (String.eqb s) ["false"; "0"; "no"] then Some (VBool false)
      else None
  | VNum x =>
      if bool_decide (x = num_of_Z 1) then Some (VBool true)
      else match x with
           | S754_zero _ => Some (VBool false)
           | _ => None
           end
  end.

Definition cast (p : SchemaPath) (v : value) : option value :=
  match instance p with
  | SString =>
      match castString v with
      | Some (VStr s) => Some (VStr (if trim_opt p then trim s else s))
      | r => r
      end
  | SNumber => castNumber v
  | SBoolean => castBoolean v
  end.

(** *** Assignment under the strict option

    [doc[name] = v]: a name the schema does not declare leaves the document
    as it is; [undefined] unsets the path; a value that cannot be cast
    marks the path invalid. *)
Definition set (name : string) (v : value) (d : Document) : Document :=
  match schema_path name with
  | None => d
  | Some p =>
      match v with
      | VUndefined =>
          {| d_id := d_id d; d_fields := delete name (d_fields d);
             d_createdAt := d_createdAt d; d_invalid := d_invalid d |}
      | _ =>
          match cast p v with
          | Some v' =>
              {| d_id := d_id d; d_fields := <[name := v']> (d_fields d);
                 d_createdAt := d_createdAt d; d_invalid := d_invalid d |}
          | None =>
              {| d_id := d_id d; d_fields := d_fields d;
                 d_createdAt := d_createdAt d;
                 d_invalid := name :: d_invalid d |}
          end
      end
  end.

(** A path left [undefined] takes its default. *)
Definition apply_default (p : SchemaPath) (flds : gmap string value)
  : gmap string value :=
  match flds !! path p, default_opt p with
  | None, Some v => <[path p := v]> flds
  | _, _ => flds
  end.

(** [new Product(obj)]: [obj] is the object literal, as its properties in
    source order; [id] is the fresh ObjectId. *)
Definition Product_new (id : string) (obj : list (string * value)) : Document :=
  let d :=
    fold_left (fun d kv => set (fst kv) (snd kv) d) obj
      {| d_id := id; d_fields := ∅; d_createdAt := None; d_invalid := [] |} in
  {| d_id := d_id d;
     d_fields := fold_right apply_default (d_fields d) ProductSchema;
     d_createdAt := d_createdAt d; d_invalid := d_invalid d |}.

(** *** Validation before a save *)

Definition required_ok (t : SchemaType) (v : option value) : bool :=
  match t, v with
  | SString, Some (VStr s) => negb (String.eqb s "")
  | SNumber, Some (VNum _) => true
  | SBoolean, Some (VBool _) => true
  | _, _ => false
  end.

Definition enum_ok (allowed : list string) (v : option value) : bool :=
  match v with
  | None => true
  | Some (VStr s) => existsb (String.eqb s) allowed
  | Some _ => false
  end.

Definition path_ok (flds : gmap string value) (p : SchemaPath) : bool :=
  (if required p then required_ok (instance p) (flds !! path p) else true)
  && match enum p with
     | Some allowed => enum_ok allowed (flds !! path p)
     | None => true
     end.

(** The paths a ValidationError would name; empty when the document is
    valid. *)
Definition validate (d : Document) : list string :=
  d_invalid d
    ++ map path
         (List.filter (fun p => negb (path_ok (d_fields d) p)) ProductSchema).

(** The document a stored record is hydrated into. Defaults for paths
    the record lacks are not filled in here: the records these handlers
    write carry [type], [gstEnabled] and [imageUrl], the three paths with
    a default. *)
Definition hydrate (r : Doc) : Document :=
  {| d_id := _id r; d_fields := fields r;
     d_createdAt := Some (createdAt r); d_invalid := [] |}.

End Mongoose.

(* ===================================================================== *)
(** ** The routes *)
(* ===================================================================== *)

Module Routes.
Import JS Validator Mongoose.

(** *** Requests and responses *)

(** [req.file] as multer's memory storage leaves it. *)
Record File : Type := {
  originalname : string;
  mimetype : string;
  buffer : string
}.

Record Request : Type := {
  params_id : string;
  body : gmap string value;
  file : option File
}.

(** The JSON bodies the handlers send. *)
Inductive Json : Type :=
  | JErrors (errors : list ValidationError)
  | JProduct (message : string) (product : option Doc)
  | JFailure (error : string) (details : string)
  | JNotFound (error : string)
  | JProducts (products : list Doc)
  | JMessage (message : string).

Record Response : Type := {
  status : Z;
  json : Json
}.

(** The [fileFilter] and the [fileSize] limit given to multer. *)
Definition fileFilter (f : File) : bool := startsWith (mimetype f) "image/".

Definition fileSize_limit : Z := 5 * 1024 * 1024.

(** [upload.single('image')] on the file part of the request, if any:
    multer asks [fileFilter], then enforces [limits.fileSize], which a
    file may not reach: one of exactly [fileSize] bytes is refused like a
    larger one. A refusal is an error handed to [next]. *)
Definition upload_single (f : option File) : option string :=
  match f with
  | None => None
  | Some f =>
      if negb (fileFilter f) then Some "Only image files are allowed"
      else if fileSize_limit <=? Z.of_nat (String.length (buffer f))
      then Some "File too large"
      else None
  end.

(** The general error handler of the application, for an error without a
    [status]: 500 and the error's message. *)
Definition general_error_handler (message : string) : Response :=
  {| status := 500; json := JMessage message |}.

(** *** The outside world *)

Record S3Object : Type := {
  Body : string;
  ContentType : string
}.

(** The calls that leave the process, in the order they are issued. *)
Inductive Call : Type :=
  | Call_s3_upload (Key : string)
  | Call_s3_deleteObject (Key : string)
  | Call_findById (id : string)
  | Call_save (id : string)
  | Call_findByIdAndDelete (id : string)
  | Call_find
  | Call_console_error (label : string)
  | Call_console_warn (label : string).

#[global] Instance Call_eq_dec : EqDecision Call.
Proof. solve_decision. Defined.

(** The [products] collection in insertion order, the bucket, and the
    calls made so far. *)
Record World : Type := {
  products : list Doc;
  bucket : gmap string S3Object;
  calls : list Call
}.

(** What the environment answers during one request: the clock, the
    random source, the fresh ObjectId, and for every remote call whether
    it is rejected ([Some message]) or served ([None]). A lookup is
    rejected when the store cannot be reached or the id cannot be cast to
    an ObjectId. *)
Record Env : Type := {
  Date_now : Z;
  Math_random : number;
  new_ObjectId : string;
  save_time : Z;
  s3_location : string -> string;
  s3_upload_error : option string;
  s3_delete_error : option string;
  findById_error : option string;
  save_error : option string;
  findByIdAndDelete_error : option string;
  find_error : option string
}.

(** *** Promises: state and exceptions *)

Inductive result (A : Type) : Type :=
  | Resolved (a : A)
  | Rejected (message : string).
Arguments Resolved {A} a.
Arguments Rejected {A} message.

Definition M (A : Type) : Type := World -> result A * World.

#[global] Instance M_ret : MRet M := fun A a w => (Resolved a, w).

#[global] Instance M_bind : MBind M := fun A B f m w =>
  match m w with
  | (Resolved a, w') => f a w'
  | (Rejected e, w') => (Rejected e, w')
  end.

Definition throw {A : Type} (message : string) : M A :=
  fun w => (Rejected message, w).

(** [try { m } catch (error) { h error }]. *)
Definition try_catch {A : Type} (m : M A) (h : string -> M A) : M A :=
  fun w =>
    match m w with
    | (Resolved a, w') => (Resolved a, w')
    | (Rejected e, w') => h e w'
    end.

Definition record_call (c : Call) (w : World) : World :=
  {| products := products w; bucket := bucket w; calls := calls w ++ [c] |}.

Definition log (c : Call) : M unit := fun w => (Resolved tt, record_call c w).

Definition set_products (l : list Doc) (w : World) : World :=
  {| products := l; bucket := bucket w; calls := calls w |}.

Definition set_bucket (b : gmap string S3Object) (w : World) : World :=
  {| products := products w; bucket := b; calls := calls w |}.

(** *** The S3 client *)

(** [s3.upload(params).promise()], resolved with the object's Location. *)
Definition s3_upload (env : Env) (key : string) (o : S3Object) : M string :=
  fun w =>
    let w := record_call (Call_s3_upload key) w in
    match s3_upload_error env with
    | Some e => (Rejected e, w)
    | None => (Resolved (s3_location env key), set_bucket (<[key := o]> (bucket w)) w)
    end.

(** [s3.deleteObject(params).promise()]. *)
Definition s3_deleteObject (env : Env) (key : string) : M unit :=
  fun w =>
    let w := record_call (Call_s3_deleteObject key) w in
    match s3_delete_error env with
    | Some e => (Rejected e, w)
    | None => (Resolved tt, set_bucket (delete key (bucket w)) w)
    end.

(** *** The record store *)

Definition has_id (id : string) (r : Doc) : bool := String.eqb (_id r) id.

Definition find_doc (id : string) (l : list Doc) : option Doc :=
  List.find (has_id id) l.

Fixpoint replace_doc (r : Doc) (l : list Doc) : list Doc :=
  match l with
  | [] => []
  | x :: l' => if has_id (_id r) x then r :: l' else x :: replace_doc r l'
  end.

Fixpoint remove_doc (id : string) (l : list Doc) : list Doc :=
  match l with
  | [] => []
  | x :: l' => if has_id id x then l' else x :: remove_doc id l'
  end.

(** [Product.findById(id)]. *)
Definition Product_findById (env : Env) (id : string) : M (option Document) :=
  fun w =>
    let w := record_call (Call_findById id) w in
    match findById_error env with
    | Some e => (Rejected e, w)
    | None => (Resolved (hydrate <$> find_doc id (products w)), w)
    end.

(** [doc.save()]: validation first; then an insert for a new document,
    stamped with the time of the save, or an update of the stored one. *)
Definition Document_save (env : Env) (d : Document) : M Doc :=
  fun w =>
    let w := record_call (Call_save (d_id d)) w in
    match validate d with
    | _ :: _ => (Rejected "Product validation failed", w)
    | [] =>
        match save_error env with
        | Some e => (Rejected e, w)
        | None =>
            match d_createdAt d with
            | None =>
                let r := {| _id := d_id d; fields := d_fields d;
                            createdAt := save_time env |} in
                match find_doc (d_id d) (products w) with
                | Some _ => (Rejected "E11000 duplicate key error", w)
                | None => (Resolved r, set_products (products w ++ [r]) w)
                end
            | Some t =>
                let r := {| _id := d_id d; fields := d_fields d;
                            createdAt := t |} in
                match find_doc (d_id d) (products w) with
                | Some _ => (Resolved r, set_products (replace_doc r (products w)) w)
                | None => (Rejected "No document found for query", w)
                end
            end
        end
    end.

(** [Product.findByIdAndDelete(id)]. *)
Definition Product_findByIdAndDelete (env : Env) (id : string)
  : M (option Doc) :=
  fun w =>
    let w := record_call (Call_findByIdAndDelete id) w in
    match findByIdAndDelete_error env with
    | Some e => (Rejected e, w)
    | None =>
        (Resolved (find_doc id (products w)),
         set_products (remove_doc id (products w)) w)
    end.

(** [sort({ createdAt: -1 })]: later dates first. The server does not fix
    the order of records with equal dates; here they keep their insertion
    order. *)
Fixpoint insert_desc (r : Doc) (l : list Doc) : list Doc :=
  match l with
  | [] => [r]
  | x :: l' =>
      if createdAt x <=? createdAt r then r :: l else x :: insert_desc r l'
  end.

Definition sort_createdAt_desc (l : list Doc) : list Doc :=
  fold_right insert_desc [] l.

(** The order of a list sorted by [{ createdAt: -1 }]: [a] may come
    before [b]. *)
Definition newer_or_same (a b : Doc) : Prop := createdAt b <= createdAt a.

(** [Product.find().sort({ createdAt: -1 })]. *)
Definition Product_find_sorted (env : Env) : M (list Doc) :=
  fun w =>
    let w := record_call Call_find w in
    match find_error env with
    | Some e => (Rejected e, w)
    | None => (Resolved (sort_createdAt_desc (products w)), w)
    end.

(** *** The handlers *)

Definition console_error (label : string) : M unit :=
  log (Call_console_error label).

Definition console_warn (label : string) : M unit :=
  log (Call_console_warn label).

(** The key of an upload, [`products/${Date.now()}-${file.originalname}`]. *)
Definition upload_filename (env : Env) (f : File) : string :=
  "products/" +:+ Number_toString (num_of_Z (Date_now env))
    +:+ "-" +:+ originalname f.

(** The [params] of an upload, as far as the bucket keeps them. *)
Definition upload_object (f : File) : S3Object :=
  {| Body := buffer f; ContentType := mimetype f |}.

(** [uploadToS3(file)]: [null] without a file, else the public URL. *)
Definition uploadToS3 (env : Env) (file : option File) : M value :=
  match file with
  | None => mret VNull
  | Some f =>
      try_catch
        (let filename := upload_filename env f in
         Location ← s3_upload env filename (upload_object f);
         mret (VStr Location))
        (fun error =>
           console_error "S3 upload error:";;
           throw "Image upload failed")
  end.

(** The block "Calculate GST details", the same in the create and the
    update handler. *)
Record GstDetails : Type := {
  gstPercentage : number;
  sellPriceFloat : number;
  gstAmount : number;
  totalPrice : number
}.

Definition calculate_gst (gstEnabled sellPrice : value) : GstDetails :=
  let gstPercentage := if strict_eq_str gstEnabled "true" then num_5 else num_0 in
  let sellPriceFloat := parseFloat sellPrice in
  let gstAmount :=
    if strict_eq_str gstEnabled "true"
    then parseFloat (VStr (toFixed2 (num_mul sellPriceFloat num_0_05)))
    else num_0 in
  let totalPrice := parseFloat (VStr (toFixed2 (num_add sellPriceFloat gstAmount))) in
  {| gstPercentage := gstPercentage; sellPriceFloat := sellPriceFloat;
     gstAmount := gstAmount; totalPrice := totalPrice |}.

(** [Math.floor(Math.random() * 1000000000000).toString()]. *)
Definition generate_barcode (env : Env) : string :=
  Number_toString (Math_floor (num_mul (Math_random env) num_1e12)).

(** [router.post('/products', ...)], from the check of the validation
    result on. *)
Definition create_product (env : Env) (req : Request) : M Response :=
  let errors := validateProduct (body req) in
  let body := sanitize (body req) in
  match errors with
  | _ :: _ => mret {| status := 400; json := JErrors errors |}
  | [] =>
      try_catch
        (imageUrl ← uploadToS3 env (file req);
         let itemName := get body "itemName" in
         let sellPrice := get body "sellPrice" in
         let type := get body "type" in
         let primaryUnit := get body "primaryUnit" in
         let customUnit := get body "customUnit" in
         let gstEnabled := get body "gstEnabled" in
         let g := calculate_gst gstEnabled sellPrice in
         let barcode := generate_barcode env in
         let newProduct :=
           Product_new (new_ObjectId env)
             [("itemName", itemName);
              ("sellPrice", VNum (sellPriceFloat g));
              ("type", type);
              ("primaryUnit", primaryUnit);
              ("customUnit", customUnit);
              ("gstEnabled", VBool (strict_eq_str gstEnabled "true"));
              ("gstPercentage", VNum (gstPercentage g));
              ("gstAmount", VNum (gstAmount g));
              ("totalPrice", VNum (totalPrice g));
              ("barcode", VStr barcode);
              ("imageUrl", imageUrl)] in
         savedProduct ← Document_save env newProduct;
         mret {| status := 201;
                 json := JProduct "Product created successfully"
                           (Some savedProduct) |})
        (fun error =>
           console_error "Product creation error:";;
           mret {| status := 400;
                   json := JFailure "Failed to create product" error |})
  end.

(** [imageUrl.split('/').slice(-2).join('/')]; a value that is not a
    string has no [split]. *)
Definition last_two_segments (url : string) : string :=
  join "/" (slice_last2 (split "/" url)).

Definition key_of_url (imageUrl : value) : M string :=
  match imageUrl with
  | VStr url => mret (last_two_segments url)
  | _ => throw "imageUrl.split is not a function"
  end.

(** The inner [try]/[catch] of the update and the delete handler: delete
    the stored image, and only warn when that fails. *)
Definition delete_old_image (env : Env) (imageUrl : value) (label : string)
  : M unit :=
  if truthy imageUrl then
    try_catch
      (oldKey ← key_of_url imageUrl;
       s3_deleteObject env oldKey)
      (fun deleteError => console_warn label)
  else mret tt.

(** The block "Upload new image if provided": the image the record will
    point to. With a new file, the stored image is deleted first, then the
    new one is uploaded. *)
Definition replace_image (env : Env) (file : option File)
    (existingProduct : Document) : M value :=
  match file with
  | Some f =>
      delete_old_image env (get (d_fields existingProduct) "imageUrl")
        "Failed to delete old image:";;
      uploadToS3 env (Some f)
  | None => mret (get (d_fields existingProduct) "imageUrl")
  end.

(** The paths the block "Update product fields" assigns to, in order. *)
Definition assigned_paths : list string :=
  ["sellPrice"; "type"; "primaryUnit"; "customUnit"; "gstEnabled";
   "gstPercentage"; "gstAmount"; "totalPrice"; "imageUrl"].

(** The blocks "Calculate GST details" and "Update product fields". *)
Definition assign_fields (body : gmap string value) (imageUrl : value)
    (existingProduct : Document) : Document :=
  let sellPrice := get body "sellPrice" in
  let type := get body "type" in
  let primaryUnit := get body "primaryUnit" in
  let customUnit := get body "customUnit" in
  let gstEnabled := get body "gstEnabled" in
  let g := calculate_gst gstEnabled sellPrice in
  let existingProduct := set "sellPrice" (VNum (sellPriceFloat g)) existingProduct in
  let existingProduct := set "type" type existingProduct in
  let existingProduct := set "primaryUnit" primaryUnit existingProduct in
  let existingProduct := set "customUnit" customUnit existingProduct in
  let existingProduct :=
    set "gstEnabled" (VBool (strict_eq_str gstEnabled "true")) existingProduct in
  let existingProduct := set "gstPercentage" (VNum (gstPercentage g)) existingProduct in
  let existingProduct := set "gstAmount" (VNum (gstAmount g)) existingProduct in
  let existingProduct := set "totalPrice" (VNum (totalPrice g)) existingProduct in
  set "imageUrl" imageUrl existingProduct.

(** [router.put('/products/:id', ...)]. *)
Definition update_product (env : Env) (req : Request) : M Response :=
  let errors := validateProduct (body req) in
  let body := sanitize (body req) in
  match errors with
  | _ :: _ => mret {| status := 400; json := JErrors errors |}
  | [] =>
      try_catch
        (let productId := params_id req in
         found ← Product_findById env productId;
         match found with
         | None => mret {| status := 404; json := JNotFound "Product not found" |}
         | Some existingProduct =>
             imageUrl ← replace_image env (file req) existingProduct;
             let existingProduct := assign_fields body imageUrl existingProduct in
             updatedProduct ← Document_save env existingProduct;
             mret {| status := 200;
                     json := JProduct "Product updated successfully"
                               (Some updatedProduct) |}
         end)
        (fun error =>
           console_error "Product update error:";;
           mret {| status := 400;
                   json := JFailure "Failed to update product" error |})
  end.

(** The environment with another answer to [deleteObject]. *)
Definition with_s3_delete_error (o : option string) (env : Env) : Env :=
  {| Date_now := Date_now env;
     Math_random := Math_random env;
     new_ObjectId := new_ObjectId env;
     save_time := save_time env;
     s3_location := s3_location env;
     s3_upload_error := s3_upload_error env;
     s3_delete_error := o;
     findById_error := findById_error env;
     save_error := save_error env;
     findByIdAndDelete_error := findByIdAndDelete_error env;
     find_error := find_error env |}.

(** [router.delete('/products/:id', ...)]. *)
Definition delete_product (env : Env) (req : Request) : M Response :=
  try_catch
    (let productId := params_id req in
     found ← Product_findById env productId;
     match found with
     | None => mret {| status := 404; json := JNotFound "Product not found" |}
     | Some product =>
         delete_old_image env (get (d_fields product) "imageUrl")
           "Failed to delete image from S3:";;
         deletedProduct ← Product_findByIdAndDelete env productId;
         mret {| status := 200;
                 json := JProduct "Product deleted successfully" deletedProduct |}
     end)
    (fun error =>
       mret {| status := 500;
               json := JFailure "Failed to delete product" error |}).

(** [router.get('/products', ...)]. *)
Definition list_products (env : Env) : M Response :=
  try_catch
    (products ← Product_find_sorted env;
     mret {| status := 200; json := JProducts products |})
    (fun error =>
       mret {| status := 500;
               json := JFailure "Failed to retrieve products" error |}).

(** The routes with their middleware: multer first; the validation chains
    run next, and their result is what the handlers start from. *)
Definition POST_products (env : Env) (req : Request) : M Response :=
  match upload_single (file req) with
  | Some message => mret (general_error_handler message)
  | None => create_product env req
  end.

Definition PUT_products_id (env : Env) (req : Request) : M Response :=
  match upload_single (file req) with
  | Some message => mret (general_error_handler message)
  | None => update_product env req
  end.

End Routes.

(* ===================================================================== *)
(** ** The Pricing Engine as the specification words it *)
(* ===================================================================== *)

Module PricingSpec.
Import JS Routes.
Import QArith_base Qround.

(** "round(x, 2)" on exact values: the nearest multiple of 1/100, a tie
    going up. *)
Definition round2_exact (x : Q) : Q :=
  Qmake (Qfloor (x * (100 # 1) + (1 # 2))%Q) 100.


(** The Number for an exact value: the nearest binary64, ties to even. *)
Definition number_of_Q (x : Q) : number :=
  match Qnum x with
  | Z0 => S754_zero false
  | Zpos p => num_of_frac false p (Qden x)
  | Zneg p => num_of_frac true p (Qden x)
  end.

(** The exact value of a Number that has one. *)
Definition Q_of_number (x : number) : option Q :=
  match x with
  | S754_zero _ => Some (0 # 1)%Q
  | S754_finite s m e =>
      Some (Qmake (if s then - mag_num m e else mag_num m e)
              (Z.to_pos (mag_den e)))
  | _ => None
  end.


(** "round(x, 2)" of a Number: its exact value rounded by [round2_exact],
    as a Number; the infinities and NaN are left as they are. *)
Definition round2 (x : number) : number :=
  match Q_of_number x with
  | Some q => number_of_Q (round2_exact q)
  | None => x
  end.

(** Section 4.1 on Numbers: the product and the sum are those of binary64,
    each rounding is the exact one of the operand it is given. *)
Definition pricing (sellPrice : number) (gstEnabled : bool)
  : number * number * number :=
  if gstEnabled then
    let gstAmount := round2 (num_mul sellPrice num_0_05) in
    (num_5, gstAmount, round2 (num_add sellPrice gstAmount))
  else (num_0, num_0, round2 sellPrice).



End PricingSpec.

(* ===================================================================== *)
(** ** Concrete requests and environments *)
(* ===================================================================== *)

Module Examples.
Import JS Validator Mongoose Routes.

Definition world_empty : World :=
  {| products := []; bucket := ∅; calls := [] |}.

(** An environment in which every remote call is served. *)
Definition env_ok : Env :=
  {| Date_now := 1700000000000;
     Math_random := parseFloat_string "0.25";
     new_ObjectId := "65a000000000000000000001";
     save_time := 1700000000005;
     s3_location := fun key => "https://bucket.s3.amazonaws.com/" +:+ key;
     s3_upload_error := None;
     s3_delete_error := None;
     findById_error := None;
     save_error := None;
     findByIdAndDelete_error := None;
     find_error := None |}.

(** The same environment with another ObjectId and another time of save. *)
Definition env_at (id : string) (t : Z) : Env :=
  {| Date_now := t;
     Math_random := Math_random env_ok;
     new_ObjectId := id;
     save_time := t;
     s3_location := s3_location env_ok;
     s3_upload_error := None;
     s3_delete_error := None;
     findById_error := None;
     save_error := None;
     findByIdAndDelete_error := None;
     find_error := None |}.

(** The record store rejects the save. *)
Definition env_save_fails : Env :=
  {| Date_now := Date_now env_ok;
     Math_random := Math_random env_ok;
     new_ObjectId := new_ObjectId env_ok;
     save_time := save_time env_ok;
     s3_location := s3_location env_ok;
     s3_upload_error := None;
     s3_delete_error := None;
     findById_error := None;
     save_error := Some "connection lost";
     findByIdAndDelete_error := None;
     find_error := None |}.

(** S3 rejects [deleteObject]. *)
Definition env_delete_fails : Env :=
  {| Date_now := 1700000000900;
     Math_random := Math_random env_ok;
     new_ObjectId := new_ObjectId env_ok;
     save_time := 1700000000905;
     s3_location := s3_location env_ok;
     s3_upload_error := None;
     s3_delete_error := Some "AccessDenied";
     findById_error := None;
     save_error := None;
     findByIdAndDelete_error := None;
     find_error := None |}.

Definition tea_png : File :=
  {| originalname := "tea.png"; mimetype := "image/png"; buffer := "PNG" |}.

Definition chai_png : File :=
  {| originalname := "chai.png"; mimetype := "image/png"; buffer := "PNG2" |}.

Definition form (itemName sellPrice type gstEnabled : string)
  : gmap string value :=
  list_to_map [("itemName", VStr itemName); ("sellPrice", VStr sellPrice);
               ("type", VStr type); ("gstEnabled", VStr gstEnabled)].

(** Tea at 100 with GST, no image. *)
Definition req_tea : Request :=
  {| params_id := ""; body := form "Tea" "100" "Veg" "true"; file := None |}.

(** Tea at 100 with an image. *)
Definition req_tea_image : Request :=
  {| params_id := ""; body := form "Tea" "100" "Veg" "true";
     file := Some tea_png |}.

(** Tea at 100, [gstEnabled] sent as 'TRUE'. *)
Definition req_tea_upper : Request :=
  {| params_id := ""; body := form "Tea" "100" "Veg" "TRUE"; file := None |}.

(** Tea without a [type] field. *)
Definition req_no_type : Request :=
  {| params_id := "";
     body := delete "type" (form "Tea" "100" "Veg" "true");
     file := None |}.

(** An update of a record that does not exist, with a negative price. *)
Definition req_update_invalid : Request :=
  {| params_id := "65a0000000000000000000ff";
     body := form "Tea" "-1" "Veg" "true"; file := None |}.

(** An update of a record that does not exist, with valid fields. *)
Definition req_update_missing : Request :=
  {| params_id := "65a0000000000000000000ff";
     body := form "Tea" "100" "Veg" "true"; file := None |}.

(** The record that [req_tea_image] creates under [env_ok]. *)
Definition tea_doc : Doc :=
  {| _id := "65a000000000000000000001";
     fields :=
       list_to_map
         [("itemName", VStr "Tea");
          ("sellPrice", VNum (num_of_Z 100));
          ("type", VStr "Veg");
          ("gstEnabled", VBool true);
          ("totalPrice", VNum (num_of_Z 105));
          ("imageUrl",
           VStr "https://bucket.s3.amazonaws.com/products/1700000000000-tea.png")];
     createdAt := 1700000000005 |}.

(** The record that [req_tea] creates under [env_ok]: no image, so
    [imageUrl] is the [null] that [uploadToS3] returned. *)
Definition tea_plain_doc : Doc :=
  {| _id := "65a000000000000000000001";
     fields :=
       list_to_map
         [("itemName", VStr "Tea");
          ("sellPrice", VNum (num_of_Z 100));
          ("type", VStr "Veg");
          ("gstEnabled", VBool true);
          ("totalPrice", VNum (num_of_Z 105));
          ("imageUrl", VNull)];
     createdAt := 1700000000005 |}.

(** The record that [req_tea_upper] creates under [env_ok]. *)
Definition tea_untaxed_doc : Doc :=
  {| _id := "65a000000000000000000001";
     fields :=
       list_to_map
         [("itemName", VStr "Tea");
          ("sellPrice", VNum (num_of_Z 100));
          ("type", VStr "Veg");
          ("gstEnabled", VBool false);
          ("totalPrice", VNum (num_of_Z 100));
          ("imageUrl", VNull)];
     createdAt := 1700000000005 |}.

Definition world_tea : World :=
  {| products := [tea_doc];
     bucket := {[ "products/1700000000000-tea.png" :=
                    {| Body := "PNG"; ContentType := "image/png" |} ]};
     calls := [] |}.

(** An update of the tea record: a new name, a new price, a new image. *)
Definition req_update_tea : Request :=
  {| params_id := "65a000000000000000000001";
     body := form "Chai" "120" "Beverage" "false";
     file := Some chai_png |}.

(** The tea record after [req_update_tea] under [env_delete_fails]. *)
Definition chai_doc : Doc :=
  {| _id := "65a000000000000000000001";
     fields :=
       list_to_map
         [("itemName", VStr "Tea");
          ("sellPrice", VNum (num_of_Z 120));
          ("type", VStr "Beverage");
          ("gstEnabled", VBool false);
          ("totalPrice", VNum (num_of_Z 120));
          ("imageUrl",
           VStr "https://bucket.s3.amazonaws.com/products/1700000000900-chai.png")];
     createdAt := 1700000000005 |}.

(** Three dishes without image or GST, and the records their creation
    leaves. *)
Definition req_dish (name : string) : Request :=
  {| params_id := ""; body := form name "100" "Veg" "false"; file := None |}.

Definition dish_doc (id name : string) (t : Z) : Doc :=
  {| _id := id;
     fields :=
       list_to_map
         [("itemName", VStr name);
          ("sellPrice", VNum (num_of_Z 100));
          ("type", VStr "Veg");
          ("gstEnabled", VBool false);
          ("totalPrice", VNum (num_of_Z 100));
          ("imageUrl", VNull)];
     createdAt := t |}.

Definition idA : string := "65a0000000000000000000a1".
Definition idB : string := "65a0000000000000000000b2".
Definition idC : string := "65a0000000000000000000c3".

(** The store after A, B and C have been created, in this order, at the
    times [tA], [tB] and [tC]. *)
Definition world_ABC (tA tB tC : Z) : World :=
  {| products := [dish_doc idA "A" tA; dish_doc idB "B" tB; dish_doc idC "C" tC];
     bucket := ∅;
     calls := [Call_save idA; Call_save idB; Call_save idC] |}.

Definition req_delete_tea : Request :=
  {| params_id := "65a000000000000000000001"; body := ∅; file := None |}.

End Examples.

Module Scenarios.
Import JS Validator Mongoose Routes Examples.

(** A, B and C are created one after the other in an empty store, at the
    times of save [tA], [tB] and [tC], and [world_ABC] is what results. *)
Definition created_in_order (tA tB tC : Z) : Prop :=
  exists w1 w2,
    create_product (env_at idA tA) (req_dish "A") world_empty
    = (Resolved {| status := 201;
                   json := JProduct "Product created successfully"
                             (Some (dish_doc idA "A" tA)) |}, w1)
    /\ create_product (env_at idB tB) (req_dish "B") w1
       = (Resolved {| status := 201;
                      json := JProduct "Product created successfully"
                                (Some (dish_doc idB "B" tB)) |}, w2)
    /\ create_product (env_at idC tC) (req_dish "C") w2
       = (Resolved {| status := 201;
                      json := JProduct "Product created successfully"
                                (Some (dish_doc idC "C" tC)) |},
          world_ABC tA tB tC).

End Scenarios.


(* ===================================================================== *)
(** ** Vocabulary for the further properties *)
(* ===================================================================== *)

Module Coverage.
Import JS Validator Mongoose Routes.

(** Strings made of white space only, the empty string included. *)
Fixpoint all_space (s : string) : bool :=
  match s with
  | EmptyString => true
  | String c s' => is_space c && all_space s'
  end.

(** Strings without a slash. *)
Fixpoint no_slash (s : string) : bool :=
  match s with
  | EmptyString => true
  | String c s' => negb (Ascii.eqb c "/") && no_slash s'
  end.

(** Strings without a comma. *)
Fixpoint no_comma (s : string) : bool :=
  match s with
  | EmptyString => true
  | String c s' => negb (Ascii.eqb c ",") && no_comma s'
  end.

(** Numbers that are not NaN and not below zero; both zeros count. *)
Definition is_nonneg (x : number) : bool :=
  match x with
  | S754_zero _ => true
  | S754_infinity s | S754_finite s _ _ => negb s
  | S754_nan => false
  end.

(** Strings whose first code unit is a decimal digit. *)
Definition starts_with_digit (s : string) : bool :=
  match s with
  | String c _ => is_digit c
  | EmptyString => false
  end.



(** A body as a multipart form without repeated fields delivers it:
    every field is a string. *)
Definition is_text (v : value) : bool :=
  match v with VStr _ => true | _ => false end.

Definition text_body (b : gmap string value) : Prop :=
  map_Forall (fun _ v => is_text v = true) b.

(** Kinds of calls. *)
Definition is_s3_call (c : Call) : bool :=
  match c with
  | Call_s3_upload _ | Call_s3_deleteObject _ => true
  | _ => false
  end.

Definition is_s3_delete (c : Call) : bool :=
  match c with
  | Call_s3_deleteObject _ => true
  | _ => false
  end.

Definition is_s3_upload (c : Call) : bool :=
  match c with
  | Call_s3_upload _ => true
  | _ => false
  end.

Definition is_store_write (c : Call) : bool :=
  match c with
  | Call_save _ | Call_findByIdAndDelete _ => true
  | _ => false
  end.

(** Calls that take something away, and calls that put something in. *)
Definition is_removal (c : Call) : bool :=
  match c with
  | Call_s3_deleteObject _ | Call_findByIdAndDelete _ => true
  | _ => false
  end.

Definition is_addition (c : Call) : bool :=
  match c with
  | Call_s3_upload _ | Call_save _ => true
  | _ => false
  end.

(** A stored [imageUrl] as the handlers leave it: [null] or a string. *)
Definition string_or_null (o : option value) : Prop :=
  match o with
  | Some VNull | Some (VStr _) => True
  | _ => False
  end.

(** The object literal that the create handler passes to [new Product],
    for the image URL that [uploadToS3] returned. *)
Definition new_product_literal (env : Env) (body : gmap string value)
    (imageUrl : value) : list (string * value) :=
  let g := calculate_gst (get body "gstEnabled") (get body "sellPrice") in
  [("itemName", get body "itemName");
   ("sellPrice", VNum (sellPriceFloat g));
   ("type", get body "type");
   ("primaryUnit", get body "primaryUnit");
   ("customUnit", get body "customUnit");
   ("gstEnabled", VBool (strict_eq_str (get body "gstEnabled") "true"));
   ("gstPercentage", VNum (gstPercentage g));
   ("gstAmount", VNum (gstAmount g));
   ("totalPrice", VNum (totalPrice g));
   ("barcode", VStr (generate_barcode env));
   ("imageUrl", imageUrl)].

(** The statuses each handler can answer with. *)
Definition create_statuses : list Z := [201; 400].
Definition update_statuses : list Z := [200; 400; 404].
Definition delete_statuses : list Z := [200; 404; 500].
Definition list_statuses : list Z := [200; 500].

(** S3 rejects the upload. *)
Definition env_upload_fails : Env :=
  {| Date_now := 1700000000000;
     Math_random := parseFloat_string "0.25";
     new_ObjectId := "65a000000000000000000001";
     save_time := 1700000000005;
     s3_location := fun key => "https://bucket.s3.amazonaws.com/" +:+ key;
     s3_upload_error := Some "RequestTimeout";
     s3_delete_error := None;
     findById_error := None;
     save_error := None;
     findByIdAndDelete_error := None;
     find_error := None |}.

(** The record store rejects [findByIdAndDelete]. *)
Definition env_store_delete_fails : Env :=
  {| Date_now := 1700000000000;
     Math_random := parseFloat_string "0.25";
     new_ObjectId := "65a000000000000000000001";
     save_time := 1700000000005;
     s3_location := fun key => "https://bucket.s3.amazonaws.com/" +:+ key;
     s3_upload_error := None;
     s3_delete_error := None;
     findById_error := None;
     save_error := None;
     findByIdAndDelete_error := Some "connection lost";
     find_error := None |}.

(** A form with a blank name. *)
Definition req_blank_name : Request :=
  {| params_id := "65a000000000000000000001";
     body := Examples.form "   " "100" "Veg" "true"; file := None |}.

(** A text file, and an image. *)
Definition notes_txt : File :=
  {| originalname := "notes.txt"; mimetype := "text/plain"; buffer := "hello" |}.

Definition req_with_text_file : Request :=
  {| params_id := ""; body := Examples.form "Tea" "100" "Veg" "true";
     file := Some notes_txt |}.

(** An update of the tea record without a new image and without units. *)
Definition req_update_tea_no_file : Request :=
  {| params_id := "65a000000000000000000001";
     body := Examples.form "Chai" "120" "Beverage" "false";
     file := None |}.

(** The tea record with units. *)
Definition tea_doc_with_units : Doc :=
  {| _id := "65a000000000000000000001";
     fields :=
       <["primaryUnit" := VStr "piece"]>
         (<["customUnit" := VStr "cup"]> (fields Examples.tea_doc));
     createdAt := 1700000000005 |}.

Definition world_tea_with_units : World :=
  {| products := [tea_doc_with_units];
     bucket := bucket Examples.world_tea;
     calls := [] |}.

(** A Location in which S3 has escaped the key: of the characters that
    URI escaping replaces, the space is the one these examples use. *)
Fixpoint escape_spaces (s : string) : string :=
  match s with
  | EmptyString => EmptyString
  | String c s' =>
      if Ascii.eqb c " " then "%20" +:+ escape_spaces s'
      else String c (escape_spaces s')
  end.

(** Every call served, the Location escaped; at the time of a create and
    at a later time. *)
Definition env_escaped : Env :=
  {| Date_now := 1700000000000;
     Math_random := parseFloat_string "0.25";
     new_ObjectId := "65a000000000000000000001";
     save_time := 1700000000005;
     s3_location :=
       fun key => "https://bucket.s3.amazonaws.com/" +:+ escape_spaces key;
     s3_upload_error := None;
     s3_delete_error := None;
     findById_error := None;
     save_error := None;
     findByIdAndDelete_error := None;
     find_error := None |}.

Definition env_escaped_later : Env :=
  {| Date_now := 1700000000900;
     Math_random := parseFloat_string "0.25";
     new_ObjectId := "65a000000000000000000002";
     save_time := 1700000000905;
     s3_location :=
       fun key => "https://bucket.s3.amazonaws.com/" +:+ escape_spaces key;
     s3_upload_error := None;
     s3_delete_error := None;
     findById_error := None;
     save_error := None;
     findByIdAndDelete_error := None;
     find_error := None |}.

(** An image whose name has a space, the create that uploads it, and an
    update of the created record with another image. *)
Definition my_tea_png : File :=
  {| originalname := "my tea.png"; mimetype := "image/png"; buffer := "PNG" |}.

Definition req_my_tea : Request :=
  {| params_id := ""; body := Examples.form "Tea" "100" "Veg" "true";
     file := Some my_tea_png |}.

Definition req_update_my_tea : Request :=
  {| params_id := "65a000000000000000000001";
     body := Examples.form "Chai" "120" "Beverage" "false";
     file := Some Examples.chai_png |}.

End Coverage.

(* ===================================================================== *)
(** ** Properties *)
(* ===================================================================== *)

Import JS Validator Mongoose Routes.

(** *** Numbers *)

Lemma num_0_is_pos_zero : num_0 = S754_zero false.
Proof. reflexivity. Qed.

(** Adding the literal [0] does not change what [toFixed(2)] prints: the
    sum is the number itself, except that [-0 + 0] is [+0], and both
    zeros print alike. *)
Lemma toFixed2_add_0 (x : number) : toFixed2 (num_add x num_0) = toFixed2 x.
Proof.
  rewrite num_0_is_pos_zero.
  destruct x as [[|]|[|]| |s m e]; reflexivity.
Qed.

(** Binary64 at work: 100 * 0.05 is 5 and prints as 5.00, while
    0.3 * 0.05 lies just below 0.015 and prints as 0.01. *)
Example toFixed2_examples :
  toFixed2 (num_mul (parseFloat (VStr "100")) num_0_05) = "5.00"
  /\ toFixed2 (num_mul (parseFloat (VStr "0.3")) num_0_05) = "0.01"
  /\ toFixed2 (parseFloat (VStr "1.005")) = "1.00"
  /\ toFixed2 (parseFloat (VStr "2.675")) = "2.67"
  /\ toFixed2 (parseFloat (VStr "1e21")) = "1e+21".
Proof. vm_compute. repeat split. Qed.

(** *** The GST block *)

(** "Create with sellPrice = 100, gstEnabled = true yields gstAmount = 5.00,
    totalPrice = 105.00." *)
Example pricing_100_with_gst :
  PricingSpec.pricing (parseFloat (VStr "100")) true
  = (num_of_Z 5, num_of_Z 5, num_of_Z 105)
  /\ (let g := calculate_gst (VStr "true") (VStr "100") in
      (gstPercentage g, gstAmount g, totalPrice g))
     = (num_of_Z 5, num_of_Z 5, num_of_Z 105).
Proof. split; vm_compute; reflexivity. Qed.

(** For any [gstEnabled] other than the string 'true' the block computes
    gstPercentage = 0, gstAmount = 0 and totalPrice =
    [parseFloat(sellPrice.toFixed(2))]. *)
Lemma calculate_gst_without_true (gstEnabled sellPrice : value) :
  strict_eq_str gstEnabled "true" = false ->
  let g := calculate_gst gstEnabled sellPrice in
  gstPercentage g = num_0 /\ gstAmount g = num_0
  /\ totalPrice g = parseFloat (VStr (toFixed2 (parseFloat sellPrice))).
Proof.
  intros H. unfold calculate_gst. rewrite H.
  cbn [gstPercentage gstAmount totalPrice].
  now rewrite toFixed2_add_0.
Qed.

Example strict_eq_str_examples :
  strict_eq_str VUndefined "true" = false
  /\ strict_eq_str (VStr "TRUE") "true" = false
  /\ strict_eq_str (VStr "1") "true" = false
  /\ strict_eq_str (VBool true) "true" = false
  /\ strict_eq_str (VStr "true") "true" = true.
Proof. repeat split. Qed.

(** *** The model under the strict schema *)

Lemma schema_path_undeclared :
  schema_path "gstPercentage" = None /\ schema_path "gstAmount" = None
  /\ schema_path "barcode" = None.
Proof. repeat split. Qed.

(** Assigning to a path the schema does not declare changes nothing. *)
Lemma set_undeclared (name : string) (v : value) (d : Document) :
  schema_path name = None -> set name v d = d.
Proof. unfold set. now intros ->. Qed.

(** An assignment never creates a field under an undeclared name. *)
Lemma set_lookup_undeclared (name k : string) (v : value) (d : Document) :
  schema_path k = None ->
  d_fields (set name v d) !! k = d_fields d !! k.
Proof.
  intros Hk. unfold set.
  destruct (schema_path name) as [p|] eqn:Hp; [|reflexivity].
  assert (name <> k) by (intros ->; congruence).
  destruct v; cbn; try (destruct (cast p _); cbn);
    rewrite ?lookup_delete_ne, ?lookup_insert_ne by assumption; reflexivity.
Qed.

Lemma set_lookup_other (name k : string) (v : value) (d : Document) :
  name <> k -> d_fields (set name v d) !! k = d_fields d !! k.
Proof.
  intros Hne. unfold set.
  destruct (schema_path name) as [p|]; [|reflexivity].
  destruct v; cbn; try (destruct (cast p _); cbn);
    rewrite ?lookup_delete_ne, ?lookup_insert_ne by assumption; reflexivity.
Qed.

Lemma set_lookup_same (k : string) (v v' : value) (d : Document) (p : SchemaPath) :
  schema_path k = Some p -> v <> VUndefined -> cast p v = Some v' ->
  d_fields (set k v d) !! k = Some v'.
Proof.
  intros Hp Hv Hc. unfold set. rewrite Hp.
  destruct v; try contradiction; rewrite Hc; cbn; apply lookup_insert_eq.
Qed.

Lemma set_invalid (k : string) (v : value) (d : Document) (p : SchemaPath) :
  schema_path k = Some p -> v <> VUndefined -> cast p v = None ->
  In k (d_invalid (set k v d)).
Proof.
  intros Hp Hv Hc. unfold set. rewrite Hp.
  destruct v; try contradiction; rewrite Hc; cbn; now left.
Qed.

Lemma set_invalid_mono (k name : string) (v : value) (d : Document) :
  In k (d_invalid d) -> In k (d_invalid (set name v d)).
Proof.
  intros H. unfold set. destruct (schema_path name) as [p|]; [|exact H].
  destruct v; try exact H; cbn; destruct (cast p _); cbn; auto.
Qed.

Lemma set_d_id (name : string) (v : value) (d : Document) :
  d_id (set name v d) = d_id d.
Proof.
  unfold set. destruct (schema_path name) as [p|]; [|reflexivity].
  destruct v; try reflexivity; cbn; destruct (cast p _); reflexivity.
Qed.

Lemma set_d_createdAt (name : string) (v : value) (d : Document) :
  d_createdAt (set name v d) = d_createdAt d.
Proof.
  unfold set. destruct (schema_path name) as [p|]; [|reflexivity].
  destruct v; try reflexivity; cbn; destruct (cast p _); reflexivity.
Qed.

Lemma castNumber_VNum (x : number) :
  castNumber (VNum x) = if is_nan x then None else Some (VNum x).
Proof. reflexivity. Qed.

Lemma apply_default_lookup_undeclared (p : SchemaPath) (k : string)
    (flds : gmap string value) :
  path p <> k -> apply_default p flds !! k = flds !! k.
Proof.
  intros Hne. unfold apply_default.
  destruct (flds !! path p), (default_opt p);
    rewrite ?lookup_insert_ne by assumption; reflexivity.
Qed.

Lemma apply_defaults_lookup_present (k : string) (v : value)
    (flds : gmap string value) (schema : list SchemaPath) :
  flds !! k = Some v -> fold_right apply_default flds schema !! k = Some v.
Proof.
  intros H. induction schema as [|p schema IH]; cbn [fold_right]; [exact H|].
  set (rest := fold_right apply_default flds schema) in *.
  unfold apply_default.
  destruct (rest !! path p) eqn:E; [exact IH|].
  destruct (default_opt p); [|exact IH].
  rewrite lookup_insert_ne; [exact IH|]. intros Heq. rewrite Heq in E. congruence.
Qed.

(** [new Product(obj)] keeps no property of [obj] that the schema does not
    declare. *)
Lemma Product_new_strict (id k : string) (obj : list (string * value)) :
  schema_path k = None -> d_fields (Product_new id obj) !! k = None.
Proof.
  intros Hk. unfold Product_new. cbn [d_fields].
  assert (Hfold : forall d,
             d_fields (fold_left (fun d kv => set (fst kv) (snd kv) d) obj d) !! k
             = d_fields d !! k).
  { induction obj as [|[n v] obj IH]; intros d; cbn; [reflexivity|].
    rewrite IH. now apply set_lookup_undeclared. }
  assert (Hdef : forall flds,
             Forall (fun p => path p <> k) ProductSchema ->
             fold_right apply_default flds ProductSchema !! k = flds !! k).
  { intros flds. generalize ProductSchema. intros l Hl.
    induction Hl as [|p l Hp Hl IH]; cbn; [reflexivity|].
    rewrite apply_default_lookup_undeclared by assumption. exact IH. }
  rewrite Hdef, Hfold; [apply lookup_empty|].
  apply List.Forall_forall. intros p Hin Heq.
  unfold schema_path in Hk.
  apply (find_none _ _ Hk) in Hin. rewrite Heq, String.eqb_refl in Hin.
  discriminate.
Qed.

Lemma Product_new_d_id (id : string) (obj : list (string * value)) :
  d_id (Product_new id obj) = id.
Proof.
  unfold Product_new. cbn [d_id].
  assert (H : forall d,
             d_id (fold_left (fun d kv => set (fst kv) (snd kv) d) obj d) = d_id d).
  { induction obj as [|[n v] obj IH]; intros d; cbn; [reflexivity|].
    rewrite IH. apply set_d_id. }
  now rewrite H.
Qed.

Lemma Product_new_d_createdAt (id : string) (obj : list (string * value)) :
  d_createdAt (Product_new id obj) = None.
Proof.
  unfold Product_new. cbn [d_createdAt].
  assert (H : forall d,
             d_createdAt (fold_left (fun d kv => set (fst kv) (snd kv) d) obj d)
             = d_createdAt d).
  { induction obj as [|[n v] obj IH]; intros d; cbn; [reflexivity|].
    rewrite IH. apply set_d_createdAt. }
  now rewrite H.
Qed.

(** The default of the schema is a property of the model alone: a document
    constructed without a [type] gets Veg. *)
Lemma Product_new_type_default (id : string) :
  d_fields (Product_new id [("itemName", VStr "Tea")]) !! "type"
  = Some (VStr "Veg").
Proof. vm_compute. reflexivity. Qed.

Lemma validate_nil_invalid (d : Document) : validate d = [] -> d_invalid d = [].
Proof. unfold validate. intros H. now apply app_eq_nil in H. Qed.

Lemma assign_fields_lookup_other (b : gmap string value) (v : value)
    (d : Document) (k : string) :
  ~ In k assigned_paths ->
  d_fields (assign_fields b v d) !! k = d_fields d !! k.
Proof.
  intros Hk. unfold assign_fields.
  repeat (rewrite set_lookup_other;
          [|intros <-; apply Hk; unfold assigned_paths; cbn; tauto]).
  reflexivity.
Qed.

Lemma assign_fields_lookup_undeclared (b : gmap string value) (v : value)
    (d : Document) (k : string) :
  schema_path k = None ->
  d_fields (assign_fields b v d) !! k = d_fields d !! k.
Proof.
  intros Hk. unfold assign_fields.
  now rewrite !set_lookup_undeclared by assumption.
Qed.

Lemma assign_fields_d_id (b : gmap string value) (v : value) (d : Document) :
  d_id (assign_fields b v d) = d_id d.
Proof. unfold assign_fields. now rewrite !set_d_id. Qed.

Lemma assign_fields_d_createdAt (b : gmap string value) (v : value) (d : Document) :
  d_createdAt (assign_fields b v d) = d_createdAt d.
Proof. unfold assign_fields. now rewrite !set_d_createdAt. Qed.

(** *** The collection *)

Lemma find_doc_has_id (id : string) (l : list Doc) (d : Doc) :
  find_doc id l = Some d -> _id d = id.
Proof.
  intros H. apply find_some in H as [_ H].
  unfold has_id in H. now apply String.eqb_eq in H.
Qed.

(** With unique ids, removing the record of [id] leaves none behind. *)
Lemma find_doc_remove_doc (id : string) (l : list Doc) :
  NoDup (map _id l) -> find_doc id (remove_doc id l) = None.
Proof.
  induction l as [|x l IH]; intros Hnd; cbn; [reflexivity|].
  inversion Hnd as [|? ? Hnotin Hnd']; subst.
  destruct (has_id id x) eqn:Hx.
  - unfold has_id in Hx. apply String.eqb_eq in Hx. subst id.
    destruct (find_doc (_id x) l) as [d|] eqn:Hf; [|exact Hf].
    exfalso. apply Hnotin. apply find_some in Hf as [Hin Hid].
    unfold has_id in Hid. apply String.eqb_eq in Hid. rewrite <- Hid.
    apply list_elem_of_In. now apply in_map.
  - cbn. unfold find_doc in *. cbn. rewrite Hx. now apply IH.
Qed.

Lemma find_doc_replace_doc (id : string) (l : list Doc) (d r : Doc) :
  find_doc id l = Some d -> _id r = id ->
  find_doc id (replace_doc r l) = Some r.
Proof.
  intros Hf Hr. subst id. induction l as [|x l IH]; [discriminate|].
  unfold find_doc in *. cbn in *.
  destruct (has_id (_id r) x) eqn:Hx.
  - cbn. unfold has_id at 1. now rewrite String.eqb_refl.
  - cbn. rewrite Hx. now apply IH.
Qed.

Lemma insert_desc_Permutation (r : Doc) (l : list Doc) :
  Permutation (insert_desc r l) (r :: l).
Proof.
  induction l as [|x l IH]; cbn; [reflexivity|].
  destruct (createdAt x <=? createdAt r); [reflexivity|].
  rewrite IH. apply perm_swap.
Qed.

Lemma sort_createdAt_desc_Permutation (l : list Doc) :
  Permutation (sort_createdAt_desc l) l.
Proof.
  induction l as [|x l IH]; cbn; [reflexivity|].
  rewrite insert_desc_Permutation. now apply perm_skip.
Qed.

Lemma insert_desc_sorted (r : Doc) (l : list Doc) :
  StronglySorted newer_or_same l -> StronglySorted newer_or_same (insert_desc r l).
Proof.
  induction 1 as [|x l Hs IH Hx]; cbn.
  - repeat constructor.
  - destruct (createdAt x <=? createdAt r) eqn:Hle.
    + apply Z.leb_le in Hle. constructor; [now constructor|].
      constructor; [exact Hle|].
      eapply List.Forall_impl; [|exact Hx].
      intros y Hy. unfold newer_or_same in *. lia.
    + apply Z.leb_gt in Hle. constructor; [exact IH|].
      eapply Permutation_Forall; [symmetry; apply insert_desc_Permutation|].
      constructor; [unfold newer_or_same; lia | exact Hx].
Qed.

Lemma sort_createdAt_desc_sorted (l : list Doc) :
  StronglySorted newer_or_same (sort_createdAt_desc l).
Proof.
  induction l as [|x l IH]; cbn; [constructor|]. now apply insert_desc_sorted.
Qed.

Lemma sort_three_increasing (a b c : Doc) :
  createdAt a < createdAt b -> createdAt b < createdAt c ->
  sort_createdAt_desc [a; b; c] = [c; b; a].
Proof.
  intros Hab Hbc. cbn.
  assert (H1 : (createdAt c <=? createdAt b) = false) by (apply Z.leb_gt; lia).
  assert (H2 : (createdAt c <=? createdAt a) = false) by (apply Z.leb_gt; lia).
  assert (H3 : (createdAt b <=? createdAt a) = false) by (apply Z.leb_gt; lia).
  rewrite H1. cbn. rewrite H2. cbn. now rewrite H3.
Qed.

(** *** Running the handlers step by step *)

Lemma run_bind {A B : Type} (m : M A) (f : A -> M B) (w : World) :
  (m ≫= f) w
  = match m w with
    | (Resolved a, w') => f a w'
    | (Rejected e, w') => (Rejected e, w')
    end.
Proof. reflexivity. Qed.

Lemma run_try_catch {A : Type} (m : M A) (h : string -> M A) (w : World) :
  try_catch m h w
  = match m w with
    | (Resolved a, w') => (Resolved a, w')
    | (Rejected e, w') => h e w'
    end.
Proof. reflexivity. Qed.

Lemma record_call_products (c : Call) (w : World) :
  products (record_call c w) = products w.
Proof. reflexivity. Qed.

Lemma record_call_calls (c : Call) (w : World) :
  calls (record_call c w) = calls w ++ [c].
Proof. reflexivity. Qed.

Lemma Product_findById_served (env : Env) (id : string) (w : World) :
  findById_error env = None ->
  Product_findById env id w
  = (Resolved (hydrate <$> find_doc id (products w)),
     record_call (Call_findById id) w).
Proof. unfold Product_findById. now intros ->. Qed.

Lemma Product_findById_rejected (env : Env) (id : string) (w : World) (e : string) :
  findById_error env = Some e ->
  Product_findById env id w = (Rejected e, record_call (Call_findById id) w).
Proof. unfold Product_findById. now intros ->. Qed.

Lemma uploadToS3_no_file (env : Env) (w : World) :
  uploadToS3 env None w = (Resolved VNull, w).
Proof. reflexivity. Qed.

Lemma uploadToS3_served (env : Env) (f : File) (w : World) :
  s3_upload_error env = None ->
  uploadToS3 env (Some f) w
  = (Resolved (VStr (s3_location env (upload_filename env f))),
     set_bucket (<[upload_filename env f := upload_object f]> (bucket w))
       (record_call (Call_s3_upload (upload_filename env f)) w)).
Proof.
  intros H. unfold uploadToS3.
  rewrite run_try_catch, run_bind. unfold s3_upload. now rewrite H.
Qed.

Lemma uploadToS3_rejected (env : Env) (f : File) (w : World) (e : string) :
  s3_upload_error env = Some e ->
  uploadToS3 env (Some f) w
  = (Rejected "Image upload failed",
     record_call (Call_console_error "S3 upload error:")
       (record_call (Call_s3_upload (upload_filename env f)) w)).
Proof.
  intros H. unfold uploadToS3.
  rewrite run_try_catch, run_bind. unfold s3_upload. now rewrite H.
Qed.

(** Only [deleteObject] reads the answer that [with_s3_delete_error]
    changes. *)
Lemma uploadToS3_with_s3_delete_error (o : option string) (env : Env)
    (f : option File) :
  uploadToS3 (with_s3_delete_error o env) f = uploadToS3 env f.
Proof. reflexivity. Qed.

(** A save that the store rejects changes nothing but the call trace. *)
Lemma Document_save_rejected (env : Env) (d : Document) (w : World) (e : string) :
  save_error env = Some e ->
  exists details,
    Document_save env d w = (Rejected details, record_call (Call_save (d_id d)) w).
Proof.
  intros H. unfold Document_save. rewrite H.
  destruct (validate d); eauto.
Qed.

(** A save of a new document that is served appends one record: the
    document's fields, dated with the time of the save. *)
Lemma Document_save_new (env : Env) (d : Document) (w w' : World) (r : Doc) :
  d_createdAt d = None ->
  Document_save env d w = (Resolved r, w') ->
  products w' = products w ++ [r]
  /\ createdAt r = save_time env
  /\ fields r = d_fields d.
Proof.
  intros Hnew. unfold Document_save. rewrite Hnew.
  destruct (validate d); [|discriminate].
  destruct (save_error env); [discriminate|].
  cbn [products record_call].
  destruct (find_doc (d_id d) (products w)); [discriminate|].
  intros [= <- <-]. repeat split.
Qed.

(** A save of a stored document either leaves the collection as it is or
    replaces the record of that id by the document's state. *)
Lemma Document_save_stored (env : Env) (d : Document) (w : World) (t : Z) :
  d_createdAt d = Some t ->
  let r := {| _id := d_id d; fields := d_fields d; createdAt := t |} in
  exists res w',
    Document_save env d w = (res, w')
    /\ bucket w' = bucket w
    /\ calls w' = calls w ++ [Call_save (d_id d)]
    /\ ((exists e, res = Rejected e) /\ products w' = products w
        \/ res = Resolved r /\ products w' = replace_doc r (products w)).
Proof.
  intros Ht r. unfold Document_save. rewrite Ht.
  destruct (validate d).
  2: { eexists _, _. repeat split. left. eauto. }
  destruct (save_error env).
  { eexists _, _. repeat split. left. eauto. }
  cbn [products record_call].
  destruct (find_doc (d_id d) (products w)).
  - eexists _, _. repeat split. right. split; reflexivity.
  - eexists _, _. repeat split. left. eauto.
Qed.

Lemma Document_save_resolved (env : Env) (d : Document) (w w' : World) (r : Doc) :
  Document_save env d w = (Resolved r, w') ->
  validate d = [] /\ fields r = d_fields d /\ _id r = d_id d.
Proof.
  unfold Document_save.
  destruct (validate d); [|discriminate].
  destruct (save_error env); [discriminate|].
  destruct (d_createdAt d);
    destruct (find_doc (d_id d) (products (record_call (Call_save (d_id d)) w)));
    try discriminate; intros [= <- _]; repeat split.
Qed.

(** What a save answers, and the collection it leaves, depend on the
    collection alone. *)
Lemma Document_save_depends_on_products (env : Env) (d : Document) (w1 w2 : World) :
  products w1 = products w2 ->
  fst (Document_save env d w1) = fst (Document_save env d w2)
  /\ products (snd (Document_save env d w1)) = products (snd (Document_save env d w2)).
Proof.
  intros Hp. unfold Document_save.
  destruct (validate d); [|now split].
  destruct (save_error env); [now split|].
  cbn [products record_call]. rewrite Hp.
  destruct (d_createdAt d); destruct (find_doc (d_id d) (products w2));
    cbn; rewrite ?Hp; now split.
Qed.

Lemma Document_save_calls (env : Env) (d : Document) (w : World) :
  calls (snd (Document_save env d w)) = calls w ++ [Call_save (d_id d)]
  /\ bucket (snd (Document_save env d w)) = bucket w.
Proof.
  unfold Document_save.
  destruct (validate d); [|now split].
  destruct (save_error env); [now split|].
  destruct (d_createdAt d);
    destruct (find_doc (d_id d) (products (record_call (Call_save (d_id d)) w)));
    now split.
Qed.

Lemma Document_save_with_s3_delete_error (o : option string) (env : Env)
    (d : Document) :
  Document_save (with_s3_delete_error o env) d = Document_save env d.
Proof. reflexivity. Qed.

(** What [delete_old_image] leaves behind, case by case. It never
    rejects. *)
Lemma delete_old_image_falsy (env : Env) (v : value) (label : string) (w : World) :
  truthy v = false -> delete_old_image env v label w = (Resolved tt, w).
Proof. intros H. unfold delete_old_image. now rewrite H. Qed.

Lemma delete_old_image_served (env : Env) (url label : string) (w : World) :
  url <> "" -> s3_delete_error env = None ->
  delete_old_image env (VStr url) label w
  = (Resolved tt,
     set_bucket (delete (last_two_segments url) (bucket w))
       (record_call (Call_s3_deleteObject (last_two_segments url)) w)).
Proof.
  intros Hne Hd. unfold delete_old_image. cbn [truthy].
  destruct (String.eqb_spec url ""); [contradiction|]. cbn [negb].
  rewrite run_try_catch, run_bind. cbn [key_of_url mret M_ret].
  unfold s3_deleteObject. now rewrite Hd.
Qed.

Lemma delete_old_image_rejected (env : Env) (url label e : string) (w : World) :
  url <> "" -> s3_delete_error env = Some e ->
  delete_old_image env (VStr url) label w
  = (Resolved tt,
     record_call (Call_console_warn label)
       (record_call (Call_s3_deleteObject (last_two_segments url)) w)).
Proof.
  intros Hne Hd. unfold delete_old_image. cbn [truthy].
  destruct (String.eqb_spec url ""); [contradiction|]. cbn [negb].
  rewrite run_try_catch, run_bind. cbn [key_of_url mret M_ret].
  unfold s3_deleteObject. now rewrite Hd.
Qed.

Lemma delete_old_image_total (env : Env) (v : value) (label : string) (w : World) :
  exists w',
    delete_old_image env v label w = (Resolved tt, w')
    /\ products w' = products w
    /\ exists cs, calls w' = calls w ++ cs
                  /\ forall id, ~ In (Call_save id) cs.
Proof.
  unfold delete_old_image. destruct (truthy v) eqn:Ht.
  - rewrite run_try_catch, run_bind.
    destruct v as [| |b|x|url]; cbn [key_of_url throw mret M_ret].
    all: try (eexists; split; [reflexivity|]; split; [reflexivity|];
              exists [Call_console_warn label]; split; [reflexivity|];
              intros id [H|[]]; discriminate H).
    unfold s3_deleteObject. destruct (s3_delete_error env).
    + eexists; split; [reflexivity|]; split; [reflexivity|].
      exists [Call_s3_deleteObject (last_two_segments url); Call_console_warn label].
      split; [cbn; now rewrite <- app_assoc|].
      intros id [H|[H|[]]]; discriminate H.
    + eexists; split; [reflexivity|]; split; [reflexivity|].
      exists [Call_s3_deleteObject (last_two_segments url)].
      split; [reflexivity|]. intros id [H|[]]; discriminate H.
  - exists w. split; [reflexivity|]. split; [reflexivity|].
    exists []. split; [now rewrite app_nil_r|]. intros id [].
Qed.

(** The image block never touches the collection and never saves. *)
Lemma replace_image_products (env : Env) (f : option File) (d : Document)
    (w : World) :
  exists res w', replace_image env f d w = (res, w')
                 /\ products w' = products w.
Proof.
  unfold replace_image. destruct f as [f|].
  - rewrite run_bind.
    destruct (delete_old_image_total env (get (d_fields d) "imageUrl")
                "Failed to delete old image:" w) as (w1 & -> & Hp & _).
    destruct (s3_upload_error env) as [e|] eqn:Hu.
    + rewrite (uploadToS3_rejected env f w1 e Hu). eauto.
    + rewrite (uploadToS3_served env f w1 Hu). eauto.
  - eexists _, _. split; reflexivity.
Qed.

(** The image block when a file comes in and the record has an image. *)
Lemma replace_image_run (env : Env) (f : File) (d : Document) (w : World)
    (url : string) :
  get (d_fields d) "imageUrl" = VStr url -> url <> "" ->
  exists w1,
    replace_image env (Some f) d w = uploadToS3 env (Some f) w1
    /\ products w1 = products w
    /\ calls w1
       = calls w ++ [Call_s3_deleteObject (last_two_segments url)]
           ++ match s3_delete_error env with
              | Some _ => [Call_console_warn "Failed to delete old image:"]
              | None => []
              end
    /\ (s3_delete_error env = None ->
        bucket w1 = delete (last_two_segments url) (bucket w)).
Proof.
  intros Hurl Hne. unfold replace_image. rewrite Hurl.
  destruct (s3_delete_error env) as [e|] eqn:Hdel.
  - eexists. rewrite run_bind.
    rewrite (delete_old_image_rejected env url _ e _ Hne Hdel).
    split; [reflexivity|]. split; [reflexivity|].
    split; [cbn; now rewrite <- app_assoc|]. discriminate.
  - eexists. rewrite run_bind.
    rewrite (delete_old_image_served env url _ _ Hne Hdel).
    split; [reflexivity|]. split; [reflexivity|].
    split; [reflexivity|]. reflexivity.
Qed.

(** *** Validation comes first *)

Lemma create_product_invalid (env : Env) (req : Request) (w : World) :
  validateProduct (body req) <> [] ->
  create_product env req w
  = (Resolved {| status := 400; json := JErrors (validateProduct (body req)) |}, w).
Proof.
  intros Hne. unfold create_product.
  destruct (validateProduct (body req)); [congruence | reflexivity].
Qed.

Lemma update_product_invalid (env : Env) (req : Request) (w : World) :
  validateProduct (body req) <> [] ->
  update_product env req w
  = (Resolved {| status := 400; json := JErrors (validateProduct (body req)) |}, w).
Proof.
  intros Hne. unfold update_product.
  destruct (validateProduct (body req)); [congruence | reflexivity].
Qed.

Lemma get_sanitize_other (b : gmap string value) (k : string) :
  k <> "itemName" -> get (sanitize b) k = get b k.
Proof.
  intros Hk. unfold get, sanitize. now rewrite lookup_insert_ne by congruence.
Qed.

(** A missing [type] reaches the [isIn] check as the empty string. *)
Lemma check_type_unspecified (b : gmap string value) :
  b !! "type" = None ->
  check_type b = [body_error "type" "Invalid product type"].
Proof. intros H. unfold check_type, get. now rewrite H. Qed.

Lemma check_type_outside (b : gmap string value) :
  isIn (toString (get b "type")) product_types = false ->
  check_type b = [body_error "type" "Invalid product type"].
Proof. intros H. unfold check_type. now rewrite H. Qed.

Lemma check_type_in_validateProduct (b : gmap string value) :
  check_type b = [body_error "type" "Invalid product type"] ->
  In (body_error "type" "Invalid product type") (validateProduct b).
Proof.
  intros H. unfold validateProduct. rewrite H.
  apply in_or_app. right. apply in_or_app. right. now left.
Qed.

(** C4, as the code has it. A Create request whose [type] is unspecified,
    or is outside {Veg, Non-Veg, Beverage, Starter, Dessert, Breads}, is
    answered 400 with the validation errors, "Invalid product type" among
    them, and nothing is uploaded, written or even logged. *)
Theorem create_rejects_missing_or_unknown_type
    (env : Env) (req : Request) (w : World) :
  body req !! "type" = None
  \/ isIn (toString (get (body req) "type")) product_types = false ->
  create_product env req w
  = (Resolved {| status := 400; json := JErrors (validateProduct (body req)) |}, w)
  /\ In (body_error "type" "Invalid product type") (validateProduct (body req)).
Proof.
  intros H.
  assert (Hin : In (body_error "type" "Invalid product type")
                   (validateProduct (body req))).
  { apply check_type_in_validateProduct.
    destruct H; [now apply check_type_unspecified | now apply check_type_outside]. }
  split; [|exact Hin].
  apply create_product_invalid. intros Heq. rewrite Heq in Hin. destruct Hin.
Qed.

Lemma create_rejects_missing_or_unknown_type_witness :
  (body Examples.req_no_type !! "type" = None
   \/ isIn (toString (get (body Examples.req_no_type) "type")) product_types = false)
  /\ create_product Examples.env_ok Examples.req_no_type Examples.world_empty
     = (Resolved {| status := 400;
                    json := JErrors (validateProduct (body Examples.req_no_type)) |},
        Examples.world_empty).
Proof.
  split.
  - left. vm_compute. reflexivity.
  - apply (create_rejects_missing_or_unknown_type
             Examples.env_ok Examples.req_no_type Examples.world_empty).
    left. vm_compute. reflexivity.
Defined.

(** C4 as stated fails: with every other field valid and [type] left out,
    Create does not succeed with type = Veg; it answers 400 and stores
    nothing. *)
Lemma create_without_type_is_rejected :
  validateProduct (body (Examples.req_tea)) = []
  /\ body Examples.req_no_type = delete "type" (body Examples.req_tea)
  /\ create_product Examples.env_ok Examples.req_no_type Examples.world_empty
     = (Resolved {| status := 400;
                    json := JErrors [body_error "type" "Invalid product type"] |},
        Examples.world_empty)
  /\ products Examples.world_empty = [].
Proof. repeat split; vm_compute; reflexivity. Qed.

(** A file that is not an image never reaches the create handler: the
    request is answered 500 and nothing is uploaded or stored. *)
Lemma POST_products_refuses_non_image (env : Env) (req : Request) (w : World)
    (f : File) :
  file req = Some f -> fileFilter f = false ->
  POST_products env req w
  = (Resolved (general_error_handler "Only image files are allowed"), w).
Proof.
  intros Hf Hfilter. unfold POST_products, upload_single.
  now rewrite Hf, Hfilter.
Qed.

(** *** Create: what is stored *)

(** A Create answered 201 has appended the record it returns, dated with
    the time of the save; the record has no field under a name the schema
    does not declare, so no gstPercentage, gstAmount or barcode. *)
Lemma create_product_created (env : Env) (req : Request) (w w' : World)
    (m : string) (r : Doc) :
  create_product env req w
  = (Resolved {| status := 201; json := JProduct m (Some r) |}, w') ->
  products w' = products w ++ [r]
  /\ createdAt r = save_time env
  /\ (forall k, schema_path k = None -> fields r !! k = None).
Proof.
  unfold create_product.
  destruct (validateProduct (body req)); [|discriminate].
  rewrite run_try_catch, run_bind.
  assert (Hup : exists res w1, uploadToS3 env (file req) w = (res, w1)
                               /\ products w1 = products w).
  { destruct (file req) as [f|]; [|eexists _, _; split; reflexivity].
    destruct (s3_upload_error env) as [e|] eqn:Hu.
    - rewrite (uploadToS3_rejected env f w e Hu). eauto.
    - rewrite (uploadToS3_served env f w Hu). eauto. }
  destruct Hup as (res & w1 & -> & Hp1).
  destruct res as [imageUrl|e]; [|discriminate].
  rewrite run_bind.
  match goal with
  | |- context [Document_save env (Product_new ?i ?obj) w1] =>
      pose proof (Document_save_new env (Product_new i obj) w1) as Hsave;
      pose proof (fun k => Product_new_strict i k obj) as Hstrict;
      destruct (Document_save env (Product_new i obj) w1) as [[r'|e] w2]
  end; [|discriminate].
  intros H. injection H as Hr Hw. subst r' w2.
  destruct (Hsave w' r (Product_new_d_createdAt _ _) eq_refl) as (Hp & Ht & Hfields).
  rewrite <- Hp1. split; [exact Hp|]. split; [exact Ht|].
  intros k Hk. rewrite Hfields. now apply Hstrict.
Qed.

(** The record of a Create answered 201 holds the parsed sellPrice, the
    flag [gstEnabled === 'true'], and the totalPrice that the block
    "Calculate GST details" computes for these two. *)
Lemma created_record_pricing (env : Env) (req : Request) (w w' : World)
    (m : string) (r : Doc) :
  create_product env req w
  = (Resolved {| status := 201; json := JProduct m (Some r) |}, w') ->
  let sellPrice := parseFloat (get (body req) "sellPrice") in
  let gstEnabled := strict_eq_str (get (body req) "gstEnabled") "true" in
  fields r !! "sellPrice" = Some (VNum sellPrice)
  /\ fields r !! "gstEnabled" = Some (VBool gstEnabled)
  /\ fields r !! "totalPrice"
     = Some (VNum (totalPrice (calculate_gst (get (body req) "gstEnabled")
                                 (get (body req) "sellPrice")))).
Proof.
  intros H sp en. revert H. unfold create_product.
  destruct (validateProduct (body req)); [|discriminate].
  rewrite run_try_catch, run_bind.
  destruct (uploadToS3 env (file req) w) as [[imageUrl|e] w1]; [|discriminate].
  rewrite run_bind.
  rewrite (get_sanitize_other _ "sellPrice"), (get_sanitize_other _ "gstEnabled")
    by discriminate.
  fold sp en.
  set (g := calculate_gst _ _) in *.
  assert (Hsp : sellPriceFloat g = sp) by reflexivity.
  rewrite Hsp. clear Hsp.
  match goal with
  | |- context [Document_save env ?d w1] =>
      set (newProduct := d);
      pose proof (Document_save_new env newProduct w1) as Hsave;
      assert (Hvalid : forall r w2,
                Document_save env newProduct w1 = (Resolved r, w2) ->
                d_invalid newProduct = [])
  end.
  { intros r0 w2. unfold Document_save.
    destruct (validate newProduct) eqn:Hval; [|discriminate].
    intros _. now apply validate_nil_invalid. }
  destruct (Document_save env newProduct w1) as [[r'|e] w2]; [|discriminate].
  intros H. injection H as Hr Hw. subst r' w2.
  destruct (Hsave w' r (Product_new_d_createdAt _ _) eq_refl) as (_ & _ & ->).
  specialize (Hvalid r w' eq_refl).
  unfold newProduct, Product_new in Hvalid |- *.
  cbn [fold_left fst snd d_fields d_invalid d_id d_createdAt] in Hvalid |- *.
  set (total := totalPrice g) in *.
  (* neither number is NaN, or its path would be invalid *)
  assert (Hnan_sp : is_nan sp = false).
  { destruct (is_nan sp) eqn:E; [|reflexivity]. exfalso.
    assert (Hin : In "sellPrice" ([] : list string)); [|destruct Hin].
    rewrite <- Hvalid. do 9 apply set_invalid_mono.
    eapply set_invalid; [reflexivity | discriminate |].
    cbn [cast instance]. now rewrite castNumber_VNum, E. }
  assert (Hnan_total : is_nan total = false).
  { destruct (is_nan total) eqn:E; [|reflexivity]. exfalso.
    assert (Hin : In "totalPrice" ([] : list string)); [|destruct Hin].
    rewrite <- Hvalid. do 2 apply set_invalid_mono.
    eapply set_invalid; [reflexivity | discriminate |].
    cbn [cast instance]. now rewrite castNumber_VNum, E. }
  repeat split; apply apply_defaults_lookup_present.
  - do 9 (rewrite set_lookup_other by discriminate).
    eapply set_lookup_same; [reflexivity | discriminate |].
    cbn [cast instance]. now rewrite castNumber_VNum, Hnan_sp.
  - do 5 (rewrite set_lookup_other by discriminate).
    eapply set_lookup_same; [reflexivity | discriminate | reflexivity].
  - do 2 (rewrite set_lookup_other by discriminate).
    eapply set_lookup_same; [reflexivity | discriminate |].
    cbn [cast instance]. now rewrite castNumber_VNum, Hnan_total.
Qed.

(** C1. Create at itemName = Tea, sellPrice = 100, type = Veg, gstEnabled =
    'true' answers 201 with the persisted record; that record carries
    totalPrice = 105 and gstEnabled = true, but neither gstPercentage nor
    gstAmount nor barcode: the schema declares none of them, and the strict
    constructor drops what the handler passes for them. *)
Theorem create_tea_record_lacks_gst_and_barcode :
  create_product Examples.env_ok Examples.req_tea Examples.world_empty
  = (Resolved {| status := 201;
                 json := JProduct "Product created successfully"
                           (Some Examples.tea_plain_doc) |},
     {| products := [Examples.tea_plain_doc]; bucket := ∅;
        calls := [Call_save "65a000000000000000000001"] |})
  /\ fields Examples.tea_plain_doc !! "sellPrice" = Some (VNum (num_of_Z 100))
  /\ fields Examples.tea_plain_doc !! "gstEnabled" = Some (VBool true)
  /\ fields Examples.tea_plain_doc !! "totalPrice" = Some (VNum (num_of_Z 105))
  /\ fields Examples.tea_plain_doc !! "gstPercentage" = None
  /\ fields Examples.tea_plain_doc !! "gstAmount" = None
  /\ fields Examples.tea_plain_doc !! "barcode" = None.
Proof. repeat split; vm_compute; reflexivity. Qed.

(** C10. Create at sellPrice = 100 with gstEnabled sent as 'TRUE': the
    stored record has gstEnabled = false and totalPrice = 100, as the claim
    says, but it has no gstPercentage and no gstAmount; the zeros the
    handler computes for them are dropped by the strict schema, as in C1. *)
Theorem create_with_uppercase_flag_record_lacks_gst :
  create_product Examples.env_ok Examples.req_tea_upper Examples.world_empty
  = (Resolved {| status := 201;
                 json := JProduct "Product created successfully"
                           (Some Examples.tea_untaxed_doc) |},
     {| products := [Examples.tea_untaxed_doc]; bucket := ∅;
        calls := [Call_save "65a000000000000000000001"] |})
  /\ fields Examples.tea_untaxed_doc !! "gstEnabled" = Some (VBool false)
  /\ fields Examples.tea_untaxed_doc !! "totalPrice" = Some (VNum (num_of_Z 100))
  /\ fields Examples.tea_untaxed_doc !! "gstPercentage" = None
  /\ fields Examples.tea_untaxed_doc !! "gstAmount" = None.
Proof. repeat split; vm_compute; reflexivity. Qed.

(** *** Create: the save fails after the upload *)

(** C5, as the code has it. When the upload succeeds and the save is then
    rejected, Create answers 400 "Failed to create product" and no record
    is created; the uploaded object stays in the bucket: after the save
    only the error is logged, no [deleteObject] is issued. *)
Theorem create_save_rejected_keeps_upload
    (env : Env) (req : Request) (w : World) (f : File) (e : string) :
  validateProduct (body req) = [] ->
  file req = Some f ->
  s3_upload_error env = None ->
  save_error env = Some e ->
  exists details w',
    create_product env req w
    = (Resolved {| status := 400;
                   json := JFailure "Failed to create product" details |}, w')
    /\ products w' = products w
    /\ bucket w' = <[upload_filename env f := upload_object f]> (bucket w)
    /\ calls w'
       = calls w ++ [Call_s3_upload (upload_filename env f);
                     Call_save (new_ObjectId env);
                     Call_console_error "Product creation error:"].
Proof.
  intros Hv Hf Hup Hsave. unfold create_product. rewrite Hv, Hf.
  rewrite run_try_catch, run_bind, uploadToS3_served by assumption.
  rewrite run_bind.
  match goal with
  | |- context [Document_save env ?d ?w1] =>
      destruct (Document_save_rejected env d w1 e Hsave) as [details ->]
  end.
  rewrite Product_new_d_id.
  exists details. eexists. split; [reflexivity|].
  cbn. rewrite <- !app_assoc. repeat split.
Qed.

Lemma create_save_rejected_keeps_upload_witness :
  validateProduct (body Examples.req_tea_image) = []
  /\ exists details w',
       create_product Examples.env_save_fails Examples.req_tea_image
         Examples.world_empty
       = (Resolved {| status := 400;
                      json := JFailure "Failed to create product" details |}, w')
       /\ products w' = products Examples.world_empty
       /\ bucket w'
          = <[upload_filename Examples.env_save_fails Examples.tea_png
                := upload_object Examples.tea_png]> (bucket Examples.world_empty)
       /\ calls w'
          = calls Examples.world_empty
              ++ [Call_s3_upload (upload_filename Examples.env_save_fails Examples.tea_png);
                  Call_save (new_ObjectId Examples.env_save_fails);
                  Call_console_error "Product creation error:"].
Proof.
  split.
  - vm_compute. reflexivity.
  - apply (create_save_rejected_keeps_upload Examples.env_save_fails
             Examples.req_tea_image Examples.world_empty Examples.tea_png
             "connection lost").
    + vm_compute. reflexivity.
    + reflexivity.
    + reflexivity.
    + reflexivity.
Defined.

(** C5 as stated fails: the upload succeeds, the save is rejected, the
    request is answered 400 with no record created, and the object just
    uploaded is still in the bucket; [deleteObject] was never called. *)
Lemma create_save_failure_orphans_upload :
  create_product Examples.env_save_fails Examples.req_tea_image Examples.world_empty
  = (Resolved {| status := 400;
                 json := JFailure "Failed to create product" "connection lost" |},
     {| products := [];
        bucket := {[ "products/1700000000000-tea.png" :=
                       {| Body := "PNG"; ContentType := "image/png" |} ]};
        calls := [Call_s3_upload "products/1700000000000-tea.png";
                  Call_save "65a000000000000000000001";
                  Call_console_error "Product creation error:"] |})
  /\ ({[ "products/1700000000000-tea.png" :=
           {| Body := "PNG"; ContentType := "image/png" |} ]} : gmap string S3Object)
       !! "products/1700000000000-tea.png"
     = Some {| Body := "PNG"; ContentType := "image/png" |}
  /\ ~ In (Call_s3_deleteObject "products/1700000000000-tea.png")
         [Call_s3_upload "products/1700000000000-tea.png";
          Call_save "65a000000000000000000001";
          Call_console_error "Product creation error:"].
Proof.
  split; [vm_compute; reflexivity|]. split; [vm_compute; reflexivity|].
  cbn. intros [H|[H|[H|[]]]]; discriminate H.
Qed.

(** *** Update: a record that does not exist *)

(** An Update whose lookup is rejected is answered 400 by the outer
    [catch]. *)
Lemma update_lookup_rejected (env : Env) (req : Request) (w : World) (e : string) :
  validateProduct (body req) = [] ->
  findById_error env = Some e ->
  update_product env req w
  = (Resolved {| status := 400; json := JFailure "Failed to update product" e |},
     record_call (Call_console_error "Product update error:")
       (record_call (Call_findById (params_id req)) w)).
Proof.
  intros Hv Hf. unfold update_product. rewrite Hv.
  rewrite run_try_catch, run_bind, (Product_findById_rejected _ _ _ e) by assumption.
  reflexivity.
Qed.

(** C3, as the code has it. For an id with no record: when the submitted
    fields pass validation (and the lookup is served), Update answers 404
    "Product not found", and only the lookup has happened; when the fields
    fail validation, Update answers 400 with the validation errors instead,
    and the store is not consulted at all. *)
Theorem update_of_missing_record (env : Env) (req : Request) (w : World) :
  find_doc (params_id req) (products w) = None ->
  (validateProduct (body req) = [] -> findById_error env = None ->
   update_product env req w
   = (Resolved {| status := 404; json := JNotFound "Product not found" |},
      record_call (Call_findById (params_id req)) w))
  /\ (validateProduct (body req) <> [] ->
      update_product env req w
      = (Resolved {| status := 400;
                     json := JErrors (validateProduct (body req)) |}, w)).
Proof.
  intros Hnone. split.
  - intros Hv Hf. unfold update_product. rewrite Hv.
    rewrite run_try_catch, run_bind, Product_findById_served by assumption.
    rewrite Hnone. reflexivity.
  - intros Hne. unfold update_product.
    destruct (validateProduct (body req)) as [|err errs]; [congruence|].
    reflexivity.
Qed.

Lemma update_of_missing_record_witness :
  find_doc (params_id Examples.req_update_missing) (products Examples.world_empty)
  = None
  /\ update_product Examples.env_ok Examples.req_update_missing Examples.world_empty
     = (Resolved {| status := 404; json := JNotFound "Product not found" |},
        record_call (Call_findById (params_id Examples.req_update_missing))
          Examples.world_empty).
Proof.
  split.
  - reflexivity.
  - apply (update_of_missing_record
             Examples.env_ok Examples.req_update_missing Examples.world_empty).
    + reflexivity.
    + vm_compute. reflexivity.
    + reflexivity.
Defined.

(** C3 as stated fails: an Update of a non-existent id with sellPrice = -1
    is answered 400 with the validation error, not 404. *)
Lemma update_missing_with_invalid_fields_is_400 :
  find_doc (params_id Examples.req_update_invalid) (products Examples.world_empty)
  = None
  /\ update_product Examples.env_ok Examples.req_update_invalid Examples.world_empty
     = (Resolved {| status := 400;
                    json := JErrors [body_error "sellPrice"
                                       "Sell price must be a positive number"] |},
        Examples.world_empty)
  /\ (forall r w',
        update_product Examples.env_ok Examples.req_update_invalid Examples.world_empty
        = (Resolved r, w') -> status r <> 404).
Proof.
  split; [reflexivity|]. split; [vm_compute; reflexivity|].
  intros r w' H.
  assert (E : update_product Examples.env_ok Examples.req_update_invalid
                Examples.world_empty
              = (Resolved {| status := 400;
                    json := JErrors [body_error "sellPrice"
                                       "Sell price must be a positive number"] |},
                 Examples.world_empty)) by (vm_compute; reflexivity).
  rewrite E in H. injection H as <- _. cbn. lia.
Qed.

(** *** Update: the frame *)

(** The update handler once the record is found. *)
Lemma update_product_found (env : Env) (req : Request) (w : World) (d : Doc) :
  validateProduct (body req) = [] ->
  findById_error env = None ->
  find_doc (params_id req) (products w) = Some d ->
  update_product env req w
  = match replace_image env (file req) (hydrate d)
            (record_call (Call_findById (params_id req)) w) with
    | (Resolved imageUrl, w1) =>
        match Document_save env
                (assign_fields (sanitize (body req)) imageUrl (hydrate d)) w1 with
        | (Resolved r, w2) =>
            (Resolved {| status := 200;
                         json := JProduct "Product updated successfully" (Some r) |},
             w2)
        | (Rejected e, w2) =>
            (Resolved {| status := 400;
                         json := JFailure "Failed to update product" e |},
             record_call (Call_console_error "Product update error:") w2)
        end
    | (Rejected e, w1) =>
        (Resolved {| status := 400;
                     json := JFailure "Failed to update product" e |},
         record_call (Call_console_error "Product update error:") w1)
    end.
Proof.
  intros Hv Hfind Hd. unfold update_product. rewrite Hv.
  rewrite run_try_catch, run_bind, Product_findById_served by assumption.
  rewrite Hd. cbn [fmap option_fmap option_map].
  rewrite run_bind.
  destruct (replace_image env (file req) (hydrate d) _) as [[imageUrl|e] w1];
    [|reflexivity].
  rewrite run_bind.
  destruct (Document_save env _ w1) as [[r|e] w2]; reflexivity.
Qed.

(** C9. Update never modifies itemName: for an existing record and a
    request that passes validation, whatever itemName it submits and
    however the remote calls fare, the record stored under the id after
    the Update has the itemName it had before; so has every field outside
    sellPrice, type, primaryUnit, customUnit, gstEnabled, gstPercentage,
    gstAmount, totalPrice and imageUrl, and the id and creation date. *)
Theorem update_keeps_itemName (env : Env) (req : Request) (w : World) (d : Doc) :
  find_doc (params_id req) (products w) = Some d ->
  validateProduct (body req) = [] ->
  exists r w' d',
    update_product env req w = (Resolved r, w')
    /\ find_doc (params_id req) (products w') = Some d'
    /\ fields d' !! "itemName" = fields d !! "itemName"
    /\ (forall k, ~ In k assigned_paths -> fields d' !! k = fields d !! k)
    /\ _id d' = _id d
    /\ createdAt d' = createdAt d.
Proof.
  intros Hd Hv.
  assert (Hsame : forall r w',
            update_product env req w = (Resolved r, w') ->
            products w' = products w ->
            exists r w' d',
              update_product env req w = (Resolved r, w')
              /\ find_doc (params_id req) (products w') = Some d'
              /\ fields d' !! "itemName" = fields d !! "itemName"
              /\ (forall k, ~ In k assigned_paths -> fields d' !! k = fields d !! k)
              /\ _id d' = _id d
              /\ createdAt d' = createdAt d).
  { intros r w' E Hp. exists r, w', d. rewrite Hp. repeat split; assumption. }
  unfold update_product in *. rewrite Hv in *.
  rewrite run_try_catch, run_bind in *.
  destruct (findById_error env) as [e|] eqn:Hfind.
  { rewrite (Product_findById_rejected _ _ _ e Hfind) in *.
    eapply Hsame; reflexivity. }
  rewrite (Product_findById_served _ _ _ Hfind) in *.
  rewrite Hd in *. cbn [fmap option_fmap option_map] in *.
  rewrite run_bind in *.
  destruct (replace_image_products env (file req) (hydrate d)
              (record_call (Call_findById (params_id req)) w))
    as (res & w1 & E1 & Hp1).
  rewrite E1 in *. destruct res as [imageUrl|e].
  2: { eapply Hsame; [reflexivity|exact Hp1]. }
  rewrite run_bind in *.
  set (d1 := assign_fields (sanitize (body req)) imageUrl (hydrate d)) in *.
  assert (Ht : d_createdAt d1 = Some (createdAt d))
    by (unfold d1; now rewrite assign_fields_d_createdAt).
  destruct (Document_save_stored env d1 w1 (createdAt d) Ht)
    as (res & w2 & E2 & _ & _ & Hcases).
  rewrite E2 in *.
  destruct Hcases as [[[e ->] Hp2] | [-> Hp2]].
  { eapply Hsame; [reflexivity|]. cbn. now rewrite Hp2, Hp1. }
  clear Hsame.
  eexists _, _, _. split; [reflexivity|].
  assert (Hid : d_id d1 = params_id req).
  { unfold d1. rewrite assign_fields_d_id. cbn. now apply find_doc_has_id in Hd. }
  split.
  { rewrite Hp2, Hp1. cbn [products record_call].
    eapply find_doc_replace_doc; [exact Hd | exact Hid]. }
  cbn [fields _id createdAt].
  assert (Hframe : forall k, ~ In k assigned_paths ->
                     d_fields d1 !! k = fields d !! k).
  { intros k Hk. unfold d1. now rewrite assign_fields_lookup_other. }
  split; [apply Hframe; unfold assigned_paths; cbn; intuition discriminate|].
  split; [exact Hframe|].
  split; [|reflexivity].
  rewrite Hid. symmetry. now apply find_doc_has_id in Hd.
Qed.

Lemma update_keeps_itemName_witness :
  find_doc (params_id Examples.req_update_tea) (products Examples.world_tea)
  = Some Examples.tea_doc
  /\ validateProduct (body Examples.req_update_tea) = []
  /\ get (body Examples.req_update_tea) "itemName" = VStr "Chai"
  /\ exists r w' d',
       update_product Examples.env_ok Examples.req_update_tea Examples.world_tea
       = (Resolved r, w')
       /\ find_doc (params_id Examples.req_update_tea) (products w') = Some d'
       /\ fields d' !! "itemName" = Some (VStr "Tea").
Proof.
  split; [reflexivity|]. split; [vm_compute; reflexivity|].
  split; [reflexivity|].
  destruct (update_keeps_itemName Examples.env_ok Examples.req_update_tea
              Examples.world_tea Examples.tea_doc eq_refl)
    as (r & w' & d' & E & Hf & Hname & _).
  - vm_compute. reflexivity.
  - exists r, w', d'. split; [exact E|]. split; [exact Hf|].
    rewrite Hname. reflexivity.
Defined.

(** So does the record of an Update answered 200. *)
Lemma updated_record_pricing (env : Env) (req : Request) (w w' : World)
    (m : string) (r : Doc) :
  update_product env req w
  = (Resolved {| status := 200; json := JProduct m (Some r) |}, w') ->
  let sellPrice := parseFloat (get (body req) "sellPrice") in
  let gstEnabled := strict_eq_str (get (body req) "gstEnabled") "true" in
  fields r !! "sellPrice" = Some (VNum sellPrice)
  /\ fields r !! "gstEnabled" = Some (VBool gstEnabled)
  /\ fields r !! "totalPrice"
     = Some (VNum (totalPrice (calculate_gst (get (body req) "gstEnabled")
                                 (get (body req) "sellPrice")))).
Proof.
  intros H sp en. revert H. unfold update_product.
  destruct (validateProduct (body req)); [|discriminate].
  rewrite run_try_catch, run_bind.
  destruct (Product_findById env (params_id req) w) as [[[existing|]|e] w0];
    [|discriminate|discriminate].
  rewrite run_bind.
  destruct (replace_image env (file req) existing w0) as [[imageUrl|e] w1];
    [|discriminate].
  rewrite run_bind.
  match goal with
  | |- context [Document_save env ?d w1] =>
      set (d1 := d);
      pose proof (Document_save_resolved env d1 w1) as Hsave;
      destruct (Document_save env d1 w1) as [[r'|e] w2]
  end; [|discriminate].
  intros H. injection H as Hr Hw. subst r' w2.
  destruct (Hsave w' r eq_refl) as (Hvalid & -> & _).
  apply validate_nil_invalid in Hvalid.
  unfold d1, assign_fields in Hvalid |- *.
  rewrite (get_sanitize_other _ "sellPrice"), (get_sanitize_other _ "gstEnabled")
    in Hvalid |- * by discriminate.
  fold sp en in Hvalid |- *.
  set (g := calculate_gst _ _) in *.
  assert (Hsp : sellPriceFloat g = sp) by reflexivity.
  rewrite Hsp in Hvalid |- *. clear Hsp.
  set (total := totalPrice g) in *.
  assert (Hnan_sp : is_nan sp = false).
  { destruct (is_nan sp) eqn:E; [|reflexivity]. exfalso.
    assert (Hin : In "sellPrice" ([] : list string)); [|destruct Hin].
    rewrite <- Hvalid. do 8 apply set_invalid_mono.
    eapply set_invalid; [reflexivity | discriminate |].
    cbn [cast instance]. now rewrite castNumber_VNum, E. }
  assert (Hnan_total : is_nan total = false).
  { destruct (is_nan total) eqn:E; [|reflexivity]. exfalso.
    assert (Hin : In "totalPrice" ([] : list string)); [|destruct Hin].
    rewrite <- Hvalid. do 1 apply set_invalid_mono.
    eapply set_invalid; [reflexivity | discriminate |].
    cbn [cast instance]. now rewrite castNumber_VNum, E. }
  repeat split.
  - do 8 (rewrite set_lookup_other by discriminate).
    eapply set_lookup_same; [reflexivity | discriminate |].
    cbn [cast instance]. now rewrite castNumber_VNum, Hnan_sp.
  - do 4 (rewrite set_lookup_other by discriminate).
    eapply set_lookup_same; [reflexivity | discriminate | reflexivity].
  - do 1 (rewrite set_lookup_other by discriminate).
    eapply set_lookup_same; [reflexivity | discriminate |].
    cbn [cast instance]. now rewrite castNumber_VNum, Hnan_total.
Qed.

(** An Update leaves the fields under undeclared names as they were: the
    assignments to gstPercentage and gstAmount do not reach the record. *)
Lemma updated_record_undeclared (env : Env) (req : Request) (w w' : World)
    (m : string) (r d : Doc) (k : string) :
  update_product env req w
  = (Resolved {| status := 200; json := JProduct m (Some r) |}, w') ->
  find_doc (params_id req) (products w) = Some d ->
  schema_path k = None ->
  fields r !! k = fields d !! k.
Proof.
  intros H Hd Hk. revert H. unfold update_product.
  destruct (validateProduct (body req)); [|discriminate].
  rewrite run_try_catch, run_bind. unfold Product_findById.
  destruct (findById_error env); [discriminate|].
  cbn [products record_call]. rewrite Hd. cbn [fmap option_fmap option_map].
  rewrite run_bind.
  destruct (replace_image env (file req) (hydrate d) _) as [[imageUrl|e] w1];
    [|discriminate].
  rewrite run_bind.
  match goal with
  | |- context [Document_save env ?d1 w1] =>
      pose proof (Document_save_resolved env d1 w1) as Hsave;
      destruct (Document_save env d1 w1) as [[r'|e] w2]
  end; [|discriminate].
  intros H. injection H as Hr Hw. subst r' w2.
  destruct (Hsave w' r eq_refl) as (_ & -> & _).
  now rewrite assign_fields_lookup_undeclared.
Qed.

(** *** Update: a new image *)

(** Update of an existing record with a new image, when the record has
    a non-empty imageUrl: [deleteObject] for the key derived from that URL
    is issued before the upload of the new object; a rejected delete is
    only logged, and the answer and the stored records are the same
    whatever the delete does; a rejected upload makes the request fail with
    "Image upload failed", with no save issued and the collection as it
    was. When the delete is served, the derived key is free in the
    bucket. *)
Lemma update_image_block_trace
    (env : Env) (req : Request) (w : World) (d : Doc) (f : File) (url : string) :
  validateProduct (body req) = [] ->
  file req = Some f ->
  findById_error env = None ->
  find_doc (params_id req) (products w) = Some d ->
  get (fields d) "imageUrl" = VStr url ->
  url <> "" ->
  let oldKey := last_two_segments url in
  let newKey := upload_filename env f in
  let warned :=
    match s3_delete_error env with
    | Some _ => [Call_console_warn "Failed to delete old image:"]
    | None => []
    end in
  exists r w' rest,
    update_product env req w = (Resolved r, w')
    /\ calls w'
       = calls w ++ [Call_findById (params_id req); Call_s3_deleteObject oldKey]
           ++ warned ++ [Call_s3_upload newKey] ++ rest
    /\ (s3_upload_error env = None ->
        exists rest', rest = Call_save (params_id req) :: rest')
    /\ (forall e, s3_upload_error env = Some e ->
        r = {| status := 400;
               json := JFailure "Failed to update product" "Image upload failed" |}
        /\ products w' = products w
        /\ rest = [Call_console_error "S3 upload error:";
                   Call_console_error "Product update error:"])
    /\ (forall o, exists w'',
          update_product (with_s3_delete_error o env) req w = (Resolved r, w'')
          /\ products w'' = products w')
    /\ (s3_delete_error env = None -> oldKey <> newKey ->
        bucket w' !! oldKey = None).
Proof.
  intros Hv Hf Hfind Hd Hurl Hne oldKey newKey warned.
  assert (Hid : _id d = params_id req) by now apply find_doc_has_id in Hd.
  (* any environment that differs in the answer to deleteObject only *)
  assert (Hrun : forall env',
            findById_error env' = None ->
            exists w1,
              update_product env' req w
              = match uploadToS3 env' (Some f) w1 with
                | (Resolved imageUrl, w1) =>
                    match Document_save env'
                            (assign_fields (sanitize (body req)) imageUrl (hydrate d))
                            w1 with
                    | (Resolved r, w2) =>
                        (Resolved {| status := 200;
                                     json := JProduct "Product updated successfully"
                                               (Some r) |}, w2)
                    | (Rejected e, w2) =>
                        (Resolved {| status := 400;
                                     json := JFailure "Failed to update product" e |},
                         record_call (Call_console_error "Product update error:") w2)
                    end
                | (Rejected e, w1) =>
                    (Resolved {| status := 400;
                                 json := JFailure "Failed to update product" e |},
                     record_call (Call_console_error "Product update error:") w1)
                end
              /\ products w1 = products w
              /\ calls w1
                 = calls w ++ [Call_findById (params_id req);
                               Call_s3_deleteObject oldKey]
                     ++ match s3_delete_error env' with
                        | Some _ => [Call_console_warn "Failed to delete old image:"]
                        | None => []
                        end
              /\ (s3_delete_error env' = None ->
                  bucket w1 = delete oldKey (bucket w))).
  { intros env' Hfind'.
    rewrite (update_product_found env' req w d Hv Hfind' Hd), Hf.
    destruct (replace_image_run env' f (hydrate d)
                (record_call (Call_findById (params_id req)) w) url Hurl Hne)
      as (w1 & -> & Hp & Hc & Hb).
    exists w1. split; [reflexivity|]. split; [exact Hp|].
    split; [|exact Hb].
    rewrite Hc. cbn [calls record_call]. now rewrite <- !app_assoc. }
  destruct (Hrun env Hfind) as (w1 & E & Hp1 & Hc1 & Hb1).
  destruct (s3_upload_error env) as [e|] eqn:Hup.
  - (* the upload is rejected *)
    rewrite (uploadToS3_rejected env f w1 e Hup) in E.
    eexists _, _, [Call_console_error "S3 upload error:";
                   Call_console_error "Product update error:"].
    split; [exact E|].
    split.
    { cbn [calls record_call]. rewrite Hc1. fold warned newKey.
      rewrite <- !app_assoc. reflexivity. }
    split; [discriminate|].
    split.
    { intros e' _. split; [reflexivity|]. split; [|reflexivity].
      rewrite !record_call_products. exact Hp1. }
    split.
    { intros o.
      destruct (Hrun (with_s3_delete_error o env) Hfind) as (w1' & E' & Hp1' & _).
      rewrite uploadToS3_with_s3_delete_error in E'.
      rewrite (uploadToS3_rejected env f w1' e Hup) in E'.
      eexists. split; [exact E'|].
      rewrite !record_call_products. now rewrite Hp1, Hp1'. }
    intros Hdel Hkeys. cbn [bucket record_call]. rewrite (Hb1 Hdel).
    apply lookup_delete_eq.
  - (* the upload is served *)
    rewrite (uploadToS3_served env f w1 Hup) in E.
    set (w2 := set_bucket _ _) in E.
    set (d1 := assign_fields _ _ _) in E.
    assert (Hd1 : d_id d1 = params_id req).
    { unfold d1. rewrite assign_fields_d_id. exact Hid. }
    destruct (Document_save_calls env d1 w2) as [Hc2 Hb2].
    assert (Hc12 : calls w2 = calls w1 ++ [Call_s3_upload newKey]) by reflexivity.
    assert (Hb12 : bucket w2 = <[newKey := upload_object f]> (bucket w1)) by reflexivity.
    assert (Hindep : forall o, exists w2',
               products w2' = products w2
               /\ update_product (with_s3_delete_error o env) req w
                  = match Document_save env d1 w2' with
                    | (Resolved r, w3) =>
                        (Resolved {| status := 200;
                                     json := JProduct "Product updated successfully"
                                               (Some r) |}, w3)
                    | (Rejected e, w3) =>
                        (Resolved {| status := 400;
                                     json := JFailure "Failed to update product" e |},
                         record_call (Call_console_error "Product update error:") w3)
                    end).
    { intros o.
      destruct (Hrun (with_s3_delete_error o env) Hfind) as (w1' & E' & Hp1' & _).
      rewrite uploadToS3_with_s3_delete_error in E'.
      rewrite (uploadToS3_served env f w1' Hup) in E'.
      rewrite Document_save_with_s3_delete_error in E'.
      eexists. split; [|exact E'].
      unfold w2, set_bucket. cbn [products]. rewrite !record_call_products.
      now rewrite Hp1, Hp1'. }
    destruct (Document_save env d1 w2) as [[r|e] w3] eqn:Es; cbn [snd] in Hc2, Hb2.
    + eexists _, _, [Call_save (params_id req)]. split; [exact E|].
      split.
      { rewrite Hc2, Hc12, Hc1, Hd1. fold warned.
        rewrite <- !app_assoc. reflexivity. }
      split; [eauto|]. split; [discriminate|].
      split.
      { intros o. destruct (Hindep o) as (w2' & Hp' & E').
        destruct (Document_save_depends_on_products env d1 w2' w2 Hp') as [Hr Hpr].
        rewrite Es in Hr, Hpr. cbn [fst snd] in Hr, Hpr.
        destruct (Document_save env d1 w2') as [res w3'].
        cbn [fst snd] in Hr, Hpr. subst res.
        eexists. split; [exact E'|exact Hpr]. }
      intros Hdel Hkeys. rewrite Hb2, Hb12, (Hb1 Hdel).
      rewrite lookup_insert_ne by (intros Heq; apply Hkeys; now rewrite Heq).
      apply lookup_delete_eq.
    + eexists _, _, [Call_save (params_id req);
                     Call_console_error "Product update error:"].
      split; [exact E|].
      split.
      { cbn [calls record_call]. rewrite Hc2, Hc12, Hc1, Hd1. fold warned.
        rewrite <- !app_assoc. reflexivity. }
      split; [eauto|]. split; [discriminate|].
      split.
      { intros o. destruct (Hindep o) as (w2' & Hp' & E').
        destruct (Document_save_depends_on_products env d1 w2' w2 Hp') as [Hr Hpr].
        rewrite Es in Hr, Hpr. cbn [fst snd] in Hr, Hpr.
        destruct (Document_save env d1 w2') as [res w3'].
        cbn [fst snd] in Hr, Hpr. subst res.
        eexists. split; [exact E'|]. rewrite record_call_products. exact Hpr. }
      intros Hdel Hkeys. cbn [bucket record_call]. rewrite Hb2, Hb12, (Hb1 Hdel).
      rewrite lookup_insert_ne by (intros Heq; apply Hkeys; now rewrite Heq).
      apply lookup_delete_eq.
Qed.

(** An update of the tea record, run: S3 rejects the delete of the old
    image, the new one is uploaded and the record saved all the same. *)
Example update_tea_delete_rejected_runs :
  update_product Examples.env_delete_fails Examples.req_update_tea Examples.world_tea
  = (Resolved {| status := 200;
                 json := JProduct "Product updated successfully"
                           (Some Examples.chai_doc) |},
     {| products := [Examples.chai_doc];
        bucket := {[ "products/1700000000000-tea.png" :=
                       {| Body := "PNG"; ContentType := "image/png" |};
                     "products/1700000000900-chai.png" :=
                       {| Body := "PNG2"; ContentType := "image/png" |} ]};
        calls := [Call_findById "65a000000000000000000001";
                  Call_s3_deleteObject "products/1700000000000-tea.png";
                  Call_console_warn "Failed to delete old image:";
                  Call_s3_upload "products/1700000000900-chai.png";
                  Call_save "65a000000000000000000001"] |}).
Proof. vm_compute. reflexivity. Qed.

(** *** Delete *)



(** *** List *)

(** C8, as the code has it. List answers with all the stored records, later
    createdAt first. When A, B and C are created in this order in an empty
    store at strictly increasing times of save, List returns [C, B, A]. *)
Theorem list_products_newest_first :
  (forall (env : Env) (w : World),
     find_error env = None ->
     exists l,
       list_products env w
       = (Resolved {| status := 200; json := JProducts l |}, record_call Call_find w)
       /\ Permutation l (products w)
       /\ StronglySorted newer_or_same l)
  /\ (forall (envA envB envC envL : Env) (reqA reqB reqC : Request)
        (w0 w1 w2 w3 : World) (mA mB mC : string) (A B C : Doc),
        products w0 = [] ->
        create_product envA reqA w0
        = (Resolved {| status := 201; json := JProduct mA (Some A) |}, w1) ->
        create_product envB reqB w1
        = (Resolved {| status := 201; json := JProduct mB (Some B) |}, w2) ->
        create_product envC reqC w2
        = (Resolved {| status := 201; json := JProduct mC (Some C) |}, w3) ->
        save_time envA < save_time envB ->
        save_time envB < save_time envC ->
        find_error envL = None ->
        list_products envL w3
        = (Resolved {| status := 200; json := JProducts [C; B; A] |},
           record_call Call_find w3)).
Proof.
  assert (Hlist : forall env w, find_error env = None ->
            list_products env w
            = (Resolved {| status := 200;
                           json := JProducts (sort_createdAt_desc (products w)) |},
               record_call Call_find w)).
  { intros env w Hf. unfold list_products.
    rewrite run_try_catch, run_bind. unfold Product_find_sorted. now rewrite Hf. }
  split.
  - intros env w Hf. eexists. split; [now apply Hlist|].
    split; [apply sort_createdAt_desc_Permutation | apply sort_createdAt_desc_sorted].
  - intros envA envB envC envL reqA reqB reqC w0 w1 w2 w3 mA mB mC A B C
      H0 HA HB HC Hab Hbc Hf.
    apply create_product_created in HA as (HpA & HtA & _).
    apply create_product_created in HB as (HpB & HtB & _).
    apply create_product_created in HC as (HpC & HtC & _).
    rewrite (Hlist envL w3 Hf). rewrite HpC, HpB, HpA, H0. cbn [app].
    rewrite sort_three_increasing by lia. reflexivity.
Qed.

(** Creating A, B and C one after the other, at the times given. *)
Lemma create_ABC (tA tB tC : Z) : Scenarios.created_in_order tA tB tC.
Proof.
  eexists _, _. split; [|split]; vm_compute; reflexivity.
Defined.

Lemma list_products_newest_first_witness :
  list_products Examples.env_ok (Examples.world_ABC 1000 2000 3000)
  = (Resolved {| status := 200;
                 json := JProducts [Examples.dish_doc Examples.idC "C" 3000;
                                    Examples.dish_doc Examples.idB "B" 2000;
                                    Examples.dish_doc Examples.idA "A" 1000] |},
     record_call Call_find (Examples.world_ABC 1000 2000 3000)).
Proof.
  destruct (create_ABC 1000 2000 3000) as (w1 & w2 & HA & HB & HC).
  apply (proj2 list_products_newest_first
           (Examples.env_at Examples.idA 1000) (Examples.env_at Examples.idB 2000)
           (Examples.env_at Examples.idC 3000) Examples.env_ok
           (Examples.req_dish "A") (Examples.req_dish "B") (Examples.req_dish "C")
           Examples.world_empty w1 w2 (Examples.world_ABC 1000 2000 3000)
           _ _ _ _ _ _ eq_refl HA HB HC).
  - reflexivity.
  - reflexivity.
  - reflexivity.
Defined.

(** C8 as stated fails. A, B and C created one after the other within the
    same millisecond come back as [A, B, C]; and when the clock is set
    back before the third Create, the answer is [B, A, C]. Either answer is
    in createdAt order, and neither is [C, B, A]. *)
Lemma list_after_creates_not_newest_first :
  Scenarios.created_in_order 1000 1000 1000
  /\ fst (list_products Examples.env_ok (Examples.world_ABC 1000 1000 1000))
     = Resolved {| status := 200;
                   json := JProducts [Examples.dish_doc Examples.idA "A" 1000;
                                      Examples.dish_doc Examples.idB "B" 1000;
                                      Examples.dish_doc Examples.idC "C" 1000] |}
  /\ [Examples.dish_doc Examples.idA "A" 1000;
      Examples.dish_doc Examples.idB "B" 1000;
      Examples.dish_doc Examples.idC "C" 1000]
     <> [Examples.dish_doc Examples.idC "C" 1000;
         Examples.dish_doc Examples.idB "B" 1000;
         Examples.dish_doc Examples.idA "A" 1000]
  /\ Scenarios.created_in_order 2000 3000 1000
  /\ fst (list_products Examples.env_ok (Examples.world_ABC 2000 3000 1000))
     = Resolved {| status := 200;
                   json := JProducts [Examples.dish_doc Examples.idB "B" 3000;
                                      Examples.dish_doc Examples.idA "A" 2000;
                                      Examples.dish_doc Examples.idC "C" 1000] |}
  /\ [Examples.dish_doc Examples.idB "B" 3000;
      Examples.dish_doc Examples.idA "A" 2000;
      Examples.dish_doc Examples.idC "C" 1000]
     <> [Examples.dish_doc Examples.idC "C" 1000;
         Examples.dish_doc Examples.idB "B" 3000;
         Examples.dish_doc Examples.idA "A" 2000].
Proof.
  split; [exact (create_ABC 1000 1000 1000)|].
  split; [vm_compute; reflexivity|].
  split; [intros H; apply (f_equal (map _id)) in H; discriminate H|].
  split; [exact (create_ABC 2000 3000 1000)|].
  split; [vm_compute; reflexivity|].
  intros H; apply (f_equal (map _id)) in H; discriminate H.
Qed.

(* ===================================================================== *)
(** ** Further properties *)
(* ===================================================================== *)

(** *** Every request is answered *)

(** X1. No handler lets an exception escape: Create answers 201 or 400,
    Update 200, 400 or 404, Delete 200, 404 or 500, List 200 or 500,
    whatever the request, the store and the remote services do. *)
Theorem handlers_always_answer (env : Env) (req : Request) (w : World) :
  (exists r w', create_product env req w = (Resolved r, w')
                /\ In (status r) Coverage.create_statuses)
  /\ (exists r w', update_product env req w = (Resolved r, w')
                   /\ In (status r) Coverage.update_statuses)
  /\ (exists r w', delete_product env req w = (Resolved r, w')
                   /\ In (status r) Coverage.delete_statuses)
  /\ (exists r w', list_products env w = (Resolved r, w')
                   /\ In (status r) Coverage.list_statuses).
Proof.
  repeat split.
  - unfold create_product.
    destruct (validateProduct (body req)).
    2: { eexists _, _. split; [reflexivity|]. cbn. auto. }
    rewrite run_try_catch, run_bind.
    destruct (uploadToS3 env (file req) w) as [[imageUrl|e] w1].
    2: { eexists _, _. split; [reflexivity|]. cbn. auto. }
    rewrite run_bind.
    destruct (Document_save env _ w1) as [[r|e] w2];
      eexists _, _; (split; [reflexivity|]); cbn; auto.
  - unfold update_product.
    destruct (validateProduct (body req)).
    2: { eexists _, _. split; [reflexivity|]. cbn. auto. }
    rewrite run_try_catch, run_bind.
    destruct (Product_findById env (params_id req) w) as [[[d|]|e] w0].
    2,3: eexists _, _; (split; [reflexivity|]); cbn; auto.
    rewrite run_bind.
    destruct (replace_image env (file req) d w0) as [[imageUrl|e] w1].
    2: { eexists _, _. split; [reflexivity|]. cbn. auto. }
    rewrite run_bind.
    destruct (Document_save env _ w1) as [[r|e] w2];
      eexists _, _; (split; [reflexivity|]); cbn; auto.
  - unfold delete_product.
    rewrite run_try_catch, run_bind.
    destruct (Product_findById env (params_id req) w) as [[[d|]|e] w0].
    2,3: eexists _, _; (split; [reflexivity|]); cbn; auto.
    rewrite run_bind.
    destruct (delete_old_image_total env (get (d_fields d) "imageUrl")
                "Failed to delete image from S3:" w0) as (w1 & -> & _).
    rewrite run_bind.
    destruct (Product_findByIdAndDelete env (params_id req) w1) as [[p|e] w2];
      eexists _, _; (split; [reflexivity|]); cbn; auto.
  - unfold list_products.
    rewrite run_try_catch, run_bind.
    destruct (Product_find_sorted env w) as [[l|e] w1];
      eexists _, _; (split; [reflexivity|]); cbn; auto.
Qed.

(** *** Create when the upload fails *)

(** X2. When S3 rejects the upload, Create answers 400 "Failed to create
    product" with the detail "Image upload failed"; no save is attempted,
    and the collection and the bucket are as before. *)
Theorem create_upload_rejected_stores_nothing
    (env : Env) (req : Request) (w : World) (f : File) (e : string) :
  validateProduct (body req) = [] ->
  file req = Some f ->
  s3_upload_error env = Some e ->
  exists w',
    create_product env req w
    = (Resolved {| status := 400;
                   json := JFailure "Failed to create product"
                             "Image upload failed" |}, w')
    /\ products w' = products w
    /\ bucket w' = bucket w
    /\ calls w'
       = calls w ++ [Call_s3_upload (upload_filename env f);
                     Call_console_error "S3 upload error:";
                     Call_console_error "Product creation error:"].
Proof.
  intros Hv Hf Hup. unfold create_product. rewrite Hv, Hf.
  rewrite run_try_catch, run_bind, (uploadToS3_rejected env f w e Hup).
  eexists. split; [reflexivity|].
  cbn [products bucket calls record_call].
  rewrite <- !app_assoc. repeat split.
Qed.

Lemma create_upload_rejected_stores_nothing_witness :
  validateProduct (body Examples.req_tea_image) = []
  /\ exists w',
       create_product Coverage.env_upload_fails Examples.req_tea_image
         Examples.world_empty
       = (Resolved {| status := 400;
                      json := JFailure "Failed to create product"
                                "Image upload failed" |}, w')
       /\ products w' = products Examples.world_empty
       /\ bucket w' = bucket Examples.world_empty.
Proof.
  split; [vm_compute; reflexivity|].
  destruct (create_upload_rejected_stores_nothing Coverage.env_upload_fails
              Examples.req_tea_image Examples.world_empty Examples.tea_png
              "RequestTimeout") as (w' & E & Hp & Hb & _).
  - vm_compute. reflexivity.
  - reflexivity.
  - reflexivity.
  - exists w'. repeat split; assumption.
Defined.

(** *** Delete when the record store fails after the image is gone *)

(** Delete removes the image before the record. When S3 serves the
    delete and the store then rejects [findByIdAndDelete], the request is
    answered 500 "Failed to delete product": the record is still in the
    collection, with its imageUrl, while the key that the handler derives
    from that URL is free in the bucket. *)
Lemma delete_store_rejected_at_key
    (env : Env) (req : Request) (w : World) (d : Doc) (url e : string) :
  findById_error env = None ->
  find_doc (params_id req) (products w) = Some d ->
  get (fields d) "imageUrl" = VStr url ->
  url <> "" ->
  s3_delete_error env = None ->
  findByIdAndDelete_error env = Some e ->
  exists w',
    delete_product env req w
    = (Resolved {| status := 500;
                   json := JFailure "Failed to delete product" e |}, w')
    /\ products w' = products w
    /\ find_doc (params_id req) (products w') = Some d
    /\ bucket w' = delete (last_two_segments url) (bucket w)
    /\ bucket w' !! last_two_segments url = None.
Proof.
  intros Hfind Hd Hurl Hne Hs3 Hdel. unfold delete_product.
  rewrite run_try_catch, run_bind, Product_findById_served by assumption.
  rewrite Hd. cbn [fmap option_fmap option_map hydrate d_fields].
  rewrite run_bind, Hurl, delete_old_image_served by assumption.
  rewrite run_bind. unfold Product_findByIdAndDelete. rewrite Hdel.
  eexists. split; [reflexivity|].
  cbn [products bucket record_call set_bucket].
  split; [reflexivity|]. split; [exact Hd|]. split; [reflexivity|].
  apply lookup_delete_eq.
Qed.

(** *** The multer stage *)

Lemma strip_prefix_app (p s rest : string) :
  strip_prefix p s = Some rest <-> s = p +:+ rest.
Proof.
  revert s. induction p as [|a p IH]; intros s; cbn.
  - split; [now intros [= ->] | now intros ->].
  - destruct s as [|b s]; [split; discriminate|].
    destruct (Ascii.eqb_spec a b) as [->|Hne].
    + rewrite IH. split; [now intros -> | now intros [= ->]].
    + split; [discriminate | intros [= -> _]; contradiction].
Qed.

(** [fileFilter] accepts exactly the MIME types that start with
    [image/]. *)
Lemma fileFilter_spec (f : File) :
  fileFilter f = true <-> exists rest, mimetype f = "image/" +:+ rest.
Proof.
  unfold fileFilter, startsWith.
  destruct (strip_prefix "image/" (mimetype f)) as [rest|] eqn:E.
  - apply strip_prefix_app in E. split; eauto.
  - split; [discriminate|]. intros [rest Hr].
    apply strip_prefix_app in Hr. congruence.
Qed.

(** X4. A file whose MIME type does not start with [image/], or whose
    buffer has 5 MiB (5242880 bytes) or more, never reaches the create or
    the update handler: the request is answered 500 with multer's message
    by the general error handler, and nothing is uploaded, looked up or
    stored. A request without a file, or with an image of fewer bytes, is
    handled by the handler itself. *)
Theorem multer_refuses_before_the_handler (env : Env) (req : Request) (w : World) :
  (forall f, file req = Some f ->
     (forall rest, mimetype f <> "image/" +:+ rest) ->
     POST_products env req w
     = (Resolved {| status := 500;
                    json := JMessage "Only image files are allowed" |}, w)
     /\ PUT_products_id env req w
        = (Resolved {| status := 500;
                       json := JMessage "Only image files are allowed" |}, w))
  /\ (forall f rest, file req = Some f ->
        mimetype f = "image/" +:+ rest ->
        fileSize_limit <= Z.of_nat (String.length (buffer f)) ->
        POST_products env req w
        = (Resolved {| status := 500; json := JMessage "File too large" |}, w)
        /\ PUT_products_id env req w
           = (Resolved {| status := 500; json := JMessage "File too large" |}, w))
  /\ ((file req = None
       \/ exists f rest, file req = Some f /\ mimetype f = "image/" +:+ rest
                         /\ Z.of_nat (String.length (buffer f)) < fileSize_limit) ->
      POST_products env req w = create_product env req w
      /\ PUT_products_id env req w = update_product env req w).
Proof.
  split; [|split].
  - intros f Hfile Hmime.
    assert (Hf : fileFilter f = false).
    { destruct (fileFilter f) eqn:E; [|reflexivity].
      apply fileFilter_spec in E as [rest Hr]. now destruct (Hmime rest). }
    unfold POST_products, PUT_products_id, upload_single.
    rewrite Hfile, Hf. split; reflexivity.
  - intros f rest Hfile Hmime Hsize.
    assert (Hf : fileFilter f = true) by (apply fileFilter_spec; eauto).
    apply Z.leb_le in Hsize.
    unfold POST_products, PUT_products_id, upload_single.
    rewrite Hfile, Hf, Hsize. split; reflexivity.
  - intros [Hnone|(f & rest & Hfile & Hmime & Hsize)].
    + unfold POST_products, PUT_products_id, upload_single.
      rewrite Hnone. split; reflexivity.
    + assert (Hf : fileFilter f = true) by (apply fileFilter_spec; eauto).
      apply Z.leb_gt in Hsize.
      unfold POST_products, PUT_products_id, upload_single.
      rewrite Hfile, Hf, Hsize. split; reflexivity.
Qed.

Lemma multer_refuses_before_the_handler_witness :
  file Coverage.req_with_text_file = Some Coverage.notes_txt
  /\ (forall rest, mimetype Coverage.notes_txt <> "image/" +:+ rest)
  /\ POST_products Examples.env_ok Coverage.req_with_text_file Examples.world_empty
     = (Resolved {| status := 500;
                    json := JMessage "Only image files are allowed" |},
        Examples.world_empty).
Proof.
  assert (Hm : forall rest, mimetype Coverage.notes_txt <> "image/" +:+ rest)
    by (intros rest; discriminate).
  split; [reflexivity|]. split; [exact Hm|].
  apply (proj1 (multer_refuses_before_the_handler Examples.env_ok
                  Coverage.req_with_text_file Examples.world_empty)
           Coverage.notes_txt eq_refl Hm).
Defined.

(** *** What validation lets through *)

Lemma trim_start_all_space (s : string) :
  Coverage.all_space s = true -> trim_start s = "".
Proof.
  induction s as [|c s IH]; cbn; [reflexivity|].
  intros H. apply andb_true_iff in H as [Hc Hs]. rewrite Hc. now apply IH.
Qed.

Lemma trim_all_space (s : string) : Coverage.all_space s = true -> trim s = "".
Proof. intros H. unfold trim. now rewrite trim_start_all_space. Qed.

Lemma validateProduct_nil (b : gmap string value) :
  validateProduct b = [] ->
  check_itemName b = [] /\ check_sellPrice b = [] /\ check_type b = []
  /\ check_primaryUnit b = [].
Proof.
  unfold validateProduct. intros H.
  apply app_eq_nil in H as [H1 H]. apply app_eq_nil in H as [H2 H].
  apply app_eq_nil in H as [H3 H4]. auto.
Qed.

(** X5. A request whose itemName is missing, null, empty or made of white
    space only is refused by Create and by Update alike: 400 with "Item
    name is required" among the errors, and no upload, lookup or write. *)
Theorem blank_itemName_is_refused (env : Env) (req : Request) (w : World) :
  Coverage.all_space (toString (get (body req) "itemName")) = true ->
  In (body_error "itemName" "Item name is required") (validateProduct (body req))
  /\ create_product env req w
     = (Resolved {| status := 400; json := JErrors (validateProduct (body req)) |}, w)
  /\ update_product env req w
     = (Resolved {| status := 400; json := JErrors (validateProduct (body req)) |}, w).
Proof.
  intros Hblank.
  assert (Hin : In (body_error "itemName" "Item name is required")
                   (validateProduct (body req))).
  { unfold validateProduct, check_itemName.
    rewrite (trim_all_space _ Hblank). cbn. now left. }
  assert (Hne : validateProduct (body req) <> []).
  { intros E. rewrite E in Hin. destruct Hin. }
  split; [exact Hin|].
  split; [now apply create_product_invalid | now apply update_product_invalid].
Qed.

Lemma blank_itemName_is_refused_witness :
  Coverage.all_space (toString (get (body Coverage.req_blank_name) "itemName")) = true
  /\ create_product Examples.env_ok Coverage.req_blank_name Examples.world_tea
     = (Resolved {| status := 400;
                    json := JErrors [body_error "itemName" "Item name is required"] |},
        Examples.world_tea).
Proof.
  split; [reflexivity|].
  destruct (blank_itemName_is_refused Examples.env_ok Coverage.req_blank_name
              Examples.world_tea eq_refl) as (_ & E & _).
  rewrite E. vm_compute. reflexivity.
Defined.

(** The strings [isFloat] accepts hold no comma, so its
    [replace(',', '.')] changes nothing on them. *)
Lemma replace_comma_no_comma (s : string) :
  Coverage.no_comma s = true -> replace_comma s = s.
Proof.
  induction s as [|c s IH]; cbn; [reflexivity|].
  intros H. apply andb_true_iff in H as [Hc Hs].
  destruct (Ascii.eqb c ","); [discriminate|]. now rewrite IH.
Qed.

Lemma is_digit_not_comma (c : ascii) :
  is_digit c = true -> Ascii.eqb c "," = false.
Proof.
  destruct (Ascii.eqb_spec c ","); [subst; discriminate | reflexivity].
Qed.

Lemma read_digits_no_comma (s : string) (acc : N) (cnt : nat) :
  Coverage.no_comma (snd (read_digits acc cnt s)) = true ->
  Coverage.no_comma s = true.
Proof.
  revert acc cnt. induction s as [|c s IH]; intros acc cnt; cbn; [auto|].
  destruct (is_digit c) eqn:Hd; [|auto].
  intros H. rewrite (is_digit_not_comma c Hd). cbn. eapply IH, H.
Qed.

Lemma strip_sign_no_comma (s : string) :
  Coverage.no_comma
    match s with
    | String "+" t | String "-" t => t
    | _ => s
    end = true ->
  Coverage.no_comma s = true.
Proof.
  destruct s as [|c t]; [auto|].
  destruct c as [[] [] [] [] [] [] [] []]; cbn; auto.
Qed.

Lemma read_exponent_no_comma (s : string) :
  Coverage.no_comma (snd (read_exponent s)) = true ->
  Coverage.no_comma s = true.
Proof.
  destruct s as [|c s1]; [auto|]. unfold read_exponent.
  destruct (Ascii.eqb c "e" || Ascii.eqb c "E") eqn:He; [|auto].
  assert (Hc : Ascii.eqb c "," = false).
  { destruct (Ascii.eqb_spec c ","); [subst; discriminate | reflexivity]. }
  set (signed := match s1 with
                 | String "+" t => (false, t)
                 | String "-" t => (true, t)
                 | _ => (false, s1)
                 end).
  assert (Hs : Coverage.no_comma (snd signed) = true -> Coverage.no_comma s1 = true).
  { unfold signed. destruct s1 as [|c1 t]; [auto|].
    destruct c1 as [[] [] [] [] [] [] [] []]; cbn; auto. }
  destruct signed as [neg s2]. cbn [snd] in Hs.
  pose proof (read_digits_no_comma s2 0 0) as Hd.
  destruct (read_digits 0 0 s2) as [[v cnt] s3]. cbn [snd] in Hd.
  destruct cnt; cbn [snd]; [auto|].
  intros H. cbn [Coverage.no_comma]. rewrite Hc. cbn. auto.
Qed.

Lemma float_regex_no_comma (s : string) :
  float_regex s = true -> Coverage.no_comma s = true.
Proof.
  unfold float_regex. intros H. apply strip_sign_no_comma.
  set (s1 := match s with
             | String "+" t | String "-" t => t
             | _ => s
             end) in *.
  apply (read_digits_no_comma s1 0 0).
  destruct (read_digits 0 0 s1) as [[v cnt] s2]. cbn [snd].
  assert (Hs3 : Coverage.no_comma
                  match s2 with
                  | String "." t => let '(_, _, r) := read_digits 0 0 t in r
                  | _ => s2
                  end = true -> Coverage.no_comma s2 = true).
  { destruct s2 as [|c t]; [auto|].
    pose proof (read_digits_no_comma t 0 0) as Hd.
    destruct (read_digits 0 0 t) as [[v' cnt'] r]. cbn [snd] in Hd.
    destruct c as [[] [] [] [] [] [] [] []]; cbn; auto. }
  apply Hs3.
  set (s3 := match s2 with
             | String "." t => let '(_, _, r) := read_digits 0 0 t in r
             | _ => s2
             end) in *.
  apply read_exponent_no_comma.
  destruct (read_exponent s3) as [e s4]. cbn [snd].
  apply String.eqb_eq in H. now subst s4.
Qed.

Lemma isFloat_min_parseFloat (min : number) (s : string) :
  isFloat_min min s = true -> num_geb (parseFloat_string s) min = true.
Proof.
  unfold isFloat_min.
  destruct (existsb (String.eqb s) [""; "."; ","; "-"; "+"]); [discriminate|].
  intros H. apply andb_true_iff in H as [Hre Hge].
  now rewrite (replace_comma_no_comma s (float_regex_no_comma s Hre)) in Hge.
Qed.

Lemma num_geb_not_nan (x y : number) : num_geb x y = true -> is_nan x = false.
Proof.
  unfold num_geb, SFleb, SFcompare.
  destruct x; try reflexivity. destruct y; discriminate.
Qed.

Lemma validated_sellPrice_geb (b : gmap string value) :
  validateProduct b = [] ->
  num_geb (parseFloat (get b "sellPrice")) num_0 = true.
Proof.
  intros Hv. apply validateProduct_nil in Hv as (_ & Hprice & _).
  unfold check_sellPrice in Hprice.
  destruct (isFloat_min num_0 (toString (get b "sellPrice"))) eqn:E;
    [|discriminate].
  unfold parseFloat.
  destruct (get b "sellPrice") as [| |bb|x|s]; cbn [toString ToString] in *.
  - discriminate E.
  - discriminate E.
  - now apply isFloat_min_parseFloat.
  - destruct (is_nan x); [discriminate E|]. now apply isFloat_min_parseFloat.
  - now apply isFloat_min_parseFloat.
Qed.

(** X6. For a sellPrice sent as text, as a form field is: in every
    request that passes validation, [parseFloat] reads that text as a
    number that is at least 0, and so not NaN, and this number is the price
    the handlers compute with: the one [isFloat({ min: 0 })] checked. *)
Theorem validated_sellPrice_is_nonnegative (b : gmap string value) (s : string) :
  b !! "sellPrice" = Some (VStr s) ->
  validateProduct b = [] ->
  num_geb (parseFloat_string s) num_0 = true
  /\ is_nan (parseFloat_string s) = false
  /\ sellPriceFloat (calculate_gst (get b "gstEnabled") (get b "sellPrice"))
     = parseFloat_string s.
Proof.
  intros Hs Hv. pose proof (validated_sellPrice_geb b Hv) as Hge.
  unfold calculate_gst. cbn [sellPriceFloat].
  unfold get in Hge |- *. rewrite Hs in Hge |- *. cbn [default] in Hge |- *.
  change (parseFloat (VStr s)) with (parseFloat_string s) in Hge |- *.
  split; [exact Hge|]. split; [|reflexivity].
  eapply num_geb_not_nan, Hge.
Qed.

Lemma validated_sellPrice_is_nonnegative_witness :
  body Examples.req_tea !! "sellPrice" = Some (VStr "100")
  /\ validateProduct (body Examples.req_tea) = []
  /\ num_geb (parseFloat_string "100") num_0 = true.
Proof.
  split; [vm_compute; reflexivity|]. split; [vm_compute; reflexivity|].
  apply (validated_sellPrice_is_nonnegative (body Examples.req_tea) "100");
    vm_compute; reflexivity.
Defined.

(** *** What a served Create or Update stores *)

Lemma trim_start_idempotent (s : string) : trim_start (trim_start s) = trim_start s.
Proof.
  induction s as [|c s IH]; cbn; [reflexivity|].
  destruct (is_space c) eqn:Hc; [exact IH|]. cbn. now rewrite Hc.
Qed.

Lemma trim_end_idempotent (s : string) : trim_end (trim_end s) = trim_end s.
Proof.
  induction s as [|c s IH]; cbn; [reflexivity|].
  destruct (trim_end s) as [|c' t] eqn:Ht.
  - destruct (is_space c) eqn:Hc; cbn; [reflexivity|]. now rewrite Hc.
  - cbn [trim_end]. cbn in IH. now rewrite IH.
Qed.

(** A string that does not start with white space keeps its first
    character under [trim_end], so nothing is left to trim at its start. *)
Lemma trim_start_trim_end (s : string) :
  trim_start s = s -> trim_start (trim_end s) = trim_end s.
Proof.
  destruct s as [|c s]; [reflexivity|]. cbn.
  destruct (is_space c) eqn:Hc.
  - intros H. exfalso.
    assert (Hlen : (String.length (trim_start s) <= String.length s)%nat).
    { clear. induction s as [|a s IH]; cbn; [lia|].
      destruct (is_space a); cbn; lia. }
    rewrite H in Hlen. cbn in Hlen. lia.
  - intros _. destruct (trim_end s); cbn; now rewrite Hc.
Qed.

Lemma trim_idempotent (s : string) : trim (trim s) = trim s.
Proof.
  unfold trim.
  rewrite (trim_start_trim_end (trim_start s)) by apply trim_start_idempotent.
  apply trim_end_idempotent.
Qed.

Lemma get_sanitize_itemName (b : gmap string value) :
  get (sanitize b) "itemName" = VStr (trim (toString (get b "itemName"))).
Proof. unfold get at 1, sanitize. now rewrite lookup_insert_eq. Qed.

Lemma isIn_In (s : string) (l : list string) : isIn s l = true -> In s l.
Proof.
  unfold isIn. intros H. apply existsb_exists in H as (x & Hin & Heq).
  apply String.eqb_eq in Heq. now subst.
Qed.

(** A value whose validator string is not empty is cast by a String path
    to that very string. *)
Lemma castString_toString (v : value) :
  toString v <> "" -> v <> VUndefined /\ castString v = Some (VStr (toString v)).
Proof.
  destruct v as [| |b|x|s]; cbn; try congruence.
  - intros _. split; [discriminate|reflexivity].
  - destruct (is_nan x); [congruence|]. intros _. split; [discriminate|reflexivity].
  - intros _. split; [discriminate|reflexivity].
Qed.

(** A new document is saved only under an id that no record has yet. *)
Lemma Document_save_new_fresh (env : Env) (d : Document) (w w' : World) (r : Doc) :
  d_createdAt d = None ->
  Document_save env d w = (Resolved r, w') ->
  find_doc (_id r) (products w) = None.
Proof.
  intros Hnew. unfold Document_save. rewrite Hnew.
  destruct (validate d); [|discriminate].
  destruct (save_error env); [discriminate|].
  cbn [products record_call].
  destruct (find_doc (d_id d) (products w)) eqn:Hf; [discriminate|].
  intros [= <- _]. exact Hf.
Qed.

(** What a Create answered 201 has gone through. *)
Lemma create_product_201_inv (env : Env) (req : Request) (w w' : World)
    (m : string) (r : Doc) :
  create_product env req w
  = (Resolved {| status := 201; json := JProduct m (Some r) |}, w') ->
  validateProduct (body req) = []
  /\ exists imageUrl w1,
       uploadToS3 env (file req) w = (Resolved imageUrl, w1)
       /\ bucket w' = bucket w1
       /\ fields r
          = d_fields (Product_new (new_ObjectId env)
                        (Coverage.new_product_literal env (sanitize (body req))
                           imageUrl))
       /\ d_invalid (Product_new (new_ObjectId env)
                       (Coverage.new_product_literal env (sanitize (body req))
                          imageUrl)) = []
       /\ find_doc (_id r) (products w) = None
       /\ products w' = products w ++ [r].
Proof.
  unfold create_product.
  destruct (validateProduct (body req)); [|discriminate].
  rewrite run_try_catch, run_bind.
  assert (Hup : forall res w1, uploadToS3 env (file req) w = (res, w1) ->
                               products w1 = products w).
  { intros res w1. destruct (file req) as [f|].
    - destruct (s3_upload_error env) as [e|] eqn:Hu.
      + rewrite (uploadToS3_rejected env f w e Hu). now intros [= <- <-].
      + rewrite (uploadToS3_served env f w Hu). now intros [= <- <-].
    - rewrite uploadToS3_no_file. now intros [= <- <-]. }
  destruct (uploadToS3 env (file req) w) as [[imageUrl|e] w1]; [|discriminate].
  specialize (Hup _ _ eq_refl).
  rewrite run_bind.
  match goal with
  | |- context [Document_save env ?d w1] =>
      change d
        with (Product_new (new_ObjectId env)
                (Coverage.new_product_literal env (sanitize (body req)) imageUrl))
  end.
  set (newProduct := Product_new _ _).
  pose proof (Document_save_calls env newProduct w1) as [_ Hb].
  pose proof (Document_save_new env newProduct w1) as Hnew.
  pose proof (Document_save_resolved env newProduct w1) as Hres.
  pose proof (Document_save_new_fresh env newProduct w1) as Hfr.
  destruct (Document_save env newProduct w1) as [[r'|e] w2]; [|discriminate].
  intros H. injection H as Hr Hw. subst r' w2.
  destruct (Hnew w' r (Product_new_d_createdAt _ _) eq_refl) as (Hprod & _ & Hfields).
  destruct (Hres w' r eq_refl) as (Hvalid & _ & _).
  pose proof (Hfr w' r (Product_new_d_createdAt _ _) eq_refl) as Hfresh.
  cbn [snd] in Hb.
  split; [reflexivity|]. exists imageUrl, w1.
  split; [reflexivity|]. split; [exact Hb|]. split; [exact Hfields|].
  split; [now apply validate_nil_invalid|].
  rewrite <- Hup. split; assumption.
Qed.

(** X7. The record of a Create answered 201 holds the submitted itemName
    trimmed of surrounding white space, which is not empty, and a type
    that is one of Veg, Non-Veg, Beverage, Starter, Dessert and Breads. *)
Theorem created_record_name_and_type (env : Env) (req : Request) (w w' : World)
    (m : string) (r : Doc) :
  create_product env req w
  = (Resolved {| status := 201; json := JProduct m (Some r) |}, w') ->
  fields r !! "itemName"
  = Some (VStr (trim (toString (get (body req) "itemName"))))
  /\ trim (toString (get (body req) "itemName")) <> ""
  /\ fields r !! "type" = Some (VStr (toString (get (body req) "type")))
  /\ In (toString (get (body req) "type")) product_types.
Proof.
  intros H. apply create_product_201_inv in H
    as (Hv & imageUrl & w1 & _ & _ & -> & _ & _ & _).
  apply validateProduct_nil in Hv as (Hname & _ & Htype & _).
  assert (Hne : trim (toString (get (body req) "itemName")) <> "").
  { unfold check_itemName, isEmpty in Hname.
    destruct (String.eqb_spec (trim (toString (get (body req) "itemName"))) "");
      [discriminate|assumption]. }
  assert (Hin : isIn (toString (get (body req) "type")) product_types = true).
  { unfold check_type in Htype.
    destruct (isIn (toString (get (body req) "type")) product_types);
      [reflexivity|discriminate]. }
  assert (Htne : toString (get (body req) "type") <> "").
  { intros E. rewrite E in Hin. discriminate Hin. }
  destruct (castString_toString _ Htne) as [Hundef Hcast].
  unfold Coverage.new_product_literal, Product_new.
  cbn [fold_left fst snd d_fields].
  rewrite get_sanitize_itemName, (get_sanitize_other _ "type") by discriminate.
  set (name := trim (toString (get (body req) "itemName"))) in *.
  set (ty := get (body req) "type") in *.
  repeat split; try assumption.
  - apply apply_defaults_lookup_present.
    do 10 (rewrite set_lookup_other by discriminate).
    eapply set_lookup_same; [reflexivity | discriminate |].
    cbn [cast instance castString trim_opt]. unfold name.
    now rewrite trim_idempotent.
  - apply apply_defaults_lookup_present.
    do 8 (rewrite set_lookup_other by discriminate).
    eapply set_lookup_same; [reflexivity | exact Hundef |].
    cbn [cast instance trim_opt]. now rewrite Hcast.
  - now apply isIn_In.
Qed.

Lemma created_record_name_and_type_witness :
  exists r w',
    create_product Examples.env_ok Examples.req_tea Examples.world_empty
    = (Resolved {| status := 201;
                   json := JProduct "Product created successfully" (Some r) |}, w')
    /\ fields r !! "itemName" = Some (VStr "Tea")
    /\ fields r !! "type" = Some (VStr "Veg").
Proof.
  exists Examples.tea_plain_doc. eexists.
  assert (E : create_product Examples.env_ok Examples.req_tea Examples.world_empty
              = (Resolved {| status := 201;
                             json := JProduct "Product created successfully"
                                       (Some Examples.tea_plain_doc) |},
                 {| products := [Examples.tea_plain_doc]; bucket := ∅;
                    calls := [Call_save "65a000000000000000000001"] |}))
    by (vm_compute; reflexivity).
  split; [exact E|].
  destruct (created_record_name_and_type _ _ _ _ _ _ E) as (Hn & _ & Ht & _).
  split; [exact Hn | exact Ht].
Defined.

(** What an Update answered 200 has gone through. *)
Lemma update_product_200_inv (env : Env) (req : Request) (w w' : World)
    (m : string) (r : Doc) :
  update_product env req w
  = (Resolved {| status := 200; json := JProduct m (Some r) |}, w') ->
  validateProduct (body req) = []
  /\ findById_error env = None
  /\ exists d imageUrl w1,
       find_doc (params_id req) (products w) = Some d
       /\ replace_image env (file req) (hydrate d)
            (record_call (Call_findById (params_id req)) w)
          = (Resolved imageUrl, w1)
       /\ Document_save env
            (assign_fields (sanitize (body req)) imageUrl (hydrate d)) w1
          = (Resolved r, w').
Proof.
  unfold update_product.
  destruct (validateProduct (body req)); [|discriminate].
  rewrite run_try_catch, run_bind.
  destruct (findById_error env) as [e|] eqn:Hf.
  { rewrite (Product_findById_rejected env _ w e Hf). discriminate. }
  rewrite (Product_findById_served env _ w Hf).
  destruct (find_doc (params_id req) (products w)) as [d|];
    cbn [fmap option_fmap option_map]; [|discriminate].
  rewrite run_bind.
  destruct (replace_image env (file req) (hydrate d) _) as [[imageUrl|e] w1] eqn:Hi;
    [|discriminate].
  rewrite run_bind.
  destruct (Document_save env _ w1) as [[r'|e] w2] eqn:Hs; [|discriminate].
  intros H. injection H as Hr Hw. subst r' w2.
  split; [reflexivity|]. split; [reflexivity|].
  exists d, imageUrl, w1. split; [reflexivity|]. split; [exact Hi | exact Hs].
Qed.

(** X8. The record of a Create answered 201 and of an Update answered 200
    holds the prices the handler computed from the request: the sellPrice
    that [parseFloat] read, which is at least 0, the flag
    [gstEnabled === 'true'], and the totalPrice of the block "Calculate GST
    details" for the two. *)
Theorem stored_prices_are_the_computed_ones (env : Env) (req : Request)
    (w w' : World) (m : string) (r : Doc) :
  create_product env req w
  = (Resolved {| status := 201; json := JProduct m (Some r) |}, w')
  \/ update_product env req w
     = (Resolved {| status := 200; json := JProduct m (Some r) |}, w') ->
  let g := calculate_gst (get (body req) "gstEnabled")
             (get (body req) "sellPrice") in
  fields r !! "sellPrice" = Some (VNum (sellPriceFloat g))
  /\ num_geb (sellPriceFloat g) num_0 = true
  /\ fields r !! "gstEnabled"
     = Some (VBool (strict_eq_str (get (body req) "gstEnabled") "true"))
  /\ fields r !! "totalPrice" = Some (VNum (totalPrice g)).
Proof.
  intros H g.
  change (sellPriceFloat g) with (parseFloat (get (body req) "sellPrice")).
  destruct H as [H|H].
  - pose proof (created_record_pricing _ _ _ _ _ _ H) as (Hs & He & Ht).
    apply create_product_201_inv in H as (Hv & _).
    repeat split; try assumption. now apply validated_sellPrice_geb.
  - pose proof (updated_record_pricing _ _ _ _ _ _ H) as (Hs & He & Ht).
    apply update_product_200_inv in H as (Hv & _).
    repeat split; try assumption. now apply validated_sellPrice_geb.
Qed.

Lemma stored_prices_are_the_computed_ones_witness :
  fields Examples.tea_plain_doc !! "sellPrice" = Some (VNum (num_of_Z 100))
  /\ fields Examples.tea_plain_doc !! "totalPrice" = Some (VNum (num_of_Z 105)).
Proof.
  assert (E : create_product Examples.env_ok Examples.req_tea Examples.world_empty
              = (Resolved {| status := 201;
                             json := JProduct "Product created successfully"
                                       (Some Examples.tea_plain_doc) |},
                 {| products := [Examples.tea_plain_doc]; bucket := ∅;
                    calls := [Call_save "65a000000000000000000001"] |}))
    by (vm_compute; reflexivity).
  destruct (stored_prices_are_the_computed_ones _ _ _ _ _ _ (or_introl E))
    as (Hs & _ & _ & Ht).
  split; [rewrite Hs | rewrite Ht]; vm_compute; reflexivity.
Defined.

(** X9. The image of a created record: without a file, Create stores
    [null] as imageUrl and leaves the bucket as it was; with a file, it
    stores the Location that S3 answered for the key
    products/<Date.now()>-<originalname>, and the bucket holds the file's
    buffer and MIME type under that key. *)
Theorem created_record_image (env : Env) (req : Request) (w w' : World)
    (m : string) (r : Doc) :
  create_product env req w
  = (Resolved {| status := 201; json := JProduct m (Some r) |}, w') ->
  match file req with
  | None => fields r !! "imageUrl" = Some VNull /\ bucket w' = bucket w
  | Some f =>
      fields r !! "imageUrl"
      = Some (VStr (s3_location env (upload_filename env f)))
      /\ bucket w' = <[upload_filename env f := upload_object f]> (bucket w)
      /\ bucket w' !! upload_filename env f
         = Some {| Body := buffer f; ContentType := mimetype f |}
  end.
Proof.
  intros H. apply create_product_201_inv in H
    as (_ & imageUrl & w1 & Hup & Hb & -> & _ & _ & _).
  unfold Coverage.new_product_literal, Product_new.
  cbn [fold_left fst snd d_fields].
  destruct (file req) as [f|].
  - destruct (s3_upload_error env) as [e|] eqn:Hu.
    { rewrite (uploadToS3_rejected env f w e Hu) in Hup. discriminate Hup. }
    rewrite (uploadToS3_served env f w Hu) in Hup.
    injection Hup as <- <-. cbn [bucket set_bucket record_call] in Hb.
    split; [|split].
    + apply apply_defaults_lookup_present.
      eapply set_lookup_same; [reflexivity | discriminate | reflexivity].
    + exact Hb.
    + rewrite Hb. apply lookup_insert_eq.
  - rewrite uploadToS3_no_file in Hup. injection Hup as <- <-.
    split; [|exact Hb].
    apply apply_defaults_lookup_present.
    eapply set_lookup_same; [reflexivity | discriminate | reflexivity].
Qed.

Lemma created_record_image_witness :
  exists w',
    create_product Examples.env_ok Examples.req_tea_image Examples.world_empty
    = (Resolved {| status := 201;
                   json := JProduct "Product created successfully"
                             (Some Examples.tea_doc) |}, w')
    /\ fields Examples.tea_doc !! "imageUrl"
       = Some (VStr (s3_location Examples.env_ok
                       (upload_filename Examples.env_ok Examples.tea_png)))
    /\ bucket w' !! upload_filename Examples.env_ok Examples.tea_png
       = Some {| Body := "PNG"; ContentType := "image/png" |}.
Proof.
  set (w' := snd (create_product Examples.env_ok Examples.req_tea_image
                    Examples.world_empty)).
  assert (E : create_product Examples.env_ok Examples.req_tea_image
                Examples.world_empty
              = (Resolved {| status := 201;
                             json := JProduct "Product created successfully"
                                       (Some Examples.tea_doc) |}, w'))
    by (vm_compute; reflexivity).
  exists w'. split; [exact E|].
  pose proof (created_record_image _ _ _ _ _ _ E) as H.
  cbn [file Examples.req_tea_image] in H.
  destruct H as (Hurl & _ & Hobj). split; [exact Hurl | exact Hobj].
Defined.

(** *** What each handler can and cannot change *)

Lemma find_doc_replace_doc_other (id : string) (r : Doc) (l : list Doc) :
  _id r <> id -> find_doc id (replace_doc r l) = find_doc id l.
Proof.
  intros Hne. unfold find_doc. induction l as [|x l IH]; [reflexivity|].
  cbn [replace_doc]. destruct (has_id (_id r) x) eqn:Hx; cbn [List.find].
  - unfold has_id in Hx. apply String.eqb_eq in Hx.
    assert (Hr : has_id id r = false)
      by (unfold has_id; now apply String.eqb_neq).
    assert (Hxx : has_id id x = false)
      by (unfold has_id; apply String.eqb_neq; congruence).
    now rewrite Hr, Hxx.
  - now rewrite IH.
Qed.

Lemma find_doc_remove_doc_other (id id' : string) (l : list Doc) :
  id' <> id -> find_doc id (remove_doc id' l) = find_doc id l.
Proof.
  intros Hne. unfold find_doc. induction l as [|x l IH]; [reflexivity|].
  cbn [remove_doc]. destruct (has_id id' x) eqn:Hx; cbn [List.find].
  - unfold has_id in Hx. apply String.eqb_eq in Hx.
    assert (Hxx : has_id id x = false)
      by (unfold has_id; apply String.eqb_neq; congruence).
    now rewrite Hxx.
  - now rewrite IH.
Qed.

Lemma map_id_replace_doc (r : Doc) (l : list Doc) :
  map _id (replace_doc r l) = map _id l.
Proof.
  induction l as [|x l IH]; [reflexivity|]. cbn [replace_doc].
  destruct (has_id (_id r) x) eqn:Hx; cbn [map].
  - unfold has_id in Hx. apply String.eqb_eq in Hx. now rewrite Hx.
  - now rewrite IH.
Qed.

(** The collection after an Update, whatever it answers: as before, or
    with the record of the request's id replaced. *)
Lemma update_product_products (env : Env) (req : Request) (w : World) :
  exists res w',
    update_product env req w = (Resolved res, w')
    /\ (products w' = products w
        \/ exists r, _id r = params_id req
                     /\ products w' = replace_doc r (products w)).
Proof.
  destruct (validateProduct (body req)) as [|err errs] eqn:Hv.
  2: { unfold update_product. rewrite Hv. eexists _, _. split; [reflexivity|now left]. }
  destruct (findById_error env) as [e|] eqn:Hf.
  { unfold update_product. rewrite Hv, run_try_catch, run_bind.
    rewrite (Product_findById_rejected env _ w e Hf).
    eexists _, _. split; [reflexivity|now left]. }
  destruct (find_doc (params_id req) (products w)) as [d|] eqn:Hd.
  2: { unfold update_product. rewrite Hv, run_try_catch, run_bind.
       rewrite (Product_findById_served env _ w Hf), Hd.
       eexists _, _. split; [reflexivity|now left]. }
  rewrite (update_product_found env req w d Hv Hf Hd).
  destruct (replace_image_products env (file req) (hydrate d)
              (record_call (Call_findById (params_id req)) w))
    as (res & w1 & -> & Hp1).
  rewrite record_call_products in Hp1.
  destruct res as [imageUrl|e].
  2: { eexists _, _. split; [reflexivity|]. left. now rewrite record_call_products. }
  destruct (Document_save_stored env
              (assign_fields (sanitize (body req)) imageUrl (hydrate d)) w1
              (createdAt d))
    as (res & w2 & -> & _ & _ & Hs).
  { now rewrite assign_fields_d_createdAt. }
  destruct Hs as [[[e ->] Hp2]|[-> Hp2]].
  - eexists _, _. split; [reflexivity|]. left.
    rewrite record_call_products. congruence.
  - eexists _, _. split; [reflexivity|]. right.
    eexists. split; [|rewrite Hp2, Hp1; reflexivity].
    cbn [_id]. rewrite assign_fields_d_id. cbn [d_id hydrate].
    now apply find_doc_has_id in Hd.
Qed.

(** X10. Whatever an Update answers, it neither adds nor removes a record
    and keeps the order of the collection; and every record stored under
    another id than the request's is the one that was there before. *)
Theorem update_touches_one_record (env : Env) (req : Request) (w : World) :
  exists res w',
    update_product env req w = (Resolved res, w')
    /\ map _id (products w') = map _id (products w)
    /\ forall id, id <> params_id req ->
                  find_doc id (products w') = find_doc id (products w).
Proof.
  destruct (update_product_products env req w) as (res & w' & E & [Hp|(r & Hr & Hp)]).
  - exists res, w'. rewrite Hp. auto.
  - exists res, w'. rewrite Hp. split; [exact E|].
    split; [apply map_id_replace_doc|].
    intros id Hid. apply find_doc_replace_doc_other. congruence.
Qed.

(** A save of a new document, whatever it answers. *)
Lemma Document_save_new_shape (env : Env) (d : Document) (w : World) :
  d_createdAt d = None ->
  exists res w',
    Document_save env d w = (res, w')
    /\ bucket w' = bucket w
    /\ calls w' = calls w ++ [Call_save (d_id d)]
    /\ ((exists e, res = Rejected e) /\ products w' = products w
        \/ exists r, res = Resolved r /\ products w' = products w ++ [r]).
Proof.
  intros Ht. unfold Document_save. rewrite Ht.
  destruct (validate d).
  2: { eexists _, _. repeat split. left. eauto. }
  destruct (save_error env).
  { eexists _, _. repeat split. left. eauto. }
  cbn [products record_call].
  destruct (find_doc (d_id d) (products w)).
  - eexists _, _. repeat split. left. eauto.
  - eexists _, _. repeat split. right. eauto.
Qed.

(** X11. Whatever a Create answers, it takes nothing away: the records of
    the collection stay in place, with at most one appended; every object
    of the bucket stays, save under the key of this request's upload; and
    neither [deleteObject] nor [findByIdAndDelete] is called. *)
Theorem create_never_removes (env : Env) (req : Request) (w : World) :
  exists res w' cs,
    create_product env req w = (Resolved res, w')
    /\ calls w' = calls w ++ cs
    /\ forallb (fun c => negb (Coverage.is_removal c)) cs = true
    /\ (products w' = products w \/ exists r, products w' = products w ++ [r])
    /\ forall k, (forall f, file req = Some f -> k <> upload_filename env f) ->
                 bucket w' !! k = bucket w !! k.
Proof.
  unfold create_product.
  destruct (validateProduct (body req)) as [|err errs].
  2: { eexists _, _, []. split; [reflexivity|]. rewrite app_nil_r. auto. }
  rewrite run_try_catch, run_bind.
  assert (Hup : exists res w1 cs1,
            uploadToS3 env (file req) w = (res, w1)
            /\ calls w1 = calls w ++ cs1
            /\ forallb (fun c => negb (Coverage.is_removal c)) cs1 = true
            /\ products w1 = products w
            /\ forall k, (forall f, file req = Some f -> k <> upload_filename env f) ->
                         bucket w1 !! k = bucket w !! k).
  { destruct (file req) as [f|].
    - destruct (s3_upload_error env) as [e|] eqn:Hu.
      + rewrite (uploadToS3_rejected env f w e Hu).
        eexists _, _, [_; _]. split; [reflexivity|].
        split; [cbn; now rewrite <- app_assoc|]. auto.
      + rewrite (uploadToS3_served env f w Hu).
        eexists _, _, [_]. split; [reflexivity|].
        split; [reflexivity|]. split; [reflexivity|]. split; [reflexivity|].
        intros k Hk. cbn [bucket set_bucket].
        apply lookup_insert_ne. intros E. now apply (Hk f).
    - rewrite uploadToS3_no_file. eexists _, _, [].
      split; [reflexivity|]. rewrite app_nil_r. auto. }
  destruct Hup as (res & w1 & cs1 & -> & Hc1 & Hno1 & Hp1 & Hb1).
  destruct res as [imageUrl|e].
  2: { eexists _, _, (cs1 ++ [_]). split; [reflexivity|].
       cbn [calls record_call]. rewrite Hc1, app_assoc.
       split; [reflexivity|]. rewrite forallb_app, Hno1.
       split; [reflexivity|]. split; [now left|]. exact Hb1. }
  rewrite run_bind.
  match goal with
  | |- context [Document_save env ?d w1] =>
      destruct (Document_save_new_shape env d w1 (Product_new_d_createdAt _ _))
        as (res & w2 & -> & Hb2 & Hc2 & Hs)
  end.
  destruct Hs as [[[e ->] Hp2]|(r & -> & Hp2)].
  - eexists _, _, (cs1 ++ [_; _]). split; [reflexivity|].
    cbn [calls products bucket record_call].
    rewrite Hc2, Hc1, <- !app_assoc. split; [reflexivity|].
    rewrite forallb_app, Hno1. split; [reflexivity|].
    rewrite Hp2, Hb2. split; [now left|]. exact Hb1.
  - eexists _, _, (cs1 ++ [_]). split; [reflexivity|].
    rewrite Hc2, Hc1, <- !app_assoc. split; [reflexivity|].
    rewrite forallb_app, Hno1. split; [reflexivity|].
    rewrite Hp2, Hp1, Hb2. split; [right; eauto|]. exact Hb1.
Qed.

(** The image removal of the update and the delete handler, whatever
    happens: it only takes objects out of the bucket. *)
Lemma delete_old_image_shape (env : Env) (v : value) (label : string) (w : World) :
  exists w' cs,
    delete_old_image env v label w = (Resolved tt, w')
    /\ products w' = products w
    /\ calls w' = calls w ++ cs
    /\ forallb (fun c => negb (Coverage.is_addition c)) cs = true
    /\ forall k o, bucket w' !! k = Some o -> bucket w !! k = Some o.
Proof.
  unfold delete_old_image. destruct (truthy v) eqn:Ht.
  - rewrite run_try_catch, run_bind.
    destruct v as [| |b|x|url]; cbn [key_of_url throw mret M_ret].
    all: try (eexists _, [_]; split; [reflexivity|]; split; [reflexivity|];
              split; [reflexivity|]; split; [reflexivity|]; auto).
    unfold s3_deleteObject. destruct (s3_delete_error env).
    + eexists _, [_; _]. split; [reflexivity|]. split; [reflexivity|].
      split; [cbn; now rewrite <- app_assoc|]. split; [reflexivity|]. auto.
    + eexists _, [_]. split; [reflexivity|]. split; [reflexivity|].
      split; [reflexivity|]. split; [reflexivity|].
      intros k o. cbn [bucket set_bucket record_call].
      rewrite lookup_delete_Some. tauto.
  - exists w, []. rewrite app_nil_r. auto.
Qed.

(** X12. Whatever a Delete answers, it adds nothing: the collection is as
    before or lacks the first record of the request's id, and every record
    under another id stays; every object the bucket holds afterwards was
    there before; and neither an upload nor a save is called. *)
Theorem delete_never_adds (env : Env) (req : Request) (w : World) :
  exists res w' cs,
    delete_product env req w = (Resolved res, w')
    /\ calls w' = calls w ++ cs
    /\ forallb (fun c => negb (Coverage.is_addition c)) cs = true
    /\ (products w' = products w
        \/ products w' = remove_doc (params_id req) (products w))
    /\ (forall id, id <> params_id req ->
                   find_doc id (products w') = find_doc id (products w))
    /\ forall k o, bucket w' !! k = Some o -> bucket w !! k = Some o.
Proof.
  unfold delete_product. rewrite run_try_catch, run_bind.
  destruct (findById_error env) as [e|] eqn:Hf.
  { rewrite (Product_findById_rejected env _ w e Hf).
    eexists _, _, [_]. split; [reflexivity|]. split; [reflexivity|].
    split; [reflexivity|]. auto. }
  rewrite (Product_findById_served env _ w Hf).
  destruct (find_doc (params_id req) (products w)) as [d|];
    cbn [fmap option_fmap option_map].
  2: { eexists _, _, [_]. split; [reflexivity|]. split; [reflexivity|].
       split; [reflexivity|]. auto. }
  rewrite run_bind.
  destruct (delete_old_image_shape env (get (d_fields (hydrate d)) "imageUrl")
              "Failed to delete image from S3:"
              (record_call (Call_findById (params_id req)) w))
    as (w1 & cs1 & -> & Hp1 & Hc1 & Hno1 & Hb1).
  rewrite record_call_products in Hp1. cbn [bucket calls record_call] in Hb1, Hc1.
  rewrite run_bind. unfold Product_findByIdAndDelete.
  destruct (findByIdAndDelete_error env) as [e|].
  - eexists _, _, ([_] ++ cs1 ++ [_]). split; [reflexivity|].
    cbn [calls products bucket record_call].
    rewrite Hc1, <- !app_assoc. split; [reflexivity|].
    rewrite forallb_app, forallb_app, Hno1. split; [reflexivity|].
    rewrite Hp1. auto.
  - eexists _, _, ([_] ++ cs1 ++ [_]). split; [reflexivity|].
    cbn [calls products bucket record_call set_products].
    rewrite Hc1, <- !app_assoc. split; [reflexivity|].
    rewrite forallb_app, forallb_app, Hno1. split; [reflexivity|].
    rewrite Hp1. split; [now right|]. split; [|exact Hb1].
    intros id Hid. apply find_doc_remove_doc_other. congruence.
Qed.

(** X13. Listing reads only: whatever the store answers, the collection and
    the bucket are as before and [find] is the one call made; and when the
    store rejects the query, the answer is 500 with the store's message
    under "Failed to retrieve products". *)
Theorem list_products_reads_only (env : Env) (w : World) :
  exists res,
    list_products env w = (Resolved res, record_call Call_find w)
    /\ products (record_call Call_find w) = products w
    /\ bucket (record_call Call_find w) = bucket w
    /\ match find_error env with
       | Some e =>
           res = {| status := 500;
                    json := JFailure "Failed to retrieve products" e |}
       | None => exists l, res = {| status := 200; json := JProducts l |}
                           /\ length l = length (products w)
       end.
Proof.
  unfold list_products. rewrite run_try_catch, run_bind.
  unfold Product_find_sorted. destruct (find_error env) as [e|].
  - eexists. split; [reflexivity|]. auto.
  - eexists. split; [reflexivity|]. split; [reflexivity|]. split; [reflexivity|].
    eexists. split; [reflexivity|].
    cbn [products record_call].
    induction (products w) as [|x l IH]; [reflexivity|].
    cbn [sort_createdAt_desc fold_right length].
    change (fold_right insert_desc [] l) with (sort_createdAt_desc l).
    rewrite <- IH. generalize (sort_createdAt_desc l). clear.
    intros l. induction l as [|y l IH]; [reflexivity|].
    cbn [insert_desc]. destruct (createdAt y <=? createdAt x); cbn [length];
      [reflexivity|now rewrite IH].
Qed.

(** *** Update and Delete, path by path *)

Lemma set_lookup_unset (k : string) (d : Document) (p : SchemaPath) :
  schema_path k = Some p -> d_fields (set k VUndefined d) !! k = None.
Proof. intros Hp. unfold set. rewrite Hp. cbn. apply lookup_delete_eq. Qed.

(** X14. An Update without a new file leaves the image alone: whatever it
    answers, no S3 call is made and the bucket is as before; and when it
    answers 200, the record's imageUrl is the one stored before. *)
Theorem update_without_file_keeps_image (env : Env) (req : Request) (w : World)
    (d : Doc) :
  validateProduct (body req) = [] ->
  findById_error env = None ->
  find_doc (params_id req) (products w) = Some d ->
  file req = None ->
  Coverage.string_or_null (fields d !! "imageUrl") ->
  exists res w' cs,
    update_product env req w = (Resolved res, w')
    /\ bucket w' = bucket w
    /\ calls w' = calls w ++ cs
    /\ forallb (fun c => negb (Coverage.is_s3_call c)) cs = true
    /\ forall m r, res = {| status := 200; json := JProduct m (Some r) |} ->
                   fields r !! "imageUrl" = fields d !! "imageUrl".
Proof.
  intros Hv Hf Hd Hfile Himg.
  rewrite (update_product_found env req w d Hv Hf Hd), Hfile.
  cbn [replace_image mret M_ret].
  set (imageUrl := get (d_fields (hydrate d)) "imageUrl").
  set (d1 := assign_fields (sanitize (body req)) imageUrl (hydrate d)).
  assert (Hkeep : d_fields d1 !! "imageUrl" = fields d !! "imageUrl").
  { unfold d1, assign_fields, imageUrl, get. cbn [d_fields hydrate].
    destruct (fields d !! "imageUrl") as [[| |b|x|s]|]; cbn [default];
      try contradiction.
    - eapply set_lookup_same; [reflexivity | discriminate | reflexivity].
    - eapply set_lookup_same; [reflexivity | discriminate | reflexivity]. }
  destruct (Document_save_stored env d1 (record_call (Call_findById (params_id req)) w)
              (createdAt d))
    as (res & w2 & -> & Hb & Hc & Hs).
  { unfold d1. now rewrite assign_fields_d_createdAt. }
  cbn [bucket calls record_call] in Hb, Hc.
  destruct Hs as [[[e ->] _]|[-> _]].
  - eexists _, _, [_; _; _]. split; [reflexivity|].
    cbn [bucket calls record_call]. rewrite Hb, Hc, <- !app_assoc.
    repeat split. intros m r [=].
  - eexists _, _, [_; _]. split; [reflexivity|].
    rewrite Hb, Hc, <- !app_assoc. repeat split.
    intros m r [= _ <-]. exact Hkeep.
Qed.

Lemma update_without_file_keeps_image_witness :
  exists r w',
    update_product Examples.env_ok Coverage.req_update_tea_no_file Examples.world_tea
    = (Resolved {| status := 200;
                   json := JProduct "Product updated successfully" (Some r) |}, w')
    /\ bucket w' = bucket Examples.world_tea
    /\ fields r !! "imageUrl"
       = Some (VStr "https://bucket.s3.amazonaws.com/products/1700000000000-tea.png").
Proof.
  destruct (update_without_file_keeps_image Examples.env_ok
              Coverage.req_update_tea_no_file Examples.world_tea Examples.tea_doc)
    as (res & w' & cs & E & Hb & _ & _ & Hkeep).
  - vm_compute. reflexivity.
  - reflexivity.
  - vm_compute. reflexivity.
  - reflexivity.
  - vm_compute. exact I.
  - assert (E' : exists r,
               fst (update_product Examples.env_ok Coverage.req_update_tea_no_file
                      Examples.world_tea)
               = Resolved {| status := 200;
                             json := JProduct "Product updated successfully"
                                       (Some r) |}).
    { eexists. vm_compute. reflexivity. }
    destruct E' as [r Er]. rewrite E in Er. cbn [fst] in Er.
    injection Er as ->. exists r, w'. split; [exact E|]. split; [exact Hb|].
    rewrite (Hkeep _ r eq_refl). vm_compute. reflexivity.
Defined.

Lemma apply_defaults_lookup_absent (k : string) (flds : gmap string value)
    (schema : list SchemaPath) :
  flds !! k = None ->
  (forall p, In p schema -> path p = k -> default_opt p = None) ->
  fold_right apply_default flds schema !! k = None.
Proof.
  intros H Hno. induction schema as [|p schema IH]; cbn [fold_right]; [exact H|].
  assert (IH' : fold_right apply_default flds schema !! k = None).
  { apply IH. intros q Hq. apply Hno. now right. }
  set (rest := fold_right apply_default flds schema) in *.
  unfold apply_default.
  destruct (rest !! path p) eqn:E; [exact IH'|].
  destruct (default_opt p) eqn:Hdef; [|exact IH'].
  rewrite lookup_insert_ne; [exact IH'|].
  intros Heq. rewrite (Hno p (or_introl eq_refl) Heq) in Hdef. discriminate.
Qed.

(** X15. A unit the request leaves out is not kept: after a Create
    answered 201 and after an Update answered 200, the record has no
    primaryUnit (no customUnit) when the body has none, whatever the
    record held before the Update. *)
Theorem omitted_units_are_erased (env : Env) (req : Request) (w w' : World)
    (m : string) (r : Doc) (k : string) :
  create_product env req w
  = (Resolved {| status := 201; json := JProduct m (Some r) |}, w')
  \/ update_product env req w
     = (Resolved {| status := 200; json := JProduct m (Some r) |}, w') ->
  k = "primaryUnit" \/ k = "customUnit" ->
  body req !! k = None ->
  fields r !! k = None.
Proof.
  intros H Hk Hbody.
  assert (Hget : get (sanitize (body req)) k = VUndefined).
  { rewrite get_sanitize_other by (destruct Hk; subst; discriminate).
    unfold get. now rewrite Hbody. }
  destruct H as [H|H].
  - apply create_product_201_inv in H
      as (_ & imageUrl & w1 & _ & _ & -> & _ & _ & _).
    unfold Coverage.new_product_literal, Product_new.
    cbn [fold_left fst snd d_fields].
    apply apply_defaults_lookup_absent.
    + destruct Hk; subst k; rewrite Hget.
      * do 7 (rewrite set_lookup_other by discriminate).
        eapply set_lookup_unset. reflexivity.
      * do 6 (rewrite set_lookup_other by discriminate).
        eapply set_lookup_unset. reflexivity.
    + intros p Hin Hp. cbn in Hin.
      destruct Hk; subst k;
        repeat (destruct Hin as [<-|Hin]; [try discriminate Hp; reflexivity|]);
        destruct Hin.
  - apply update_product_200_inv in H
      as (_ & _ & d & imageUrl & w1 & _ & _ & Hs).
    apply Document_save_resolved in Hs as (_ & -> & _).
    unfold assign_fields.
    destruct Hk; subst k; rewrite Hget.
    + do 6 (rewrite set_lookup_other by discriminate).
      eapply set_lookup_unset. reflexivity.
    + do 5 (rewrite set_lookup_other by discriminate).
      eapply set_lookup_unset. reflexivity.
Qed.

Lemma omitted_units_are_erased_witness :
  exists r w',
    update_product Examples.env_ok Coverage.req_update_tea_no_file
      Coverage.world_tea_with_units
    = (Resolved {| status := 200;
                   json := JProduct "Product updated successfully" (Some r) |}, w')
    /\ fields Coverage.tea_doc_with_units !! "primaryUnit" = Some (VStr "piece")
    /\ fields r !! "primaryUnit" = None.
Proof.
  set (out := update_product Examples.env_ok Coverage.req_update_tea_no_file
                Coverage.world_tea_with_units).
  assert (E : exists r,
             out = (Resolved {| status := 200;
                                json := JProduct "Product updated successfully"
                                          (Some r) |}, snd out)).
  { eexists. vm_compute. reflexivity. }
  destruct E as [r E]. exists r, (snd out). split; [exact E|].
  split; [vm_compute; reflexivity|].
  apply (omitted_units_are_erased Examples.env_ok Coverage.req_update_tea_no_file
           Coverage.world_tea_with_units (snd out)
           "Product updated successfully" r "primaryUnit").
  - right. exact E.
  - now left.
  - vm_compute. reflexivity.
Defined.

(** A Delete answered 200 has removed the record of the request's id. *)
Lemma delete_product_200_inv (env : Env) (req : Request) (w w' : World)
    (m : string) (o : option Doc) :
  delete_product env req w
  = (Resolved {| status := 200; json := JProduct m o |}, w') ->
  products w' = remove_doc (params_id req) (products w).
Proof.
  unfold delete_product. rewrite run_try_catch, run_bind.
  destruct (findById_error env) as [e|] eqn:Hf.
  { rewrite (Product_findById_rejected env _ w e Hf). discriminate. }
  rewrite (Product_findById_served env _ w Hf).
  destruct (find_doc (params_id req) (products w)) as [d|];
    cbn [fmap option_fmap option_map]; [|discriminate].
  rewrite run_bind.
  destruct (delete_old_image_total env (get (d_fields (hydrate d)) "imageUrl")
              "Failed to delete image from S3:"
              (record_call (Call_findById (params_id req)) w))
    as (w1 & -> & Hp1 & _).
  rewrite record_call_products in Hp1.
  rewrite run_bind. unfold Product_findByIdAndDelete.
  destruct (findByIdAndDelete_error env); [discriminate|].
  intros [= _ _ <-]. cbn [products set_products record_call]. now rewrite Hp1.
Qed.

Lemma delete_product_missing (env : Env) (req : Request) (w : World) :
  findById_error env = None ->
  find_doc (params_id req) (products w) = None ->
  delete_product env req w
  = (Resolved {| status := 404; json := JNotFound "Product not found" |},
     record_call (Call_findById (params_id req)) w).
Proof.
  intros Hf Hd. unfold delete_product. rewrite run_try_catch, run_bind.
  now rewrite (Product_findById_served env _ w Hf), Hd.
Qed.

(** X16. Deleting twice: in a collection with unique ids, once a Delete
    has answered 200, a second Delete of the same id that reaches the
    store answers 404 "Product not found", and changes nothing. *)
Theorem second_delete_is_404 (env1 env2 : Env) (req : Request) (w w1 : World)
    (m : string) (o : option Doc) :
  NoDup (map _id (products w)) ->
  delete_product env1 req w
  = (Resolved {| status := 200; json := JProduct m o |}, w1) ->
  findById_error env2 = None ->
  delete_product env2 req w1
  = (Resolved {| status := 404; json := JNotFound "Product not found" |},
     record_call (Call_findById (params_id req)) w1).
Proof.
  intros Hnd H1 Hf. apply delete_product_200_inv in H1.
  apply delete_product_missing; [exact Hf|].
  rewrite H1. now apply find_doc_remove_doc.
Qed.

Lemma second_delete_is_404_witness :
  exists w1,
    delete_product Examples.env_ok Examples.req_delete_tea Examples.world_tea
    = (Resolved {| status := 200;
                   json := JProduct "Product deleted successfully"
                             (Some Examples.tea_doc) |}, w1)
    /\ delete_product Examples.env_ok Examples.req_delete_tea w1
       = (Resolved {| status := 404; json := JNotFound "Product not found" |},
          record_call (Call_findById (params_id Examples.req_delete_tea)) w1).
Proof.
  set (w1 := snd (delete_product Examples.env_ok Examples.req_delete_tea
                    Examples.world_tea)).
  assert (E : delete_product Examples.env_ok Examples.req_delete_tea
                Examples.world_tea
              = (Resolved {| status := 200;
                             json := JProduct "Product deleted successfully"
                                       (Some Examples.tea_doc) |}, w1))
    by (vm_compute; reflexivity).
  exists w1. split; [exact E|].
  apply (second_delete_is_404 Examples.env_ok Examples.env_ok
           Examples.req_delete_tea Examples.world_tea w1
           "Product deleted successfully" (Some Examples.tea_doc)).
  - cbn. apply NoDup_cons. split; [apply not_elem_of_nil | apply NoDup_nil_2].
  - exact E.
  - reflexivity.
Defined.

(** An Update with a new file deletes under the key derived from the
    stored URL before it uploads. When S3 then rejects the upload, the
    answer is 400 "Image upload failed", the record is unchanged, and that
    key is free in the bucket. *)
Lemma update_upload_rejected_at_key (env : Env) (req : Request)
    (w : World) (d : Doc) (f : File) (url e : string) :
  validateProduct (body req) = [] ->
  findById_error env = None ->
  find_doc (params_id req) (products w) = Some d ->
  file req = Some f ->
  get (fields d) "imageUrl" = VStr url -> url <> "" ->
  s3_delete_error env = None ->
  s3_upload_error env = Some e ->
  exists w',
    update_product env req w
    = (Resolved {| status := 400;
                   json := JFailure "Failed to update product"
                             "Image upload failed" |}, w')
    /\ products w' = products w
    /\ find_doc (params_id req) (products w') = Some d
    /\ bucket w' = delete (last_two_segments url) (bucket w)
    /\ bucket w' !! last_two_segments url = None.
Proof.
  intros Hv Hf Hd Hfile Himg Hne Hdel Hup.
  rewrite (update_product_found env req w d Hv Hf Hd), Hfile.
  destruct (replace_image_run env f (hydrate d)
              (record_call (Call_findById (params_id req)) w) url Himg Hne)
    as (w1 & -> & Hp1 & _ & Hb1).
  specialize (Hb1 Hdel). rewrite record_call_products in Hp1.
  cbn [bucket record_call] in Hb1.
  rewrite (uploadToS3_rejected env f w1 e Hup).
  eexists. split; [reflexivity|].
  cbn [products bucket record_call]. rewrite Hp1, Hb1.
  repeat split; try assumption. apply lookup_delete_eq.
Qed.

(** When the save of an Update is rejected after the image block has
    run, the answer is 400 and the record is unchanged, while the bucket
    has the key derived from the stored URL free and holds the new
    upload. *)
Lemma update_save_rejected_at_key (env : Env) (req : Request)
    (w : World) (d : Doc) (f : File) (url e : string) :
  validateProduct (body req) = [] ->
  findById_error env = None ->
  find_doc (params_id req) (products w) = Some d ->
  file req = Some f ->
  get (fields d) "imageUrl" = VStr url -> url <> "" ->
  s3_delete_error env = None ->
  s3_upload_error env = None ->
  save_error env = Some e ->
  exists details w',
    update_product env req w
    = (Resolved {| status := 400;
                   json := JFailure "Failed to update product" details |}, w')
    /\ products w' = products w
    /\ bucket w'
       = <[upload_filename env f := upload_object f]>
           (delete (last_two_segments url) (bucket w))
    /\ (upload_filename env f <> last_two_segments url ->
        bucket w' !! last_two_segments url = None
        /\ bucket w' !! upload_filename env f = Some (upload_object f)).
Proof.
  intros Hv Hf Hd Hfile Himg Hne Hdel Hup Hsave.
  rewrite (update_product_found env req w d Hv Hf Hd), Hfile.
  destruct (replace_image_run env f (hydrate d)
              (record_call (Call_findById (params_id req)) w) url Himg Hne)
    as (w1 & -> & Hp1 & _ & Hb1).
  specialize (Hb1 Hdel). rewrite record_call_products in Hp1.
  cbn [bucket record_call] in Hb1.
  rewrite (uploadToS3_served env f w1 Hup).
  set (imageUrl := VStr _). set (w2 := set_bucket _ _).
  destruct (Document_save_rejected env
              (assign_fields (sanitize (body req)) imageUrl (hydrate d)) w2 e Hsave)
    as (details & ->).
  exists details. eexists. split; [reflexivity|].
  unfold w2. cbn [products bucket record_call set_bucket]. rewrite Hp1, Hb1.
  split; [reflexivity|]. split; [reflexivity|].
  intros Hkeys. split.
  - rewrite lookup_insert_ne by exact Hkeys. apply lookup_delete_eq.
  - apply lookup_insert_eq.
Qed.

(** *** The key of an image, from the upload to the deletion *)

Lemma no_slash_app (s t : string) :
  Coverage.no_slash (s +:+ t) = Coverage.no_slash s && Coverage.no_slash t.
Proof.
  induction s as [|c s IH]; [reflexivity|].
  change (String c s +:+ t) with (String c (s +:+ t)).
  cbn [Coverage.no_slash]. rewrite IH. now rewrite andb_assoc.
Qed.

Lemma no_slash_pretty_N_char (x : N) :
  Ascii.eqb (pretty_N_char x) "/" = false.
Proof.
  unfold pretty_N_char.
  repeat match goal with
         | |- context [match ?y with _ => _ end] => destruct y
         end; reflexivity.
Qed.

Lemma no_slash_pretty_N_go (x : N) (s : string) :
  Coverage.no_slash s = true -> Coverage.no_slash (pretty_N_go x s) = true.
Proof.
  revert s. induction (N.lt_wf_0 x) as [x _ IH]. intros s Hs.
  destruct (N.eq_dec x 0%N) as [->|Hx].
  - now rewrite pretty_N_go_0.
  - rewrite pretty_N_go_step by lia. apply IH.
    + apply N.div_lt; lia.
    + cbn [Coverage.no_slash]. now rewrite no_slash_pretty_N_char, Hs.
Qed.

Lemma no_slash_digits_of_N (n : N) : Coverage.no_slash (digits_of_N n) = true.
Proof.
  unfold digits_of_N, pretty, pretty_N.
  destruct (decide (n = 0%N)); [reflexivity|].
  now apply no_slash_pretty_N_go.
Qed.

Lemma no_slash_zeros (k : nat) : Coverage.no_slash (zeros k) = true.
Proof. induction k as [|k IH]; [reflexivity|]. cbn. exact IH. Qed.

Lemma no_slash_take_str (n : nat) (s : string) :
  Coverage.no_slash s = true -> Coverage.no_slash (take_str n s) = true.
Proof.
  revert s. induction n as [|n IH]; intros [|c s]; try reflexivity.
  cbn [take_str Coverage.no_slash]. intros H.
  apply andb_true_iff in H as [Hc Hs]. now rewrite Hc, IH.
Qed.

Lemma no_slash_drop_str (n : nat) (s : string) :
  Coverage.no_slash s = true -> Coverage.no_slash (drop_str n s) = true.
Proof.
  revert s. induction n as [|n IH]; intros [|c s]; try reflexivity; try easy.
  cbn [drop_str Coverage.no_slash]. intros H.
  apply andb_true_iff in H as [Hc Hs]. now apply IH.
Qed.

Lemma no_slash_format_number (s k n : Z) :
  Coverage.no_slash (format_number s k n) = true.
Proof.
  unfold format_number.
  pose proof (no_slash_digits_of_N (Z.to_N s)) as Hd.
  repeat match goal with
         | |- context [if ?b then _ else _] => destruct b
         end;
    rewrite ?no_slash_app, ?no_slash_zeros, ?no_slash_digits_of_N,
      ?no_slash_take_str, ?no_slash_drop_str by exact Hd;
    reflexivity.
Qed.

(** No number prints with a slash. *)
Lemma no_slash_Number_toString (x : number) :
  Coverage.no_slash (Number_toString x) = true.
Proof.
  destruct x as [b|b| |b m e]; cbn [Number_toString]; try reflexivity.
  - now destruct b.
  - destruct (shortest_digits 17 1 _ _ _ _) as [[d k] n].
    rewrite no_slash_app, no_slash_format_number. now destruct b.
Qed.

Lemma split_nonempty (sep : ascii) (s : string) : split sep s <> [].
Proof.
  destruct s as [|c s]; cbn [split]; [discriminate|].
  destruct (Ascii.eqb c sep); [discriminate|].
  destruct (split sep s); discriminate.
Qed.

Lemma split_app (sep : ascii) (s t : string) :
  split sep (s +:+ String sep t) = split sep s ++ split sep t.
Proof.
  induction s as [|c s IH].
  - change ("" +:+ String sep t) with (String sep t). cbn [split].
    now rewrite Ascii.eqb_refl.
  - change (String c s +:+ String sep t) with (String c (s +:+ String sep t)).
    cbn [split]. destruct (Ascii.eqb c sep); [now rewrite IH|].
    rewrite IH. pose proof (split_nonempty sep s) as Hne.
    destruct (split sep s) as [|x xs]; [contradiction|reflexivity].
Qed.

Lemma split_no_slash (s : string) :
  Coverage.no_slash s = true -> split "/" s = [s].
Proof.
  induction s as [|c s IH]; [reflexivity|].
  cbn [Coverage.no_slash split]. intros H.
  apply andb_true_iff in H as [Hc Hs]. apply negb_true_iff in Hc.
  now rewrite Hc, IH.
Qed.

Lemma slice_last2_app {A : Type} (l : list A) (a b : A) :
  slice_last2 (l ++ [a; b]) = [a; b].
Proof.
  unfold slice_last2. rewrite length_app. cbn [length].
  replace (length l + 2 - 2)%nat with (length l + 0)%nat by lia.
  now rewrite skipn_app, Nat.add_0_r, skipn_all, Nat.sub_diag.
Qed.

(** [split('/').slice(-2).join('/')] gives back the last two segments. *)
Lemma last_two_segments_app (pre a b : string) :
  Coverage.no_slash a = true -> Coverage.no_slash b = true ->
  last_two_segments (pre +:+ "/" +:+ a +:+ "/" +:+ b) = a +:+ "/" +:+ b.
Proof.
  intros Ha Hb. unfold last_two_segments.
  change (pre +:+ "/" +:+ a +:+ "/" +:+ b)
    with (pre +:+ String "/" (a +:+ String "/" b)).
  rewrite !split_app, (split_no_slash a Ha), (split_no_slash b Hb).
  cbn [app]. now rewrite slice_last2_app.
Qed.

Lemma uploaded_key_of_location (env : Env) (f : File) (base : string) :
  Coverage.no_slash (originalname f) = true ->
  last_two_segments (base +:+ "/" +:+ upload_filename env f)
  = upload_filename env f.
Proof.
  intros Hname. unfold upload_filename.
  change ("products/" +:+ Number_toString (num_of_Z (Date_now env))
            +:+ "-" +:+ originalname f)
    with ("products" +:+ "/" +:+
          (Number_toString (num_of_Z (Date_now env)) +:+ "-" +:+ originalname f)).
  apply last_two_segments_app; [reflexivity|].
  now rewrite !no_slash_app, no_slash_Number_toString, Hname.
Qed.

(** X19. The key that the update and the delete handler compute from a
    stored URL is the key of the upload: for a file whose name has no
    slash, and a Location made of any prefix, a slash and the key,
    [split('/').slice(-2).join('/')] is
    products/<Date.now()>-<originalname> again; the key itself has the two
    segments "products" and <Date.now()>-<originalname>. *)
Theorem uploaded_key_is_recovered (env : Env) (f : File) (base : string) :
  Coverage.no_slash (originalname f) = true ->
  last_two_segments (base +:+ "/" +:+ upload_filename env f)
  = upload_filename env f
  /\ split "/" (upload_filename env f)
     = ["products";
        Number_toString (num_of_Z (Date_now env)) +:+ "-" +:+ originalname f].
Proof.
  intros Hname. split; [now apply uploaded_key_of_location|].
  unfold upload_filename.
  change ("products/" +:+ Number_toString (num_of_Z (Date_now env))
            +:+ "-" +:+ originalname f)
    with ("products" +:+ String "/"
          (Number_toString (num_of_Z (Date_now env)) +:+ "-" +:+ originalname f)).
  rewrite split_app, !split_no_slash; [reflexivity| |reflexivity].
  now rewrite !no_slash_app, no_slash_Number_toString, Hname.
Qed.

Lemma uploaded_key_is_recovered_witness :
  last_two_segments
    (s3_location Examples.env_ok (upload_filename Examples.env_ok Examples.tea_png))
  = "products/1700000000000-tea.png".
Proof.
  change (s3_location Examples.env_ok
            (upload_filename Examples.env_ok Examples.tea_png))
    with ("https://bucket.s3.amazonaws.com" +:+ "/"
          +:+ upload_filename Examples.env_ok Examples.tea_png).
  destruct (uploaded_key_is_recovered Examples.env_ok Examples.tea_png
              "https://bucket.s3.amazonaws.com" eq_refl) as [-> _].
  vm_compute. reflexivity.
Defined.

(** *** Create, then Delete *)

Lemma find_doc_app_fresh (r : Doc) (l : list Doc) :
  find_doc (_id r) l = None -> find_doc (_id r) (l ++ [r]) = Some r.
Proof.
  unfold find_doc. induction l as [|x l IH]; cbn [app List.find].
  - intros _. unfold has_id. now rewrite String.eqb_refl.
  - destruct (has_id (_id r) x); [discriminate|exact IH].
Qed.

Lemma remove_doc_app_fresh (r : Doc) (l : list Doc) :
  find_doc (_id r) l = None -> remove_doc (_id r) (l ++ [r]) = l.
Proof.
  unfold find_doc. induction l as [|x l IH]; cbn [app List.find remove_doc].
  - intros _. unfold has_id. now rewrite String.eqb_refl.
  - destruct (has_id (_id r) x); [discriminate|]. intros H. now rewrite IH.
Qed.

(** A Delete of a stored record when the store serves both calls. *)
Lemma delete_product_found (env : Env) (req : Request) (w : World) (d : Doc) :
  findById_error env = None ->
  findByIdAndDelete_error env = None ->
  find_doc (params_id req) (products w) = Some d ->
  exists w1,
    delete_old_image env (get (fields d) "imageUrl")
      "Failed to delete image from S3:"
      (record_call (Call_findById (params_id req)) w)
    = (Resolved tt, w1)
    /\ products w1 = products w
    /\ delete_product env req w
       = (Resolved {| status := 200;
                      json := JProduct "Product deleted successfully" (Some d) |},
          set_products (remove_doc (params_id req) (products w))
            (record_call (Call_findByIdAndDelete (params_id req)) w1)).
Proof.
  intros Hf Hfd Hd.
  destruct (delete_old_image_total env (get (fields d) "imageUrl")
              "Failed to delete image from S3:"
              (record_call (Call_findById (params_id req)) w))
    as (w1 & E & Hp1 & _).
  rewrite record_call_products in Hp1.
  exists w1. split; [exact E|]. split; [exact Hp1|].
  unfold delete_product. rewrite run_try_catch, run_bind.
  rewrite (Product_findById_served env _ w Hf), Hd.
  cbn [fmap option_fmap option_map]. rewrite run_bind.
  cbn [d_fields hydrate]. rewrite E, run_bind.
  unfold Product_findByIdAndDelete. rewrite Hfd.
  cbn [products record_call]. now rewrite Hp1, Hd.
Qed.

(** X20. Create, then Delete: when a Create has answered 201 and a Delete
    of the new record's id is served by the store and by S3, the Delete
    answers 200 with that record, the collection is the one from before the
    Create, and so is the bucket, up to the key of the upload, which is
    free again. The file's name has no slash and the Location is a prefix,
    a slash and the key. *)
Theorem create_then_delete_restores (env1 env2 : Env) (req req' : Request)
    (w w1 : World) (m base : string) (r : Doc) :
  create_product env1 req w
  = (Resolved {| status := 201; json := JProduct m (Some r) |}, w1) ->
  params_id req' = _id r ->
  (forall f, file req = Some f -> Coverage.no_slash (originalname f) = true) ->
  (forall key, s3_location env1 key = base +:+ "/" +:+ key) ->
  findById_error env2 = None ->
  s3_delete_error env2 = None ->
  findByIdAndDelete_error env2 = None ->
  exists w2,
    delete_product env2 req' w1
    = (Resolved {| status := 200;
                   json := JProduct "Product deleted successfully" (Some r) |},
       w2)
    /\ products w2 = products w
    /\ bucket w2
       = match file req with
         | Some f => delete (upload_filename env1 f) (bucket w)
         | None => bucket w
         end.
Proof.
  intros Hc Hid Hname Hloc Hf Hdel Hfd.
  pose proof (create_product_201_inv _ _ _ _ _ _ Hc)
    as (_ & imageUrl & w0 & Hup & Hb & Hfields & _ & Hfresh & Hprod).
  assert (Himg : fields r !! "imageUrl" = Some imageUrl
                 /\ (imageUrl = VNull \/ exists f, file req = Some f
                       /\ imageUrl = VStr (s3_location env1 (upload_filename env1 f)))
                 /\ bucket w1
                    = match file req with
                      | Some f => <[upload_filename env1 f := upload_object f]> (bucket w)
                      | None => bucket w
                      end).
  { rewrite Hfields.
    unfold Coverage.new_product_literal, Product_new.
    cbn [fold_left fst snd d_fields].
    destruct (file req) as [f|].
    - destruct (s3_upload_error env1) as [e|] eqn:Hu.
      { rewrite (uploadToS3_rejected env1 f w e Hu) in Hup. discriminate Hup. }
      rewrite (uploadToS3_served env1 f w Hu) in Hup.
      injection Hup as <- <-. cbn [bucket set_bucket record_call] in Hb.
      split; [|split; [right; eauto|exact Hb]].
      apply apply_defaults_lookup_present.
      eapply set_lookup_same; [reflexivity | discriminate | reflexivity].
    - rewrite uploadToS3_no_file in Hup. injection Hup as <- <-.
      split; [|split; [now left|exact Hb]].
      apply apply_defaults_lookup_present.
      eapply set_lookup_same; [reflexivity | discriminate | reflexivity]. }
  destruct Himg as (Hlook & Hcases & Hbucket).
  assert (Hfound : find_doc (params_id req') (products w1) = Some r).
  { rewrite Hid, Hprod. now apply find_doc_app_fresh. }
  destruct (delete_product_found env2 req' w1 r Hf Hfd Hfound)
    as (w2 & Himgdel & Hp2 & ->).
  eexists. split; [reflexivity|].
  cbn [products bucket set_products record_call].
  split; [rewrite Hid, Hprod; now apply remove_doc_app_fresh|].
  unfold get in Himgdel. rewrite Hlook in Himgdel. cbn [from_option id] in Himgdel.
  destruct Hcases as [->|(f & Hfile & ->)].
  - rewrite delete_old_image_falsy in Himgdel by reflexivity.
    injection Himgdel as <-. cbn [bucket record_call]. rewrite Hbucket.
    destruct (file req) as [f|] eqn:Hfile; [|reflexivity].
    exfalso. destruct (s3_upload_error env1) as [e|] eqn:Hu.
    + rewrite (uploadToS3_rejected env1 f w e Hu) in Hup. discriminate Hup.
    + rewrite (uploadToS3_served env1 f w Hu) in Hup. discriminate Hup.
  - rewrite Hfile in Hbucket |- *.
    rewrite Hloc in Himgdel.
    rewrite delete_old_image_served in Himgdel; [| |exact Hdel].
    2: { destruct base; discriminate. }
    rewrite (uploaded_key_of_location env1 f base (Hname f Hfile)) in Himgdel.
    injection Himgdel as <-. cbn [bucket set_bucket record_call].
    rewrite Hbucket. apply delete_insert_eq.
Qed.

Lemma create_then_delete_restores_witness :
  exists w1 w2,
    create_product Examples.env_ok Examples.req_tea_image Examples.world_empty
    = (Resolved {| status := 201;
                   json := JProduct "Product created successfully"
                             (Some Examples.tea_doc) |}, w1)
    /\ bucket w1 !! "products/1700000000000-tea.png"
       = Some {| Body := "PNG"; ContentType := "image/png" |}
    /\ delete_product Examples.env_ok Examples.req_delete_tea w1
       = (Resolved {| status := 200;
                      json := JProduct "Product deleted successfully"
                                (Some Examples.tea_doc) |}, w2)
    /\ products w2 = []
    /\ bucket w2 = ∅.
Proof.
  set (w1 := snd (create_product Examples.env_ok Examples.req_tea_image
                    Examples.world_empty)).
  assert (E : create_product Examples.env_ok Examples.req_tea_image
                Examples.world_empty
              = (Resolved {| status := 201;
                             json := JProduct "Product created successfully"
                                       (Some Examples.tea_doc) |}, w1))
    by (vm_compute; reflexivity).
  destruct (create_then_delete_restores Examples.env_ok Examples.env_ok
              Examples.req_tea_image Examples.req_delete_tea
              Examples.world_empty w1 "Product created successfully"
              "https://bucket.s3.amazonaws.com" Examples.tea_doc)
    as (w2 & Ed & Hp & Hb).
  - exact E.
  - reflexivity.
  - intros f [= <-]. reflexivity.
  - intros key. reflexivity.
  - reflexivity.
  - reflexivity.
  - reflexivity.
  - exists w1, w2. split; [exact E|]. split; [vm_compute; reflexivity|].
    split; [exact Ed|]. split; [exact Hp|].
    rewrite Hb. cbn [file Examples.req_tea_image]. apply delete_empty.
Defined.

(** *** Prices stay numbers *)

Lemma shr_1_nonneg (mrs : shr_record) :
  0 <= shr_m mrs -> 0 <= shr_m (shr_1 mrs).
Proof.
  destruct mrs as [m r s]. cbn [shr_m]. intros H.
  destruct m as [|[p|p|]|p]; cbn; lia.
Qed.

Lemma iter_pos_shr_1_nonneg (n : positive) (mrs : shr_record) :
  0 <= shr_m mrs -> 0 <= shr_m (SpecFloat.iter_pos shr_1 n mrs).
Proof.
  revert mrs. induction n as [n IH|n IH|]; intros mrs H; cbn [SpecFloat.iter_pos].
  - apply IH, IH. now apply shr_1_nonneg.
  - now apply IH, IH.
  - now apply shr_1_nonneg.
Qed.

Lemma shr_fexp_nonneg (m e : Z) (l : SpecFloat.location) :
  0 <= m -> 0 <= shr_m (fst (shr_fexp prec emax m e l)).
Proof.
  intros H. unfold shr_fexp, shr.
  assert (H0 : 0 <= shr_m (shr_record_of_loc m l))
    by (destruct l as [|[]]; exact H).
  destruct (fexp prec emax (Zdigits2 m + e) - e) as [|n|n]; cbn [fst];
    [exact H0 | now apply iter_pos_shr_1_nonneg | exact H0].
Qed.

Lemma round_nearest_even_nonneg (m : Z) (l : SpecFloat.location) :
  0 <= m -> 0 <= round_nearest_even m l.
Proof.
  intros H. destruct l as [|[]]; cbn [round_nearest_even]; try lia.
  destruct (Z.even m); lia.
Qed.

(** Rounding a magnitude that is not negative gives a zero, a finite
    number or an infinity of the sign asked for, never NaN. *)
Lemma binary_round_aux_sign (s : bool) (m e : Z) (l : SpecFloat.location) :
  0 <= m ->
  match binary_round_aux prec emax s m e l with
  | S754_nan => False
  | S754_zero s' | S754_infinity s' | S754_finite s' _ _ => s' = s
  end.
Proof.
  intros H. unfold binary_round_aux.
  pose proof (shr_fexp_nonneg m e l H) as H1.
  destruct (shr_fexp prec emax m e l) as [mrs1 e1]. cbn [fst] in H1.
  pose proof (shr_fexp_nonneg
                (round_nearest_even (shr_m mrs1) (loc_of_shr_record mrs1))
                e1 loc_Exact (round_nearest_even_nonneg _ _ H1)) as H2.
  destruct (shr_fexp prec emax _ e1 loc_Exact) as [mrs2 e2]. cbn [fst] in H2.
  destruct (shr_m mrs2) as [|p|p]; [reflexivity| |lia].
  destruct (e2 <=? emax - prec); reflexivity.
Qed.

Lemma binary_round_aux_nonneg (m e : Z) (l : SpecFloat.location) :
  0 <= m -> Coverage.is_nonneg (binary_round_aux prec emax false m e l) = true.
Proof.
  intros H. pose proof (binary_round_aux_sign false m e l H) as Hs.
  destruct (binary_round_aux prec emax false m e l); cbn; now subst.
Qed.

Lemma binary_round_nonneg (m : positive) (e : Z) :
  Coverage.is_nonneg (binary_round prec emax false m e) = true.
Proof.
  unfold binary_round. destruct (shl_align m e _) as [mz ez].
  apply binary_round_aux_nonneg. lia.
Qed.

Lemma num_of_dec_nonneg (m : N) (e : Z) :
  Coverage.is_nonneg (num_of_dec false m e) = true.
Proof.
  unfold num_of_dec. destruct m as [|p]; [reflexivity|].
  destruct (0 <=? e); [apply binary_round_nonneg|].
  unfold num_of_frac, SFdiv.
  set (q := Z.to_pos (10 ^ (- e))).
  destruct (SFdiv_core_binary prec emax (Z.pos p) 0 (Z.pos q) 0)
    as [[mz ez] lz] eqn:E.
  cbn [xorb]. apply binary_round_aux_nonneg.
  unfold SFdiv_core_binary in E.
  set (m' := match _ - _ with Z.pos _ => _ | 0 => Z.pos p | Z.neg _ => 0 end) in E.
  assert (Hm' : 0 <= m').
  { unfold m'. destruct (_ - _); [lia| |lia]. apply Z.shiftl_nonneg. lia. }
  pose proof (Z_div_mod m' (Z.pos q) ltac:(lia)) as Hdm.
  destruct (Z.div_eucl m' (Z.pos q)) as [q0 r0].
  injection E as <- _ _. destruct Hdm as [Heq Hr]. nia.
Qed.

Lemma is_nonneg_not_nan (x : number) :
  Coverage.is_nonneg x = true -> is_nan x = false.
Proof. now destruct x. Qed.

Lemma num_geb_0_nonneg (x : number) :
  num_geb x num_0 = true -> Coverage.is_nonneg x = true.
Proof.
  rewrite num_0_is_pos_zero. unfold num_geb, SFleb, SFcompare.
  destruct x as [s|s| |s m e]; try reflexivity; try discriminate;
    destruct s; try reflexivity; discriminate.
Qed.

Lemma num_add_nonneg (x y : number) :
  Coverage.is_nonneg x = true -> Coverage.is_nonneg y = true ->
  Coverage.is_nonneg (num_add x y) = true.
Proof.
  unfold num_add, SFadd.
  destruct x as [sx|sx| |sx mx ex], y as [sy|sy| |sy my ey];
    cbn [Coverage.is_nonneg]; intros Hx Hy; try discriminate;
    try (apply negb_true_iff in Hx; subst sx);
    try (apply negb_true_iff in Hy; subst sy);
    try reflexivity.
  - now destruct sx, sy.
  - cbn [cond_Zopp]. destruct (shl_align mx ex _) as [a ea].
    destruct (shl_align my ey _) as [b eb]. cbn [fst Z.add binary_normalize].
    apply binary_round_nonneg.
Qed.

Lemma num_mul_0_05_nonneg (x : number) :
  Coverage.is_nonneg x = true ->
  Coverage.is_nonneg (num_mul x num_0_05) = true.
Proof.
  assert (H5 : exists m e, num_0_05 = S754_finite false m e)
    by (vm_compute; eauto).
  destruct H5 as (m5 & e5 & ->). unfold num_mul, SFmul.
  destruct x as [sx|sx| |sx mx ex]; cbn [Coverage.is_nonneg]; intros Hx;
    try discriminate; try (apply negb_true_iff in Hx; subst sx);
    try reflexivity.
  cbn [xorb]. apply binary_round_aux_nonneg. lia.
Qed.

Lemma is_digit_not_space (c : ascii) : is_digit c = true -> is_space c = false.
Proof.
  destruct c as [[] [] [] [] [] [] [] []]; intros H;
    try discriminate H; reflexivity.
Qed.

Lemma read_digits_cnt (s : string) (acc : N) (cnt : nat) :
  (cnt <= snd (fst (read_digits acc cnt s)))%nat.
Proof.
  revert acc cnt. induction s as [|c s IH]; intros acc cnt; cbn [read_digits].
  - cbn. lia.
  - destruct (is_digit c); [|cbn; lia].
    specialize (IH (10 * acc + digit_val c)%N (S cnt)). lia.
Qed.

Lemma read_unsigned_decimal_digit (s : string) :
  Coverage.starts_with_digit s = true -> read_unsigned_decimal s <> None.
Proof.
  destruct s as [|c s]; [discriminate|]. cbn [Coverage.starts_with_digit].
  intros Hc. unfold read_unsigned_decimal. cbn [read_digits]. rewrite Hc.
  pose proof (read_digits_cnt s (10 * 0 + digit_val c)%N 1) as Hcnt.
  destruct (read_digits _ 1 s) as [[i ci] s1]. cbn [fst snd] in Hcnt.
  destruct ci as [|ci]; [lia|].
  repeat match goal with
         | |- context [match ?x with _ => _ end] => destruct x
         | |- context [let '(_, _) := ?x in _] => destruct x
         end; discriminate.
Qed.

(** A string that starts with a digit is read as a decimal literal
    without a sign. *)
Lemma parseFloat_string_digit (s : string) :
  Coverage.starts_with_digit s = true ->
  Coverage.is_nonneg (parseFloat_string s) = true.
Proof.
  intros Hs. pose proof (read_unsigned_decimal_digit s Hs) as Hsome.
  destruct s as [|c s]; [discriminate|]. cbn [Coverage.starts_with_digit] in Hs.
  unfold parseFloat_string. cbn [trim_start].
  rewrite (is_digit_not_space c Hs).
  assert (E : read_decimal_literal (String c s)
              = match read_unsigned_decimal (String c s) with
                | Some (m, e, rest) => Some (num_of_dec false m e, rest)
                | None => None
                end).
  { destruct c as [[] [] [] [] [] [] [] []]; try discriminate Hs; reflexivity. }
  rewrite E.
  destruct (read_unsigned_decimal (String c s)) as [[[m e] rest]|];
    [|contradiction].
  apply num_of_dec_nonneg.
Qed.

Lemma starts_with_digit_app (s t : string) :
  Coverage.starts_with_digit s = true ->
  Coverage.starts_with_digit (s +:+ t) = true.
Proof. destruct s as [|c s]; [discriminate|]. intros H. exact H. Qed.

Lemma starts_with_digit_take_str (n : nat) (s : string) :
  (1 <= n)%nat -> Coverage.starts_with_digit s = true ->
  Coverage.starts_with_digit (take_str n s) = true.
Proof.
  intros Hn. destruct n as [|n]; [lia|]. destruct s as [|c s]; [discriminate|].
  intros H. exact H.
Qed.

Lemma is_digit_pretty_N_char (x : N) : is_digit (pretty_N_char x) = true.
Proof.
  unfold pretty_N_char.
  repeat match goal with
         | |- context [match ?y with _ => _ end] => destruct y
         end; reflexivity.
Qed.

Lemma starts_with_digit_pretty_N_go (x : N) (s : string) :
  (0 < x)%N -> Coverage.starts_with_digit (pretty_N_go x s) = true.
Proof.
  revert s. induction (N.lt_wf_0 x) as [x _ IH]. intros s Hx.
  rewrite pretty_N_go_step by exact Hx.
  destruct (N.eq_dec (x `div` 10)%N 0%N) as [E|E].
  - rewrite E, pretty_N_go_0. cbn [Coverage.starts_with_digit].
    apply is_digit_pretty_N_char.
  - apply IH; [apply N.div_lt; lia | now apply N.neq_0_lt_0].
Qed.

Lemma starts_with_digit_digits_of_N (n : N) :
  Coverage.starts_with_digit (digits_of_N n) = true.
Proof.
  unfold digits_of_N, pretty, pretty_N.
  destruct (decide (n = 0%N)); [reflexivity|].
  apply starts_with_digit_pretty_N_go. lia.
Qed.

Lemma length_zeros (k : nat) : String.length (zeros k) = k.
Proof. induction k as [|k IH]; [reflexivity|]. cbn. now rewrite IH. Qed.

Lemma length_append (s t : string) :
  String.length (s +:+ t) = (String.length s + String.length t)%nat.
Proof.
  induction s as [|c s IH]; [reflexivity|].
  change (String c s +:+ t) with (String c (s +:+ t)). cbn. now rewrite IH.
Qed.

Lemma starts_with_digit_fixed2_digits (n : Z) :
  Coverage.starts_with_digit (fixed2_digits n) = true.
Proof.
  unfold fixed2_digits.
  set (m := if n =? 0 then "0" else digits_of_N (Z.to_N n)).
  assert (Hm : Coverage.starts_with_digit m = true).
  { unfold m. destruct (n =? 0); [reflexivity|].
    apply starts_with_digit_digits_of_N. }
  destruct (String.length m <=? 2)%nat eqn:Hk.
  - apply Nat.leb_le in Hk.
    set (m' := zeros (3 - String.length m) +:+ m).
    assert (Hlen : String.length m' = 3%nat).
    { unfold m'. rewrite length_append, length_zeros. lia. }
    rewrite Hlen. apply starts_with_digit_app.
    apply starts_with_digit_take_str; [lia|].
    unfold m'. destruct (3 - String.length m)%nat as [|k] eqn:Ek; [lia|].
    reflexivity.
  - apply Nat.leb_gt in Hk. apply starts_with_digit_app.
    apply starts_with_digit_take_str; [lia|exact Hm].
Qed.

Lemma starts_with_digit_format_number (s k n : Z) :
  Coverage.starts_with_digit (format_number s k n) = true.
Proof.
  unfold format_number.
  pose proof (starts_with_digit_digits_of_N (Z.to_N s)) as Hd.
  destruct ((k <=? n) && (n <=? 21)); [now apply starts_with_digit_app|].
  destruct ((0 <? n) && (n <=? 21)) eqn:Hn.
  { apply starts_with_digit_app, starts_with_digit_take_str; [|exact Hd].
    apply andb_true_iff in Hn as [Hn _]. apply Z.ltb_lt in Hn. lia. }
  destruct ((-6 <? n) && (n <=? 0)); [reflexivity|].
  destruct (k =? 1); [now apply starts_with_digit_app|].
  apply starts_with_digit_app, starts_with_digit_take_str; [lia|exact Hd].
Qed.

(** What [toFixed(2)] prints for a number that is not below zero reads
    back as such a number. *)
Lemma parseFloat_toFixed2_nonneg (x : number) :
  Coverage.is_nonneg x = true ->
  Coverage.is_nonneg (parseFloat (VStr (toFixed2 x))) = true.
Proof.
  unfold parseFloat. cbn [ToString].
  destruct x as [s|s| |s m e]; cbn [Coverage.is_nonneg]; intros H;
    try discriminate.
  - vm_compute. reflexivity.
  - apply negb_true_iff in H. subst s. vm_compute. reflexivity.
  - apply negb_true_iff in H. subst s. cbn [toFixed2].
    apply parseFloat_string_digit.
    change ("" +:+ ?t) with t.
    destruct (ge_1e21 m e).
    + cbn [Number_toString].
      destruct (shortest_digits 17 1 _ _ _ _) as [[d k] n].
      apply starts_with_digit_format_number.
    + apply starts_with_digit_fixed2_digits.
Qed.

(** The totalPrice of the block "Calculate GST details" is a number as
    soon as the sellPrice read is one and is not below zero. *)
Lemma calculate_gst_totalPrice_nonneg (gstEnabled sellPrice : value) :
  Coverage.is_nonneg (parseFloat sellPrice) = true ->
  Coverage.is_nonneg (totalPrice (calculate_gst gstEnabled sellPrice)) = true.
Proof.
  intros H. unfold calculate_gst. cbn [totalPrice].
  apply parseFloat_toFixed2_nonneg, num_add_nonneg; [exact H|].
  destruct (strict_eq_str gstEnabled "true"); [|reflexivity].
  now apply parseFloat_toFixed2_nonneg, num_mul_0_05_nonneg.
Qed.

(** *** The GST block against the specification's formulas *)



Lemma append_assoc (a b c : string) : (a +:+ b) +:+ c = a +:+ (b +:+ c).
Proof.
  induction a as [|x a IH]; [reflexivity|].
  change (String x a +:+ b) with (String x (a +:+ b)).
  change (String x (a +:+ b) +:+ c) with (String x ((a +:+ b) +:+ c)).
  now rewrite IH.
Qed.





























(** X21. For a sellPrice sent as text, as a form field is: in every
    request that passes validation, the three amounts of the block
    "Calculate GST details" are numbers and none is below zero: the
    sellPrice read, the gstAmount and the totalPrice are never NaN and
    never negative, whatever is sent as gstEnabled. *)
Theorem validated_prices_are_numbers (b : gmap string value) (s : string) :
  b !! "sellPrice" = Some (VStr s) ->
  validateProduct b = [] ->
  let g := calculate_gst (get b "gstEnabled") (VStr s) in
  Coverage.is_nonneg (sellPriceFloat g) = true
  /\ Coverage.is_nonneg (gstAmount g) = true
  /\ Coverage.is_nonneg (totalPrice g) = true
  /\ is_nan (totalPrice g) = false.
Proof.
  intros Hs Hv g.
  assert (Hget : get b "sellPrice" = VStr s) by (unfold get; now rewrite Hs).
  assert (Hsp : Coverage.is_nonneg (parseFloat (VStr s)) = true).
  { rewrite <- Hget. now apply num_geb_0_nonneg, validated_sellPrice_geb. }
  assert (Htot : Coverage.is_nonneg (totalPrice g) = true)
    by now apply calculate_gst_totalPrice_nonneg.
  split; [exact Hsp|]. split; [|split; [exact Htot|now apply is_nonneg_not_nan]].
  unfold g, calculate_gst. cbn [gstAmount].
  destruct (strict_eq_str (get b "gstEnabled") "true"); [|reflexivity].
  now apply parseFloat_toFixed2_nonneg, num_mul_0_05_nonneg.
Qed.

Lemma validated_prices_are_numbers_witness :
  body Examples.req_tea !! "sellPrice" = Some (VStr "100")
  /\ validateProduct (body Examples.req_tea) = []
  /\ is_nan (totalPrice (calculate_gst (get (body Examples.req_tea) "gstEnabled")
                           (VStr "100"))) = false.
Proof.
  split; [vm_compute; reflexivity|]. split; [vm_compute; reflexivity|].
  apply (validated_prices_are_numbers (body Examples.req_tea) "100");
    vm_compute; reflexivity.
Defined.

(** *** Valid requests are served *)

Lemma set_d_invalid_cast (k : string) (v : value) (d : Document) :
  (forall p, schema_path k = Some p -> v <> VUndefined -> cast p v <> None) ->
  d_invalid (set k v d) = d_invalid d.
Proof.
  intros H. unfold set. destruct (schema_path k) as [p|]; [|reflexivity].
  specialize (H p eq_refl).
  destruct v; try reflexivity;
    (destruct (cast p _) eqn:E; [reflexivity|]; exfalso;
     now apply H).
Qed.

Lemma cast_String_total (p : SchemaPath) (v : value) :
  instance p = SString -> cast p v <> None.
Proof.
  intros Hp. unfold cast. rewrite Hp.
  destruct v as [| |b|x|s]; cbn; discriminate.
Qed.

Lemma cast_Number_VNum (p : SchemaPath) (x : number) :
  instance p = SNumber -> is_nan x = false -> cast p (VNum x) <> None.
Proof.
  intros Hp Hx. unfold cast. rewrite Hp, castNumber_VNum, Hx. discriminate.
Qed.

Lemma validate_nil_intro (d : Document) :
  d_invalid d = [] ->
  (forall p, In p ProductSchema -> path_ok (d_fields d) p = true) ->
  validate d = [].
Proof.
  intros Hi Hp. unfold validate. rewrite Hi. cbn [app].
  induction ProductSchema as [|p l IH]; [reflexivity|].
  cbn [List.filter]. rewrite (Hp p (or_introl eq_refl)). cbn [negb].
  apply IH. intros q Hq. apply Hp. now right.
Qed.

(** Paths whose assignment by the handlers can never be refused: the
    String paths, the flag, and the paths outside the schema. *)
Lemma set_d_invalid_easy (k : string) (v : value) (d : Document) :
  In k ["itemName"; "type"; "primaryUnit"; "customUnit"; "imageUrl";
        "gstPercentage"; "gstAmount"; "barcode"] ->
  d_invalid (set k v d) = d_invalid d.
Proof.
  intros Hk. apply set_d_invalid_cast. intros p Hp _.
  cbn in Hk.
  repeat (destruct Hk as [<-|Hk];
          [first [discriminate Hp
                 | injection Hp as <-; now apply cast_String_total]|]).
  destruct Hk.
Qed.

Lemma set_d_invalid_flag (b : bool) (d : Document) :
  d_invalid (set "gstEnabled" (VBool b) d) = d_invalid d.
Proof.
  apply set_d_invalid_cast. intros p [= <-] _. discriminate.
Qed.

Lemma set_d_invalid_number (k : string) (x : number) (d : Document) :
  k = "sellPrice" \/ k = "totalPrice" -> is_nan x = false ->
  d_invalid (set k (VNum x) d) = d_invalid d.
Proof.
  intros Hk Hx. apply set_d_invalid_cast. intros p Hp _.
  destruct Hk; subst k; injection Hp as <-; now apply cast_Number_VNum.
Qed.

(** What validation leaves to check on the fields of a document. *)
Lemma path_ok_fields (flds : gmap string value) (name ty : string) (sp : number) :
  flds !! "itemName" = Some (VStr name) -> name <> "" ->
  flds !! "sellPrice" = Some (VNum sp) ->
  flds !! "type" = Some (VStr ty) -> isIn ty product_types = true ->
  forall p, In p ProductSchema -> path_ok flds p = true.
Proof.
  intros Hn Hne Hs Ht Hty p Hin. cbn in Hin.
  repeat (destruct Hin as [<-|Hin];
          [unfold path_ok; cbn [required instance enum path];
           rewrite ?Hn, ?Hs, ?Ht; cbn [required_ok enum_ok andb];
           try reflexivity|]).
  - rewrite andb_true_r. apply negb_true_iff, String.eqb_neq, Hne.
  - exact Hty.
  - destruct Hin.
Qed.

(** The document that Create builds from a validated body is valid. *)
Lemma new_product_valid (env : Env) (b : gmap string value) (img : value) :
  validateProduct b = [] ->
  validate (Product_new (new_ObjectId env)
              (Coverage.new_product_literal env (sanitize b) img)) = [].
Proof.
  intros Hv.
  pose proof (validated_sellPrice_geb b Hv) as Hge.
  pose proof (num_geb_not_nan _ _ Hge) as Hnan.
  pose proof (is_nonneg_not_nan _
                (calculate_gst_totalPrice_nonneg (get b "gstEnabled")
                   (get b "sellPrice") (num_geb_0_nonneg _ Hge))) as Htot.
  apply validateProduct_nil in Hv as (Hname & _ & Htype & _).
  assert (Hne : trim (toString (get b "itemName")) <> "").
  { unfold check_itemName, isEmpty in Hname.
    destruct (String.eqb_spec (trim (toString (get b "itemName"))) "");
      [discriminate|assumption]. }
  assert (Hin : isIn (toString (get b "type")) product_types = true).
  { unfold check_type in Htype.
    destruct (isIn (toString (get b "type")) product_types);
      [reflexivity|discriminate]. }
  assert (Htne : toString (get b "type") <> "").
  { intros E. rewrite E in Hin. discriminate Hin. }
  destruct (castString_toString _ Htne) as [Hundef Hcast].
  unfold Coverage.new_product_literal, Product_new.
  cbn [fold_left fst snd].
  rewrite get_sanitize_itemName, (get_sanitize_other _ "type"),
    (get_sanitize_other _ "sellPrice"), (get_sanitize_other _ "gstEnabled"),
    (get_sanitize_other _ "primaryUnit"), (get_sanitize_other _ "customUnit")
    by discriminate.
  set (g := calculate_gst (get b "gstEnabled") (get b "sellPrice")) in *.
  change (sellPriceFloat g) with (parseFloat (get b "sellPrice")).
  set (sp := parseFloat (get b "sellPrice")) in *.
  set (name := trim (toString (get b "itemName"))) in *.
  set (ty := get b "type") in *.
  apply validate_nil_intro; cbn [d_invalid d_fields].
  - rewrite !set_d_invalid_easy, set_d_invalid_number, !set_d_invalid_easy,
      set_d_invalid_flag, !set_d_invalid_easy, set_d_invalid_number,
      set_d_invalid_easy by (cbn; tauto || assumption).
    reflexivity.
  - apply (path_ok_fields _ name (toString ty) sp).
    + apply apply_defaults_lookup_present.
      do 10 (rewrite set_lookup_other by discriminate).
      eapply set_lookup_same; [reflexivity | discriminate |].
      cbn [cast instance castString trim_opt]. unfold name.
      now rewrite trim_idempotent.
    + exact Hne.
    + apply apply_defaults_lookup_present.
      do 9 (rewrite set_lookup_other by discriminate).
      eapply set_lookup_same; [reflexivity | discriminate |].
      cbn [cast instance]. now rewrite castNumber_VNum, Hnan.
    + apply apply_defaults_lookup_present.
      do 8 (rewrite set_lookup_other by discriminate).
      eapply set_lookup_same; [reflexivity | exact Hundef |].
      cbn [cast instance trim_opt]. now rewrite Hcast.
    + exact Hin.
Qed.

(** In the model, a body that passes validation is created when S3
    serves the upload (if any), the store serves the save and the fresh id
    is not taken. *)
Lemma create_product_served (env : Env) (req : Request) (w : World) :
  validateProduct (body req) = [] ->
  s3_upload_error env = None ->
  save_error env = None ->
  find_doc (new_ObjectId env) (products w) = None ->
  exists r w',
    create_product env req w
    = (Resolved {| status := 201;
                   json := JProduct "Product created successfully" (Some r) |}, w')
    /\ _id r = new_ObjectId env
    /\ createdAt r = save_time env
    /\ products w' = products w ++ [r].
Proof.
  intros Hv Hup Hsave Hfresh.
  unfold create_product. rewrite Hv, run_try_catch, run_bind.
  assert (Hu : exists img w1, uploadToS3 env (file req) w = (Resolved img, w1)
                              /\ products w1 = products w).
  { destruct (file req) as [f|].
    - rewrite (uploadToS3_served env f w Hup). eauto.
    - rewrite uploadToS3_no_file. eauto. }
  destruct Hu as (img & w1 & -> & Hp1).
  rewrite run_bind.
  match goal with
  | |- context [Document_save env ?d w1] =>
      change d
        with (Product_new (new_ObjectId env)
                (Coverage.new_product_literal env (sanitize (body req)) img))
  end.
  pose proof (new_product_valid env (body req) img Hv) as Hvalid.
  set (newProduct := Product_new _ _) in *.
  assert (Hs : Document_save env newProduct w1
               = (Resolved {| _id := d_id newProduct;
                              fields := d_fields newProduct;
                              createdAt := save_time env |},
                  set_products
                    (products w1
                     ++ [{| _id := d_id newProduct;
                            fields := d_fields newProduct;
                            createdAt := save_time env |}])
                    (record_call (Call_save (d_id newProduct)) w1))).
  { unfold Document_save. rewrite Hvalid, Hsave.
    unfold newProduct at 1. rewrite Product_new_d_createdAt.
    cbn [products record_call].
    unfold newProduct at 1. rewrite Product_new_d_id, Hp1, Hfresh.
    reflexivity. }
  rewrite Hs. eexists _, _. split; [reflexivity|].
  cbn [_id createdAt products set_products].
  split; [unfold newProduct; apply Product_new_d_id|].
  split; [reflexivity|]. now rewrite Hp1.
Qed.

(** The image block resolves whenever S3 serves the upload it makes. *)
Lemma replace_image_served (env : Env) (f : option File) (d : Document)
    (w : World) :
  (f <> None -> s3_upload_error env = None) ->
  exists img w1, replace_image env f d w = (Resolved img, w1)
                 /\ products w1 = products w.
Proof.
  intros Hup. unfold replace_image. destruct f as [f|].
  - rewrite run_bind.
    destruct (delete_old_image_total env (get (d_fields d) "imageUrl")
                "Failed to delete old image:" w) as (w1 & -> & Hp & _).
    rewrite (uploadToS3_served env f w1 (Hup ltac:(discriminate))). eauto.
  - eexists _, _. split; reflexivity.
Qed.

(** No assignment of Update from a validated body is refused. *)
Lemma assigned_product_invalid_nil (b : gmap string value) (img : value)
    (d : Document) :
  validateProduct b = [] ->
  d_invalid (assign_fields (sanitize b) img d) = d_invalid d.
Proof.
  intros Hv.
  pose proof (validated_sellPrice_geb b Hv) as Hge.
  pose proof (num_geb_not_nan _ _ Hge) as Hnan.
  pose proof (is_nonneg_not_nan _
                (calculate_gst_totalPrice_nonneg (get b "gstEnabled")
                   (get b "sellPrice") (num_geb_0_nonneg _ Hge))) as Htot.
  unfold assign_fields.
  rewrite (get_sanitize_other _ "type"),
    (get_sanitize_other _ "sellPrice"), (get_sanitize_other _ "gstEnabled"),
    (get_sanitize_other _ "primaryUnit"), (get_sanitize_other _ "customUnit")
    by discriminate.
  set (g := calculate_gst (get b "gstEnabled") (get b "sellPrice")) in *.
  change (sellPriceFloat g) with (parseFloat (get b "sellPrice")).
  rewrite set_d_invalid_easy, set_d_invalid_number, !set_d_invalid_easy,
    set_d_invalid_flag, !set_d_invalid_easy, set_d_invalid_number
    by (cbn; tauto || assumption).
  reflexivity.
Qed.

(** Update stores the type of a validated body. *)
Lemma assigned_type_lookup (b : gmap string value) (img : value) (d : Document) :
  validateProduct b = [] ->
  d_fields (assign_fields (sanitize b) img d) !! "type"
  = Some (VStr (toString (get b "type")))
  /\ isIn (toString (get b "type")) product_types = true.
Proof.
  intros Hv. apply validateProduct_nil in Hv as (_ & _ & Htype & _).
  assert (Hin : isIn (toString (get b "type")) product_types = true).
  { unfold check_type in Htype.
    destruct (isIn (toString (get b "type")) product_types);
      [reflexivity|discriminate]. }
  assert (Htne : toString (get b "type") <> "").
  { intros E. rewrite E in Hin. discriminate Hin. }
  destruct (castString_toString _ Htne) as [Hundef Hcast].
  split; [|exact Hin]. unfold assign_fields.
  rewrite (get_sanitize_other _ "type") by discriminate.
  do 7 (rewrite set_lookup_other by discriminate).
  eapply set_lookup_same; [reflexivity | exact Hundef |].
  cbn [cast instance trim_opt]. now rewrite Hcast.
Qed.

(** The document that Update assigns to from a validated body is valid
    when the stored record has a name. *)
Lemma assigned_product_valid (b : gmap string value) (img : value) (d : Doc)
    (name : string) :
  validateProduct b = [] ->
  fields d !! "itemName" = Some (VStr name) -> name <> "" ->
  validate (assign_fields (sanitize b) img (hydrate d)) = [].
Proof.
  intros Hv Hname Hne.
  pose proof (validated_sellPrice_geb b Hv) as Hge.
  pose proof (num_geb_not_nan _ _ Hge) as Hnan.
  destruct (assigned_type_lookup b img (hydrate d) Hv) as [Hty Hin].
  apply validate_nil_intro.
  - now rewrite assigned_product_invalid_nil.
  - apply (path_ok_fields _ name (toString (get b "type"))
             (parseFloat (get b "sellPrice"))).
    + rewrite assign_fields_lookup_other; [exact Hname|].
      unfold assigned_paths. cbn. intros H.
      repeat (destruct H as [H|H]; [discriminate H|]). exact H.
    + exact Hne.
    + unfold assign_fields.
      rewrite (get_sanitize_other _ "sellPrice"), (get_sanitize_other _ "gstEnabled")
        by discriminate.
      do 8 (rewrite set_lookup_other by discriminate).
      eapply set_lookup_same; [reflexivity | discriminate |].
      cbn [cast instance]. rewrite castNumber_VNum.
      change (sellPriceFloat _) with (parseFloat (get b "sellPrice")).
      now rewrite Hnan.
    + exact Hty.
    + exact Hin.
Qed.

(** In the model, a body that passes validation updates the record when
    the record exists and has a name, the store serves the lookup and the
    save, and S3 serves the upload (if a file is sent). *)
Lemma update_product_served (env : Env) (req : Request) (w : World)
    (d : Doc) (name : string) :
  validateProduct (body req) = [] ->
  findById_error env = None ->
  find_doc (params_id req) (products w) = Some d ->
  fields d !! "itemName" = Some (VStr name) -> name <> "" ->
  (file req <> None -> s3_upload_error env = None) ->
  save_error env = None ->
  exists r w',
    update_product env req w
    = (Resolved {| status := 200;
                   json := JProduct "Product updated successfully" (Some r) |}, w')
    /\ _id r = _id d
    /\ createdAt r = createdAt d
    /\ fields r !! "itemName" = Some (VStr name)
    /\ find_doc (params_id req) (products w') = Some r.
Proof.
  intros Hv Hf Hd Hname Hne Hup Hsave.
  rewrite (update_product_found env req w d Hv Hf Hd).
  destruct (replace_image_served env (file req) (hydrate d)
              (record_call (Call_findById (params_id req)) w) Hup)
    as (img & w1 & -> & Hp1).
  rewrite record_call_products in Hp1.
  pose proof (assigned_product_valid (body req) img d name Hv Hname Hne) as Hvalid.
  pose proof (assign_fields_lookup_other (sanitize (body req)) img (hydrate d)
                "itemName") as Hkeep.
  set (d1 := assign_fields (sanitize (body req)) img (hydrate d)) in *.
  assert (Hid : d_id d1 = _id d) by (unfold d1; now rewrite assign_fields_d_id).
  assert (Hct : d_createdAt d1 = Some (createdAt d))
    by (unfold d1; now rewrite assign_fields_d_createdAt).
  pose proof (find_doc_has_id _ _ _ Hd) as Hdid.
  assert (Hs : Document_save env d1 w1
               = (Resolved {| _id := d_id d1; fields := d_fields d1;
                              createdAt := createdAt d |},
                  set_products
                    (replace_doc {| _id := d_id d1; fields := d_fields d1;
                                    createdAt := createdAt d |} (products w1))
                    (record_call (Call_save (d_id d1)) w1))).
  { unfold Document_save. rewrite Hvalid, Hsave, Hct.
    cbn [products record_call]. rewrite Hid, Hp1, Hdid, Hd. reflexivity. }
  rewrite Hs. eexists _, _. split; [reflexivity|].
  cbn [_id createdAt fields products set_products].
  split; [exact Hid|]. split; [reflexivity|]. split.
  - rewrite Hkeep; [exact Hname|].
    unfold assigned_paths. cbn. intros H.
    repeat (destruct H as [H|H]; [discriminate H|]). exact H.
  - rewrite Hp1. apply (find_doc_replace_doc _ _ d); [exact Hd|].
    cbn [_id]. congruence.
Qed.

(** *** Writes as the listing shows them *)

Lemma list_products_served (env : Env) (w : World) :
  find_error env = None ->
  list_products env w
  = (Resolved {| status := 200;
                 json := JProducts (sort_createdAt_desc (products w)) |},
     record_call Call_find w).
Proof.
  intros H. unfold list_products. rewrite run_try_catch, run_bind.
  unfold Product_find_sorted. now rewrite H.
Qed.

(** X24. A created record is listed: after a Create answered 201, a
    listing that the store serves answers 200 with a list that holds the
    new record and every record the collection held before. *)
Theorem created_record_is_listed (env envL : Env) (req : Request)
    (w w1 : World) (m : string) (r : Doc) :
  create_product env req w
  = (Resolved {| status := 201; json := JProduct m (Some r) |}, w1) ->
  find_error envL = None ->
  exists l,
    list_products envL w1
    = (Resolved {| status := 200; json := JProducts l |},
       record_call Call_find w1)
    /\ In r l
    /\ (forall x, In x (products w) -> In x l)
    /\ length l = S (length (products w)).
Proof.
  intros Hc Hl. apply create_product_201_inv in Hc
    as (_ & img & w0 & _ & _ & _ & _ & _ & Hp).
  rewrite (list_products_served envL w1 Hl). eexists. split; [reflexivity|].
  pose proof (sort_createdAt_desc_Permutation (products w1)) as Hperm.
  rewrite Hp in Hperm |- *.
  split; [|split].
  - eapply Permutation_in; [symmetry; exact Hperm|].
    apply in_or_app. right. now left.
  - intros x Hx. eapply Permutation_in; [symmetry; exact Hperm|].
    apply in_or_app. now left.
  - rewrite (Permutation_length Hperm), length_app. cbn. lia.
Qed.

Lemma created_record_is_listed_witness :
  exists w1 l,
    create_product Examples.env_ok Examples.req_tea Examples.world_empty
    = (Resolved {| status := 201;
                   json := JProduct "Product created successfully"
                             (Some Examples.tea_plain_doc) |}, w1)
    /\ list_products Examples.env_ok w1
       = (Resolved {| status := 200; json := JProducts l |},
          record_call Call_find w1)
    /\ In Examples.tea_plain_doc l.
Proof.
  set (w1 := snd (create_product Examples.env_ok Examples.req_tea
                    Examples.world_empty)).
  assert (E : create_product Examples.env_ok Examples.req_tea Examples.world_empty
              = (Resolved {| status := 201;
                             json := JProduct "Product created successfully"
                                       (Some Examples.tea_plain_doc) |}, w1))
    by (vm_compute; reflexivity).
  destruct (created_record_is_listed Examples.env_ok Examples.env_ok
              Examples.req_tea Examples.world_empty w1
              "Product created successfully" Examples.tea_plain_doc E eq_refl)
    as (l & El & Hin & _).
  exists w1, l. split; [exact E|]. split; [exact El | exact Hin].
Defined.

(** X25. A deleted record is no longer listed: in a collection with unique
    ids, after a Delete answered 200, a listing that the store serves
    holds no record of the deleted id, and holds every record of another
    id that the collection held before. *)
Theorem deleted_record_is_not_listed (env envL : Env) (req : Request)
    (w w1 : World) (m : string) (o : option Doc) :
  NoDup (map _id (products w)) ->
  delete_product env req w
  = (Resolved {| status := 200; json := JProduct m o |}, w1) ->
  find_error envL = None ->
  exists l,
    list_products envL w1
    = (Resolved {| status := 200; json := JProducts l |},
       record_call Call_find w1)
    /\ (forall x, In x l -> _id x <> params_id req)
    /\ (forall x, In x (products w) -> _id x <> params_id req -> In x l).
Proof.
  intros Hnd Hd Hl. apply delete_product_200_inv in Hd.
  rewrite (list_products_served envL w1 Hl). eexists. split; [reflexivity|].
  pose proof (sort_createdAt_desc_Permutation (products w1)) as Hperm.
  rewrite Hd in Hperm |- *.
  pose proof (find_doc_remove_doc (params_id req) (products w) Hnd) as Hnone.
  split.
  - intros x Hx Hid.
    apply (Permutation_in _ Hperm) in Hx.
    pose proof (find_none _ _ Hnone x Hx) as Hx'.
    unfold has_id in Hx'. apply String.eqb_neq in Hx'. contradiction.
  - intros x Hx Hid. eapply Permutation_in; [symmetry; exact Hperm|].
    clear -Hx Hid. induction (products w) as [|y l IH]; [destruct Hx|].
    cbn [remove_doc]. destruct (has_id (params_id req) y) eqn:Hy.
    + destruct Hx as [->|Hx]; [|exact Hx].
      unfold has_id in Hy. apply String.eqb_eq in Hy. contradiction.
    + destruct Hx as [->|Hx]; [now left|right; now apply IH].
Qed.

Lemma deleted_record_is_not_listed_witness :
  exists w1,
    delete_product Examples.env_ok Examples.req_delete_tea Examples.world_tea
    = (Resolved {| status := 200;
                   json := JProduct "Product deleted successfully"
                             (Some Examples.tea_doc) |}, w1)
    /\ list_products Examples.env_ok w1
       = (Resolved {| status := 200; json := JProducts [] |},
          record_call Call_find w1).
Proof.
  set (w1 := snd (delete_product Examples.env_ok Examples.req_delete_tea
                    Examples.world_tea)).
  assert (E : delete_product Examples.env_ok Examples.req_delete_tea
                Examples.world_tea
              = (Resolved {| status := 200;
                             json := JProduct "Product deleted successfully"
                                       (Some Examples.tea_doc) |}, w1))
    by (vm_compute; reflexivity).
  destruct (deleted_record_is_not_listed Examples.env_ok Examples.env_ok
              Examples.req_delete_tea Examples.world_tea w1
              "Product deleted successfully" (Some Examples.tea_doc))
    as (l & El & Hnot & _).
  - cbn. apply NoDup_cons. split; [apply not_elem_of_nil | apply NoDup_nil_2].
  - exact E.
  - reflexivity.
  - exists w1. split; [exact E|]. rewrite El.
    replace l with (@nil Doc); [reflexivity|].
    assert (Hl : l = sort_createdAt_desc (products w1)).
    { rewrite (list_products_served Examples.env_ok w1 eq_refl) in El.
      now injection El. }
    rewrite Hl. vm_compute. reflexivity.
Defined.

(** *** Update, again *)

(** X26. An Update answered 200 stores the type of the request, which is
    one of Veg, Non-Veg, Beverage, Starter, Dessert and Breads, whatever
    type the record had. *)
Theorem updated_record_type (env : Env) (req : Request) (w w' : World)
    (m : string) (r : Doc) :
  update_product env req w
  = (Resolved {| status := 200; json := JProduct m (Some r) |}, w') ->
  fields r !! "type" = Some (VStr (toString (get (body req) "type")))
  /\ In (toString (get (body req) "type")) product_types.
Proof.
  intros H. apply update_product_200_inv in H
    as (Hv & _ & d & img & w1 & _ & _ & Hs).
  apply Document_save_resolved in Hs as (_ & -> & _).
  destruct (assigned_type_lookup (body req) img (hydrate d) Hv) as [Hty Hin].
  split; [exact Hty | now apply isIn_In].
Qed.

Lemma updated_record_type_witness :
  exists r w',
    update_product Examples.env_delete_fails Examples.req_update_tea
      Examples.world_tea
    = (Resolved {| status := 200;
                   json := JProduct "Product updated successfully" (Some r) |}, w')
    /\ fields Examples.tea_doc !! "type" = Some (VStr "Veg")
    /\ fields r !! "type" = Some (VStr "Beverage").
Proof.
  set (out := update_product Examples.env_delete_fails Examples.req_update_tea
                Examples.world_tea).
  assert (E : out = (Resolved {| status := 200;
                                 json := JProduct "Product updated successfully"
                                           (Some Examples.chai_doc) |}, snd out))
    by (vm_compute; reflexivity).
  exists Examples.chai_doc, (snd out). split; [exact E|].
  split; [vm_compute; reflexivity|].
  destruct (updated_record_type _ _ _ _ _ _ E) as [Hty _]. exact Hty.
Defined.

(** Looking up [k] through assignments to other paths. *)
Ltac strip_other_sets :=
  repeat match goal with
         | |- context [d_fields (set ?n ?v ?d) !! ?k] =>
             lazymatch n with
             | k => fail
             | _ => rewrite (set_lookup_other n k v d) by discriminate
             end
         end.

Lemma set_absorb (k : string) (v : value) (d d' : Document) :
  d_fields d !! k = d_fields (set k v d') !! k ->
  d_fields (set k v d) = d_fields d.
Proof.
  unfold set. destruct (schema_path k) as [p|]; [|reflexivity].
  destruct v; cbn [d_fields];
    try (destruct (cast p _); cbn [d_fields]; [|reflexivity]);
    intros H.
  all: first [ apply delete_id; rewrite H; apply lookup_delete_eq
             | apply insert_id; rewrite H; apply lookup_insert_eq ].
Qed.

Lemma replace_doc_found (r : Doc) (l : list Doc) :
  find_doc (_id r) l = Some r -> replace_doc r l = l.
Proof.
  unfold find_doc. induction l as [|x l IH]; [reflexivity|].
  cbn [List.find replace_doc]. destruct (has_id (_id r) x).
  - now intros [= ->].
  - intros H. now rewrite IH.
Qed.

(** X27. An Update without a file is idempotent: when it has answered 200
    for a record whose imageUrl is null or a string, the same request sent
    again, and served by the store, answers 200 with the same record and
    leaves the collection as it is. *)
Theorem update_without_file_is_idempotent (env1 env2 : Env) (req : Request)
    (w w1 : World) (m : string) (d r : Doc) :
  file req = None ->
  find_doc (params_id req) (products w) = Some d ->
  Coverage.string_or_null (fields d !! "imageUrl") ->
  update_product env1 req w
  = (Resolved {| status := 200; json := JProduct m (Some r) |}, w1) ->
  findById_error env2 = None ->
  save_error env2 = None ->
  exists w2,
    update_product env2 req w1
    = (Resolved {| status := 200;
                   json := JProduct "Product updated successfully" (Some r) |},
       w2)
    /\ products w2 = products w1
    /\ bucket w2 = bucket w1.
Proof.
  intros Hfile Hd Himg H1 Hf2 Hsave2.
  pose proof (update_product_200_inv _ _ _ _ _ _ H1)
    as (Hv & _ & d0 & img & w0 & Hd0 & Hrep & Hs).
  rewrite Hd in Hd0. injection Hd0 as <-.
  rewrite Hfile in Hrep. cbn [replace_image mret M_ret] in Hrep.
  injection Hrep as <- <-.
  set (img := get (d_fields (hydrate d)) "imageUrl") in *.
  set (d1 := assign_fields (sanitize (body req)) img (hydrate d)) in *.
  destruct (Document_save_stored env1 d1
              (record_call (Call_findById (params_id req)) w) (createdAt d))
    as (res & w1' & Hs' & _ & _ & Hcases).
  { unfold d1. now rewrite assign_fields_d_createdAt. }
  pose proof (eq_trans (eq_sym Hs) Hs') as Hsame. injection Hsame as <- <-.
  clear Hs'.
  destruct Hcases as [[[e [=]] _]|[[= ->] Hp1]].
  rewrite record_call_products in Hp1. cbn [d_fields hydrate] in img.
  pose proof (find_doc_has_id _ _ _ Hd) as Hdid.
  set (r := {| _id := d_id d1; fields := d_fields d1; createdAt := createdAt d |})
    in *.
  assert (Hrid : _id r = params_id req).
  { unfold r, d1. cbn [_id]. now rewrite assign_fields_d_id. }
  assert (Hfound : find_doc (params_id req) (products w1) = Some r).
  { rewrite Hp1. now apply (find_doc_replace_doc _ _ d). }
  (* the image read back is the one assigned *)
  assert (Himg2 : get (fields r) "imageUrl" = img).
  { unfold r, d1, assign_fields, img, get. cbn [fields d_fields hydrate].
    destruct (fields d !! "imageUrl") as [[| |b|x|s]|]; cbn [default];
      try contradiction.
    - erewrite set_lookup_same; [reflexivity | reflexivity | discriminate | reflexivity].
    - erewrite set_lookup_same; [reflexivity | reflexivity | discriminate | reflexivity]. }
  rewrite (update_product_found env2 req w1 r Hv Hf2 Hfound), Hfile.
  cbn [replace_image mret M_ret]. cbn [d_fields hydrate]. rewrite Himg2.
  set (d2 := assign_fields (sanitize (body req)) img (hydrate r)).
  assert (Hfields : d_fields d2 = d_fields d1).
  { unfold d2, assign_fields.
    assert (Hstart : d_fields (hydrate r) = d_fields d1) by reflexivity.
    unfold d1, assign_fields in Hstart |- *.
    repeat
      (etransitivity;
       [eapply set_absorb; strip_other_sets; rewrite Hstart;
        strip_other_sets; reflexivity|]).
    exact Hstart. }
  assert (Hvalid2 : validate d2 = []).
  { pose proof (Document_save_resolved _ _ _ _ _ Hs) as (Hvalid1 & _ & _).
    unfold validate in Hvalid1 |- *. rewrite Hfields.
    apply app_eq_nil in Hvalid1 as [_ Hpaths].
    unfold d2 at 1. rewrite assigned_product_invalid_nil by exact Hv.
    exact Hpaths. }
  assert (Hs2 : Document_save env2 d2
                  (record_call (Call_findById (params_id req)) w1)
                = (Resolved r,
                   set_products (replace_doc r (products w1))
                     (record_call (Call_save (d_id d2))
                        (record_call (Call_findById (params_id req)) w1)))).
  { unfold Document_save. rewrite Hvalid2, Hsave2.
    unfold d2 at 1. rewrite assign_fields_d_createdAt. cbn [d_createdAt hydrate].
    cbn [products record_call].
    assert (Hid2 : d_id d2 = params_id req)
      by (unfold d2; now rewrite assign_fields_d_id).
    rewrite Hid2, Hfound, Hfields.
    assert (Hr : {| _id := params_id req; fields := d_fields d1;
                    createdAt := createdAt r |} = r).
    { unfold r. cbn [createdAt]. f_equal. unfold d1.
      now rewrite assign_fields_d_id. }
    now rewrite Hr. }
  rewrite Hs2. eexists. split; [reflexivity|].
  cbn [products bucket set_products record_call].
  split; [|reflexivity].
  apply replace_doc_found. now rewrite Hrid.
Qed.

Lemma update_without_file_is_idempotent_witness :
  exists r w1 w2,
    update_product Examples.env_ok Coverage.req_update_tea_no_file
      Examples.world_tea
    = (Resolved {| status := 200;
                   json := JProduct "Product updated successfully" (Some r) |}, w1)
    /\ update_product Examples.env_ok Coverage.req_update_tea_no_file w1
       = (Resolved {| status := 200;
                      json := JProduct "Product updated successfully" (Some r) |},
          w2)
    /\ products w2 = products w1.
Proof.
  set (out := update_product Examples.env_ok Coverage.req_update_tea_no_file
                Examples.world_tea).
  assert (E : exists r,
             out = (Resolved {| status := 200;
                                json := JProduct "Product updated successfully"
                                          (Some r) |}, snd out)).
  { eexists. vm_compute. reflexivity. }
  destruct E as [r E].
  destruct (update_without_file_is_idempotent Examples.env_ok Examples.env_ok
              Coverage.req_update_tea_no_file Examples.world_tea (snd out)
              "Product updated successfully" Examples.tea_doc r)
    as (w2 & E2 & Hp & _).
  - reflexivity.
  - vm_compute. reflexivity.
  - vm_compute. exact I.
  - exact E.
  - reflexivity.
  - reflexivity.
  - exists r, (snd out), w2. split; [exact E|]. split; [exact E2 | exact Hp].
Defined.

(** *** The image of a record, by the key of its upload *)

Lemma location_nonempty (base key : string) : base +:+ "/" +:+ key <> "".
Proof. destruct base; discriminate. Qed.

(** C6. The update handler derives the key of the previous image from the
    stored URL, and misses it when S3 has escaped the key in the Location.
    "my tea.png" is created, then the record is updated with another image,
    every call being served: the Update answers 200, [deleteObject] goes to
    the key with "%20", and the object that the Create uploaded is still
    in the bucket. *)
Theorem update_after_escaped_location_keeps_previous_asset :
  exists r w1 r' w2,
    create_product Coverage.env_escaped Coverage.req_my_tea Examples.world_empty
    = (Resolved {| status := 201;
                   json := JProduct "Product created successfully" (Some r) |},
       w1)
    /\ calls w1 = [Call_s3_upload "products/1700000000000-my tea.png";
                   Call_save "65a000000000000000000001"]
    /\ bucket w1 !! "products/1700000000000-my tea.png"
       = Some {| Body := "PNG"; ContentType := "image/png" |}
    /\ get (fields r) "imageUrl"
       = VStr "https://bucket.s3.amazonaws.com/products/1700000000000-my%20tea.png"
    /\ s3_delete_error Coverage.env_escaped_later = None
    /\ update_product Coverage.env_escaped_later Coverage.req_update_my_tea w1
       = (Resolved {| status := 200;
                      json := JProduct "Product updated successfully" (Some r') |},
          w2)
    /\ calls w2
       = calls w1
           ++ [Call_findById "65a000000000000000000001";
               Call_s3_deleteObject "products/1700000000000-my%20tea.png";
               Call_s3_upload "products/1700000000900-chai.png";
               Call_save "65a000000000000000000001"]
    /\ bucket w2 !! "products/1700000000000-my tea.png"
       = Some {| Body := "PNG"; ContentType := "image/png" |}.
Proof.
  set (out1 := create_product Coverage.env_escaped Coverage.req_my_tea
                 Examples.world_empty).
  assert (E1 : exists r,
             out1 = (Resolved {| status := 201;
                                 json := JProduct "Product created successfully"
                                           (Some r) |}, snd out1)).
  { eexists. vm_compute. reflexivity. }
  destruct E1 as [r E1].
  set (out2 := update_product Coverage.env_escaped_later
                 Coverage.req_update_my_tea (snd out1)).
  assert (E2 : exists r',
             out2 = (Resolved {| status := 200;
                                 json := JProduct "Product updated successfully"
                                           (Some r') |}, snd out2)).
  { eexists. vm_compute. reflexivity. }
  destruct E2 as [r' E2].
  exists r, (snd out1), r', (snd out2).
  split; [exact E1|]. split; [vm_compute; reflexivity|].
  split; [vm_compute; reflexivity|].
  split.
  { assert (Hr : fst out1
                 = Resolved {| status := 201;
                               json := JProduct "Product created successfully"
                                         (Some r) |}) by now rewrite E1.
    vm_compute in Hr. injection Hr as <-. vm_compute. reflexivity. }
  split; [reflexivity|]. split; [exact E2|].
  split; vm_compute; reflexivity.
Qed.

(** X3. Delete removes the image before the record. For a record whose
    imageUrl is the Location of its upload (a prefix, a slash and the key
    products/<Date.now()>-<originalname>, the name without a slash): when
    S3 serves the delete and the store then rejects [findByIdAndDelete],
    the request is answered 500 "Failed to delete product", the record is
    still in the collection with its imageUrl, and the object under the key
    of its upload has left the bucket. *)
Theorem delete_store_rejected_after_image_removed
    (env env0 : Env) (req : Request) (w : World) (d : Doc) (f0 : File)
    (base e : string) :
  findById_error env = None ->
  find_doc (params_id req) (products w) = Some d ->
  get (fields d) "imageUrl" = VStr (base +:+ "/" +:+ upload_filename env0 f0) ->
  Coverage.no_slash (originalname f0) = true ->
  s3_delete_error env = None ->
  findByIdAndDelete_error env = Some e ->
  exists w',
    delete_product env req w
    = (Resolved {| status := 500;
                   json := JFailure "Failed to delete product" e |}, w')
    /\ products w' = products w
    /\ find_doc (params_id req) (products w') = Some d
    /\ bucket w' = delete (upload_filename env0 f0) (bucket w)
    /\ bucket w' !! upload_filename env0 f0 = None.
Proof.
  intros Hfind Hd Hurl Hname Hs3 Hdel.
  pose proof (delete_store_rejected_at_key env req w d _ e Hfind Hd Hurl
                (location_nonempty _ _) Hs3 Hdel) as H.
  rewrite (uploaded_key_of_location env0 f0 base Hname) in H. exact H.
Qed.

Lemma delete_store_rejected_after_image_removed_witness :
  bucket Examples.world_tea !! upload_filename Examples.env_ok Examples.tea_png
  = Some (upload_object Examples.tea_png)
  /\ exists w',
       delete_product Coverage.env_store_delete_fails Examples.req_delete_tea
         Examples.world_tea
       = (Resolved {| status := 500;
                      json := JFailure "Failed to delete product"
                                "connection lost" |}, w')
       /\ find_doc (params_id Examples.req_delete_tea) (products w')
          = Some Examples.tea_doc
       /\ bucket w' !! upload_filename Examples.env_ok Examples.tea_png = None.
Proof.
  split; [vm_compute; reflexivity|].
  destruct (delete_store_rejected_after_image_removed
              Coverage.env_store_delete_fails Examples.env_ok
              Examples.req_delete_tea Examples.world_tea Examples.tea_doc
              Examples.tea_png "https://bucket.s3.amazonaws.com"
              "connection lost")
    as (w' & E & _ & Hf & _ & Hb).
  - reflexivity.
  - reflexivity.
  - vm_compute. reflexivity.
  - reflexivity.
  - reflexivity.
  - reflexivity.
  - exists w'. split; [exact E|]. split; [exact Hf|exact Hb].
Defined.

(** X17. An Update with a new file deletes the stored image before it
    uploads the new one. For a record whose imageUrl is the Location of its
    upload (a prefix, a slash and the key, the name without a slash): when
    S3 serves the delete and then rejects the upload, the answer is 400
    "Image upload failed", the record is unchanged and still points to the
    old image, and the object under the key of that image's upload is no
    longer in the bucket. *)
Theorem update_upload_rejected_loses_image (env env0 : Env) (req : Request)
    (w : World) (d : Doc) (f f0 : File) (base e : string) :
  validateProduct (body req) = [] ->
  findById_error env = None ->
  find_doc (params_id req) (products w) = Some d ->
  file req = Some f ->
  get (fields d) "imageUrl" = VStr (base +:+ "/" +:+ upload_filename env0 f0) ->
  Coverage.no_slash (originalname f0) = true ->
  s3_delete_error env = None ->
  s3_upload_error env = Some e ->
  exists w',
    update_product env req w
    = (Resolved {| status := 400;
                   json := JFailure "Failed to update product"
                             "Image upload failed" |}, w')
    /\ products w' = products w
    /\ find_doc (params_id req) (products w') = Some d
    /\ bucket w' = delete (upload_filename env0 f0) (bucket w)
    /\ bucket w' !! upload_filename env0 f0 = None.
Proof.
  intros Hv Hf Hd Hfile Hurl Hname Hdel Hup.
  pose proof (update_upload_rejected_at_key env req w d f _ e Hv Hf Hd Hfile
                Hurl (location_nonempty _ _) Hdel Hup) as H.
  rewrite (uploaded_key_of_location env0 f0 base Hname) in H. exact H.
Qed.

Lemma update_upload_rejected_loses_image_witness :
  bucket Examples.world_tea !! upload_filename Examples.env_ok Examples.tea_png
  = Some (upload_object Examples.tea_png)
  /\ exists w',
       update_product Coverage.env_upload_fails Examples.req_update_tea
         Examples.world_tea
       = (Resolved {| status := 400;
                      json := JFailure "Failed to update product"
                                "Image upload failed" |}, w')
       /\ find_doc "65a000000000000000000001" (products w')
          = Some Examples.tea_doc
       /\ bucket w' !! upload_filename Examples.env_ok Examples.tea_png = None.
Proof.
  split; [vm_compute; reflexivity|].
  destruct (update_upload_rejected_loses_image Coverage.env_upload_fails
              Examples.env_ok Examples.req_update_tea Examples.world_tea
              Examples.tea_doc Examples.chai_png Examples.tea_png
              "https://bucket.s3.amazonaws.com" "RequestTimeout")
    as (w' & E & _ & Hd & _ & Hgone).
  - vm_compute. reflexivity.
  - reflexivity.
  - vm_compute. reflexivity.
  - reflexivity.
  - vm_compute. reflexivity.
  - reflexivity.
  - reflexivity.
  - reflexivity.
  - exists w'. split; [exact E|]. split; [exact Hd | exact Hgone].
Defined.

(** X18. When the save of an Update is rejected after the image has been
    replaced, for a record whose imageUrl is the Location of its upload (a
    prefix, a slash and the key, the name without a slash): the answer is
    400 and the record is unchanged, while the bucket has already lost the
    object under the key of the old image's upload and holds the new one,
    to which no record points. *)
Theorem update_save_rejected_after_image_replaced (env env0 : Env)
    (req : Request) (w : World) (d : Doc) (f f0 : File) (base e : string) :
  validateProduct (body req) = [] ->
  findById_error env = None ->
  find_doc (params_id req) (products w) = Some d ->
  file req = Some f ->
  get (fields d) "imageUrl" = VStr (base +:+ "/" +:+ upload_filename env0 f0) ->
  Coverage.no_slash (originalname f0) = true ->
  s3_delete_error env = None ->
  s3_upload_error env = None ->
  save_error env = Some e ->
  exists details w',
    update_product env req w
    = (Resolved {| status := 400;
                   json := JFailure "Failed to update product" details |}, w')
    /\ products w' = products w
    /\ bucket w'
       = <[upload_filename env f := upload_object f]>
           (delete (upload_filename env0 f0) (bucket w))
    /\ (upload_filename env f <> upload_filename env0 f0 ->
        bucket w' !! upload_filename env0 f0 = None
        /\ bucket w' !! upload_filename env f = Some (upload_object f)).
Proof.
  intros Hv Hf Hd Hfile Hurl Hname Hdel Hup Hsave.
  pose proof (update_save_rejected_at_key env req w d f _ e Hv Hf Hd Hfile
                Hurl (location_nonempty _ _) Hdel Hup Hsave) as H.
  rewrite (uploaded_key_of_location env0 f0 base Hname) in H. exact H.
Qed.

Lemma update_save_rejected_after_image_replaced_witness :
  bucket Examples.world_tea !! upload_filename Examples.env_ok Examples.tea_png
  = Some (upload_object Examples.tea_png)
  /\ exists details w',
       update_product Examples.env_save_fails Examples.req_update_tea
         Examples.world_tea
       = (Resolved {| status := 400;
                      json := JFailure "Failed to update product" details |}, w')
       /\ products w' = products Examples.world_tea
       /\ bucket w' !! upload_filename Examples.env_ok Examples.tea_png = None.
Proof.
  split; [vm_compute; reflexivity|].
  destruct (update_save_rejected_after_image_replaced Examples.env_save_fails
              Examples.env_ok Examples.req_update_tea Examples.world_tea
              Examples.tea_doc Examples.chai_png Examples.tea_png
              "https://bucket.s3.amazonaws.com" "connection lost")
    as (details & w' & E & Hp & _ & Hkeys).
  - vm_compute. reflexivity.
  - reflexivity.
  - vm_compute. reflexivity.
  - reflexivity.
  - vm_compute. reflexivity.
  - reflexivity.
  - reflexivity.
  - reflexivity.
  - reflexivity.
  - exists details, w'. split; [exact E|]. split; [exact Hp|].
    apply Hkeys. vm_compute. discriminate.
Defined.

(** X28. Update of an existing record with a new image, when the record's
    imageUrl is the Location of its upload (a prefix, a slash and the key
    products/<Date.now()>-<originalname>, the name without a slash):
    [deleteObject] for the key of that upload is issued before the upload of
    the new object; a rejected delete is only logged, and the answer and
    the stored records are the same whatever the delete does; a rejected
    upload makes the request fail with "Image upload failed", with no save
    issued and the collection as it was. When the delete is served, the
    object of the previous image is gone from the bucket. *)
Theorem update_replaces_image
    (env env0 : Env) (req : Request) (w : World) (d : Doc) (f f0 : File)
    (base : string) :
  validateProduct (body req) = [] ->
  file req = Some f ->
  findById_error env = None ->
  find_doc (params_id req) (products w) = Some d ->
  get (fields d) "imageUrl" = VStr (base +:+ "/" +:+ upload_filename env0 f0) ->
  Coverage.no_slash (originalname f0) = true ->
  let oldKey := upload_filename env0 f0 in
  let newKey := upload_filename env f in
  let warned :=
    match s3_delete_error env with
    | Some _ => [Call_console_warn "Failed to delete old image:"]
    | None => []
    end in
  exists r w' rest,
    update_product env req w = (Resolved r, w')
    /\ calls w'
       = calls w ++ [Call_findById (params_id req); Call_s3_deleteObject oldKey]
           ++ warned ++ [Call_s3_upload newKey] ++ rest
    /\ (s3_upload_error env = None ->
        exists rest', rest = Call_save (params_id req) :: rest')
    /\ (forall e, s3_upload_error env = Some e ->
        r = {| status := 400;
               json := JFailure "Failed to update product" "Image upload failed" |}
        /\ products w' = products w
        /\ rest = [Call_console_error "S3 upload error:";
                   Call_console_error "Product update error:"])
    /\ (forall o, exists w'',
          update_product (with_s3_delete_error o env) req w = (Resolved r, w'')
          /\ products w'' = products w')
    /\ (s3_delete_error env = None -> oldKey <> newKey ->
        bucket w' !! oldKey = None).
Proof.
  intros Hv Hf Hfind Hd Hurl Hname.
  pose proof (update_image_block_trace env req w d f _ Hv Hf Hfind Hd Hurl
                (location_nonempty _ _)) as H.
  cbv zeta in H. rewrite (uploaded_key_of_location env0 f0 base Hname) in H.
  exact H.
Qed.

Lemma update_replaces_image_witness :
  bucket Examples.world_tea !! upload_filename Examples.env_ok Examples.tea_png
  = Some (upload_object Examples.tea_png)
  /\ exists r w' rest,
       update_product Coverage.env_escaped_later Examples.req_update_tea
         Examples.world_tea = (Resolved r, w')
       /\ calls w'
          = calls Examples.world_tea
              ++ [Call_findById (params_id Examples.req_update_tea);
                  Call_s3_deleteObject
                    (upload_filename Examples.env_ok Examples.tea_png)]
              ++ [Call_s3_upload
                    (upload_filename Coverage.env_escaped_later Examples.chai_png)]
              ++ rest
       /\ bucket w' !! upload_filename Examples.env_ok Examples.tea_png = None.
Proof.
  split; [vm_compute; reflexivity|].
  destruct (update_replaces_image Coverage.env_escaped_later Examples.env_ok
              Examples.req_update_tea Examples.world_tea Examples.tea_doc
              Examples.chai_png Examples.tea_png
              "https://bucket.s3.amazonaws.com")
    as (r & w' & rest & E & Hc & _ & _ & _ & Hgone).
  - vm_compute. reflexivity.
  - reflexivity.
  - reflexivity.
  - reflexivity.
  - vm_compute. reflexivity.
  - reflexivity.
  - exists r, w', rest. split; [exact E|]. split; [exact Hc|].
    apply Hgone; [reflexivity|]. vm_compute. discriminate.
Defined.

(** *** Text bodies are served *)

Lemma text_body_lookup (b : gmap string value) (k : string) (v : value) :
  Coverage.text_body b -> b !! k = Some v -> exists s, v = VStr s.
Proof.
  intros Hb Hk. specialize (Hb k v Hk). cbn in Hb.
  destruct v; try discriminate. eauto.
Qed.

Lemma text_body_form (a b c d : string) :
  Coverage.text_body (Examples.form a b c d).
Proof.
  unfold Examples.form, Coverage.text_body. cbn [list_to_map foldr fst snd].
  repeat (apply map_Forall_insert_2; [reflexivity|]).
  apply map_Forall_empty.
Qed.

(** A unit sent as text is what [get] reads, and what a String path
    stores. *)
Lemma text_unit_get (b : gmap string value) (k : string) :
  Coverage.text_body b -> k <> "itemName" ->
  match b !! k with
  | Some v => exists s, v = VStr s /\ get (sanitize b) k = VStr s
  | None => get (sanitize b) k = VUndefined
  end.
Proof.
  intros Hb Hk. rewrite get_sanitize_other by exact Hk. unfold get.
  destruct (b !! k) as [v|] eqn:E; [|reflexivity].
  destruct (text_body_lookup b k v Hb E) as [s ->]. eauto.
Qed.

Lemma new_product_unit_lookup (env : Env) (b : gmap string value) (img : value)
    (k : string) :
  Coverage.text_body b ->
  k = "primaryUnit" \/ k = "customUnit" ->
  d_fields (Product_new (new_ObjectId env)
              (Coverage.new_product_literal env (sanitize b) img)) !! k
  = b !! k.
Proof.
  intros Hb Hk.
  assert (Hne : k <> "itemName") by (destruct Hk; subst; discriminate).
  pose proof (text_unit_get b k Hb Hne) as Hget.
  unfold Coverage.new_product_literal, Product_new.
  cbn [fold_left fst snd d_fields].
  destruct (b !! k) as [v|].
  - destruct Hget as (s & -> & Hget). apply apply_defaults_lookup_present.
    destruct Hk; subst k; rewrite Hget.
    + do 7 (rewrite set_lookup_other by discriminate).
      eapply set_lookup_same; [reflexivity | discriminate | reflexivity].
    + do 6 (rewrite set_lookup_other by discriminate).
      eapply set_lookup_same; [reflexivity | discriminate | reflexivity].
  - apply apply_defaults_lookup_absent.
    + destruct Hk; subst k; rewrite Hget.
      * do 7 (rewrite set_lookup_other by discriminate).
        eapply set_lookup_unset. reflexivity.
      * do 6 (rewrite set_lookup_other by discriminate).
        eapply set_lookup_unset. reflexivity.
    + intros p Hin Hp. cbn in Hin.
      destruct Hk; subst k;
        repeat (destruct Hin as [<-|Hin]; [try discriminate Hp; reflexivity|]);
        destruct Hin.
Qed.

Lemma assigned_unit_lookup (b : gmap string value) (img : value) (d : Document)
    (k : string) :
  Coverage.text_body b ->
  k = "primaryUnit" \/ k = "customUnit" ->
  d_fields (assign_fields (sanitize b) img d) !! k = b !! k.
Proof.
  intros Hb Hk.
  assert (Hne : k <> "itemName") by (destruct Hk; subst; discriminate).
  pose proof (text_unit_get b k Hb Hne) as Hget.
  unfold assign_fields.
  destruct (b !! k) as [v|].
  - destruct Hget as (s & -> & Hget).
    destruct Hk; subst k; rewrite Hget.
    + do 6 (rewrite set_lookup_other by discriminate).
      eapply set_lookup_same; [reflexivity | discriminate | reflexivity].
    + do 5 (rewrite set_lookup_other by discriminate).
      eapply set_lookup_same; [reflexivity | discriminate | reflexivity].
  - destruct Hk; subst k; rewrite Hget.
    + do 6 (rewrite set_lookup_other by discriminate).
      eapply set_lookup_unset. reflexivity.
    + do 5 (rewrite set_lookup_other by discriminate).
      eapply set_lookup_unset. reflexivity.
Qed.

(** X22. A text body that passes validation is created. For a request
    whose fields are all strings, as a multipart form without repeated
    fields delivers them: when the body passes validation, S3 serves the
    upload (if any), the store serves the save and the fresh id is not
    taken, Create answers 201 "Product created successfully" with the new
    record, which is appended to the collection under the fresh id, is
    dated with the time of the save, and holds primaryUnit and customUnit
    exactly as they were sent. *)
Theorem valid_create_is_served (env : Env) (req : Request) (w : World) :
  Coverage.text_body (body req) ->
  validateProduct (body req) = [] ->
  s3_upload_error env = None ->
  save_error env = None ->
  find_doc (new_ObjectId env) (products w) = None ->
  exists r w',
    create_product env req w
    = (Resolved {| status := 201;
                   json := JProduct "Product created successfully" (Some r) |}, w')
    /\ _id r = new_ObjectId env
    /\ createdAt r = save_time env
    /\ products w' = products w ++ [r]
    /\ fields r !! "primaryUnit" = body req !! "primaryUnit"
    /\ fields r !! "customUnit" = body req !! "customUnit".
Proof.
  intros Hb Hv Hup Hsave Hfresh.
  destruct (create_product_served env req w Hv Hup Hsave Hfresh)
    as (r & w' & E & Hid & Ht & Hp).
  exists r, w'. split; [exact E|]. split; [exact Hid|]. split; [exact Ht|].
  split; [exact Hp|].
  apply create_product_201_inv in E
    as (_ & img & w1 & _ & _ & -> & _ & _ & _).
  split; apply new_product_unit_lookup; auto.
Qed.

Lemma valid_create_is_served_witness :
  exists r w',
    create_product Examples.env_ok Examples.req_tea_image Examples.world_empty
    = (Resolved {| status := 201;
                   json := JProduct "Product created successfully" (Some r) |}, w')
    /\ _id r = "65a000000000000000000001"
    /\ products w' = [r].
Proof.
  destruct (valid_create_is_served Examples.env_ok Examples.req_tea_image
              Examples.world_empty)
    as (r & w' & E & Hid & _ & Hp & _).
  - apply text_body_form.
  - vm_compute. reflexivity.
  - reflexivity.
  - reflexivity.
  - reflexivity.
  - exists r, w'. split; [exact E|]. split; [exact Hid | exact Hp].
Defined.

(** X23. A text body that passes validation updates the record. For a
    request whose fields are all strings, as a multipart form without
    repeated fields delivers them: when the body passes validation, the
    record of the id exists and has a name, the store serves the lookup and
    the save, and S3 serves the upload (if a file is sent), Update answers
    200 "Product updated successfully" with the record now stored under
    the id, which keeps its id, its creation date and its name, and holds
    primaryUnit and customUnit exactly as they were sent. A failing
    deletion of the old image does not change the answer. *)
Theorem valid_update_is_served (env : Env) (req : Request) (w : World)
    (d : Doc) (name : string) :
  Coverage.text_body (body req) ->
  validateProduct (body req) = [] ->
  findById_error env = None ->
  find_doc (params_id req) (products w) = Some d ->
  fields d !! "itemName" = Some (VStr name) -> name <> "" ->
  (file req <> None -> s3_upload_error env = None) ->
  save_error env = None ->
  exists r w',
    update_product env req w
    = (Resolved {| status := 200;
                   json := JProduct "Product updated successfully" (Some r) |}, w')
    /\ _id r = _id d
    /\ createdAt r = createdAt d
    /\ fields r !! "itemName" = Some (VStr name)
    /\ find_doc (params_id req) (products w') = Some r
    /\ fields r !! "primaryUnit" = body req !! "primaryUnit"
    /\ fields r !! "customUnit" = body req !! "customUnit".
Proof.
  intros Hb Hv Hf Hd Hname Hne Hup Hsave.
  destruct (update_product_served env req w d name Hv Hf Hd Hname Hne Hup Hsave)
    as (r & w' & E & Hid & Ht & Hn & Hfound).
  exists r, w'. split; [exact E|]. split; [exact Hid|]. split; [exact Ht|].
  split; [exact Hn|]. split; [exact Hfound|].
  apply update_product_200_inv in E
    as (_ & _ & d0 & img & w1 & _ & _ & Hs).
  apply Document_save_resolved in Hs as (_ & -> & _).
  split; apply assigned_unit_lookup; auto.
Qed.

Lemma valid_update_is_served_witness :
  exists r w',
    update_product Examples.env_delete_fails Examples.req_update_tea
      Examples.world_tea
    = (Resolved {| status := 200;
                   json := JProduct "Product updated successfully" (Some r) |}, w')
    /\ fields r !! "itemName" = Some (VStr "Tea")
    /\ find_doc "65a000000000000000000001" (products w') = Some r.
Proof.
  destruct (valid_update_is_served Examples.env_delete_fails
              Examples.req_update_tea Examples.world_tea Examples.tea_doc "Tea")
    as (r & w' & E & _ & _ & Hn & Hfind & _).
  - apply text_body_form.
  - vm_compute. reflexivity.
  - reflexivity.
  - vm_compute. reflexivity.
  - vm_compute. reflexivity.
  - discriminate.
  - intros _. reflexivity.
  - reflexivity.
  - exists r, w'. split; [exact E|]. split; [exact Hn | exact Hfind].
Defined.
